(** * honeypot-auth: the behavioural risk-scoring engine

    A shallow embedding of the mouse-tracking detectors and of the bot
    detector's scoring pipeline, with the properties the specification
    states about them.

    - [BotDetector]: [unnamed/part_002] (class [BotDetector]).
    - [MouseInteractionDetector]: [js/detectors/mouseInteraction.js].
    - [RemoteDesktopDetector]: [js/detectors/remoteDesktopDetector.js].
    - [Utils], [GraphicsDetector], [BotDetectorPage]: the page utilities,
      the colour-depth test and the bot detector's remaining tests and
      display, all of [unnamed/part_002].
    - [MouseInteractionEvents]: the other listeners and the results of
      [js/detectors/mouseInteraction.js].
    - [RemoteDesktopVerdict], [RemoteDesktopDetectorKvm]: latency
      tracking and the verdict of both versions in
      [js/detectors/remoteDesktopDetector.js].

    JavaScript numbers are kept abstract behind the class [JSArith] (the
    operators the scoring code uses) and [JSMath] (the [Math] library and
    the special values).  Two instances are given: IEEE-754 binary64
    ([float]: the arithmetic, comparisons, square root and remainder of a
    JavaScript engine, with NaN and the infinities) and exact rationals
    ([Q], the arithmetic the specification's overall score is written in).
    Every function is defined once, over the class. *)

From Stdlib Require Import ZArith QArith Qminmax Qabs Qround Lqa Lia.
From Stdlib Require Import Floats.
From stdpp Require Import gmap strings list pretty.

Set Warnings "-inexact-float".

(** ** JavaScript numbers *)

Class JSArith (N : Type) : Type := {
  num_Z : Z -> N;               (* an integer-valued Number *)
  num_dec : Z -> positive -> N; (* the decimal literal n/d, e.g. 0.25 = 25/100 *)
  num_add : N -> N -> N;
  num_sub : N -> N -> N;
  num_mul : N -> N -> N;
  num_div : N -> N -> N;
  num_neg : N -> N;
  num_ltb : N -> N -> bool;     (* a < b, false as soon as one side is NaN *)
  num_leb : N -> N -> bool;     (* a <= b *)
  Math_min : N -> N -> N;
  Math_max : N -> N -> N;
  Math_abs : N -> N
}.
Arguments num_Z {N _} z%_Z.
Arguments num_dec {N _} n%_Z d%_positive.

Class JSMath (N : Type) `{JSArith N} : Type := {
  Infinity : N;
  NaN : N;                      (* what [undefined] becomes in arithmetic *)
  num_rem : N -> N -> N;        (* a % b *)
  num_eqb : N -> N -> bool;     (* a === b on numbers *)
  Math_sqrt : N -> N;
  Math_exp : N -> N;
  Math_atan2 : N -> N -> N;
  Math_PI : N
}.

Declare Scope js_scope.
Delimit Scope js_scope with js.
Infix "+" := num_add : js_scope.
Infix "-" := num_sub : js_scope.
Infix "*" := num_mul : js_scope.
Infix "/" := num_div : js_scope.
Infix "<?" := num_ltb : js_scope.
Infix "<=?" := num_leb : js_scope.
Notation "a >? b" := (num_ltb b a) : js_scope.
Notation "a >=? b" := (num_leb b a) : js_scope.
Notation "a =? b" := (num_eqb a b) : js_scope.
Abbreviation js := num_Z.

(** [Math.pow(v, 2)], the only power the detectors take. *)
Definition Math_pow2 {N} `{JSArith N} (v : N) : N := (v * v)%js.

(** [xs.reduce((sum, v) => sum + v, 0)]. *)
Definition sum_list {N} `{JSArith N} (xs : list N) : N :=
  foldl (fun sum v => (sum + v)%js) (js 0) xs.

(** *** Exact rationals *)

(** [Qdiv] takes [x / 0] as 0, where a JavaScript engine gives NaN or
    an infinity: the exact instance is faithful only where no divisor is
    zero. *)

Definition Q_ltb (a b : Q) : bool := negb (Qle_bool b a).

#[export] Instance Q_arith : JSArith Q := {|
  num_Z := inject_Z;
  num_dec := Qmake;
  num_add := Qplus;
  num_sub := Qminus;
  num_mul := Qmult;
  num_div := Qdiv;
  num_neg := Qopp;
  num_ltb := Q_ltb;
  num_leb := Qle_bool;
  Math_min := Qmin;
  Math_max := Qmax;
  Math_abs := Qabs
|}.

(** *** IEEE-754 binary64 *)

Module F64.

Definition of_Z (z : Z) : float :=
  SF2Prim (SpecFloat.binary_normalize prec emax z 0 false).

(** A decimal literal denotes the double nearest to n/d; for n and d
    below 2^53 that is the correctly rounded quotient of the two. *)
Definition of_dec (n : Z) (d : positive) : float :=
  PrimFloat.div (of_Z n) (of_Z (Zpos d)).

Definition is_neg_zero (x : float) : bool :=
  PrimFloat.eqb x 0 && PrimFloat.ltb (PrimFloat.div 1 x) 0.

Definition min (x y : float) : float :=
  if PrimFloat.is_nan x || PrimFloat.is_nan y then nan
  else if PrimFloat.ltb x y then x
  else if PrimFloat.ltb y x then y
  else if is_neg_zero x then x else y.

Definition max (x y : float) : float :=
  if PrimFloat.is_nan x || PrimFloat.is_nan y then nan
  else if PrimFloat.ltb x y then y
  else if PrimFloat.ltb y x then x
  else if is_neg_zero x then y else x.

(** [x % y]: the remainder of the truncated quotient, computed exactly
    on mantissas and exponents; it takes the sign of the dividend. *)
Definition rem (x y : float) : float :=
  match Prim2SF x, Prim2SF y with
  | S754_nan, _ | _, S754_nan | S754_infinity _, _ | _, S754_zero _ => nan
  | S754_zero _, _ | S754_finite _ _ _, S754_infinity _ => x
  | S754_finite sx mx ex, S754_finite _ my ey =>
      let e := Z.min ex ey in
      let X := (Zpos mx * 2 ^ (ex - e))%Z in
      let Y := (Zpos my * 2 ^ (ey - e))%Z in
      let R := (X mod Y)%Z in
      if (R =? 0)%Z then (if sx then PrimFloat.opp 0 else 0)%float
      else SF2Prim (SpecFloat.binary_normalize prec emax (if sx then - R else R)%Z e sx)
  end.

Definition PI : float := 0x1.921fb54442d18p+1%float.

Open Scope float_scope.

(** [Math.exp] and [Math.atan2] are implementation-approximated in
    ECMAScript; these are series evaluations after argument reduction. *)
Definition exp_series (x : float) : float :=
  1 + x * (1 + x / 2 * (1 + x / 3 * (1 + x / 4 * (1 + x / 5 * (1 + x / 6 *
  (1 + x / 7 * (1 + x / 8 * (1 + x / 9 * (1 + x / 10 * (1 + x / 11 *
  (1 + x / 12 * (1 + x / 13 * (1 + x / 14))))))))))))).

Fixpoint exp_halving (fuel : nat) (x : float) : float :=
  match fuel with
  | O => exp_series x
  | S fuel' =>
      if PrimFloat.leb (abs x) 0.25 then exp_series x
      else let h := exp_halving fuel' (x / 2) in h * h
  end.

Definition exp (x : float) : float :=
  if PrimFloat.is_nan x then nan
  else if PrimFloat.eqb x infinity then infinity
  else if PrimFloat.eqb x neg_infinity then 0
  else exp_halving 1100 x.

Definition atan_series (x : float) : float :=
  let s := x * x in
  x * (1 - s * (1 / 3 - s * (1 / 5 - s * (1 / 7 - s * (1 / 9 - s *
  (1 / 11 - s * (1 / 13 - s * (1 / 15 - s * (1 / 17 - s / 19))))))))).

(** tan(a/2) from tan(a). *)
Definition half_tangent (x : float) : float := x / (1 + sqrt (1 + x * x)).

(** arctangent on [0, 1]. *)
Definition atan_unit (x : float) : float :=
  4 * atan_series (half_tangent (half_tangent x)).

(** arctangent of a non-negative argument. *)
Definition atan_pos (x : float) : float :=
  if PrimFloat.leb x 1 then atan_unit x else PI / 2 - atan_unit (1 / x).

Definition atan2 (y x : float) : float :=
  if PrimFloat.is_nan x || PrimFloat.is_nan y then nan
  else
    let a := atan_pos (abs (y / x)) in     (* x = 0 gives pi/2 through 1/inf *)
    let a := if PrimFloat.eqb y 0 then (if PrimFloat.ltb x 0 then PI else 0)
             else if PrimFloat.eqb x 0 then PI / 2
             else if PrimFloat.ltb x 0 then PI - a else a in
    if PrimFloat.ltb y 0 then - a else a.

Close Scope float_scope.

End F64.

#[export] Instance float_arith : JSArith float := {|
  num_Z := F64.of_Z;
  num_dec := F64.of_dec;
  num_add := PrimFloat.add;
  num_sub := PrimFloat.sub;
  num_mul := PrimFloat.mul;
  num_div := PrimFloat.div;
  num_neg := PrimFloat.opp;
  num_ltb := PrimFloat.ltb;
  num_leb := PrimFloat.leb;
  Math_min := F64.min;
  Math_max := F64.max;
  Math_abs := PrimFloat.abs
|}.

#[export] Instance float_math : JSMath float := {|
  Infinity := infinity;
  NaN := nan;
  num_rem := F64.rem;
  num_eqb := PrimFloat.eqb;
  Math_sqrt := PrimFloat.sqrt;
  Math_exp := F64.exp;
  Math_atan2 := F64.atan2;
  Math_PI := F64.PI
|}.

(** ** Arrays, strings and tables *)

(** [xs.shift()], its result discarded: the first element goes, and an
    empty array stays empty. *)
Definition Array_shift {A} (xs : list A) : list A := tail xs.

(** [xs.slice(-n)]. *)
Definition slice_last {A} (n : nat) (xs : list A) : list A :=
  drop (length xs - n) xs.

Fixpoint String_includes (needle hay : string) : bool :=
  String.prefix needle hay ||
  match hay with
  | EmptyString => false
  | String _ hay' => String_includes needle hay'
  end.

Definition ascii_lower (c : Ascii.ascii) : Ascii.ascii :=
  let n := Ascii.nat_of_ascii c in
  if (65 <=? n)%nat && (n <=? 90)%nat then Ascii.ascii_of_nat (n + 32) else c.

Fixpoint String_lower (s : string) : string :=
  match s with
  | EmptyString => EmptyString
  | String c s' => String (ascii_lower c) (String_lower s')
  end.

(** [/(a|b|...)/i.test(s)] for literal alternatives. *)
Definition test_any_ci (alternatives : list string) (s : string) : bool :=
  existsb (fun a => String_includes (String_lower a) (String_lower s)) alternatives.

(** A JavaScript object used as a table of numbers, as
    [Object.entries] lists it. *)
Fixpoint entry {N} (key : string) (entries : list (string * N)) : option N :=
  match entries with
  | [] => None
  | (k, v) :: rest => if String.eqb k key then Some v else entry key rest
  end.

(** ** Shared input records *)

Record Position (N : Type) : Type := { x : N; y : N }.
Arguments x {N} _.
Arguments y {N} _.

(** A [mousemove] event as a handler sees it: the pointer position and
    the clock readings the handler takes ([Date.now()] on entry, and the
    later reading of the handlers that take a second one). *)
Record MouseMove (N : Type) : Type := {
  clientX : N;
  clientY : N;
  Date_now : N;
  Date_now_later : N
}.
Arguments clientX {N} _.
Arguments clientY {N} _.
Arguments Date_now {N} _.
Arguments Date_now_later {N} _.

(** What [window.utils.addInfo(section, name, value)] is given.  Number
    formatting ([toFixed], [Math.round], template strings) belongs to the
    presentation layer: the numbers handed to it are recorded. *)
Inductive InfoValue (N : Type) : Type :=
  | Text (s : string)
  | Count (n : nat)
  | Numbers (ns : list N).
Arguments Text {N} s.
Arguments Count {N} n.
Arguments Numbers {N} ns.

(** ** The bot detector ([unnamed/part_002], class [BotDetector]) *)

Module BotDetector.
Section Model.
Context {N : Type} {arith : JSArith N} {math : JSMath N}.
Local Open Scope js_scope.

Record MouseData : Type := {
  movements : nat;
  positions : list (Position N);
  timestamps : list N;
  velocities : list N;
  angles : list N;
  minX : N; maxX : N; minY : N; maxY : N;
  sumX : N; sumY : N;
  minVelocity : N; maxVelocity : N; sumVelocity : N;
  minAngle : N; maxAngle : N; sumAngle : N;
  lastMovementTime : N;
  timeBetweenMovements : list N;
  minTimeBetween : N; maxTimeBetween : N; sumTimeBetween : N
}.

Record SuspiciousPatterns : Type := {
  perfectStraightLines : nat;
  consistentVelocity : bool;
  consistentAngles : bool;
  consistentTimeBetween : bool;
  unnaturalMovement : bool;
  apiAnomalies : bool;
  eventTimingAnomalies : nat
}.

Record Thresholds : Type := {
  minimumSamples : nat;
  velocityVariance : N;
  angleVariance : N;
  timeVariance : N;
  straightLineThreshold : N;
  perfectPatternThreshold : N;
  humanScoreThreshold : N;
  suspiciousScoreThreshold : N;
  botScoreThreshold : N;
  minMovementsForAnalysis : nat;
  consistentAngleThreshold : N;
  consistentVelocityThreshold : N
}.

Record BotData : Type := {
  isHeadlessBrowser : option bool;
  isFakeUserAgent : option bool;
  isUnusualResolution : option bool
}.

(** [this]: the fields of a [BotDetector] the scoring engine reads and
    writes ([sectionId], [sectionTitle] and the unused [eventTimings]
    arrays are left out). *)
Record Detector : Type := {
  mouseData : MouseData;
  suspiciousPatterns : SuspiciousPatterns;
  thresholds : Thresholds;
  scoreWeights : list (string * N);
  detectionScores : gmap string N;
  botData : BotData
}.

Definition set_detectionScores (scores : gmap string N) (d : Detector) : Detector :=
  {| mouseData := mouseData d; suspiciousPatterns := suspiciousPatterns d;
     thresholds := thresholds d; scoreWeights := scoreWeights d;
     detectionScores := scores; botData := botData d |}.

Definition set_suspiciousPatterns (sp : SuspiciousPatterns) (d : Detector) : Detector :=
  {| mouseData := mouseData d; suspiciousPatterns := sp;
     thresholds := thresholds d; scoreWeights := scoreWeights d;
     detectionScores := detectionScores d; botData := botData d |}.

Definition set_mouseData (m : MouseData) (d : Detector) : Detector :=
  {| mouseData := m; suspiciousPatterns := suspiciousPatterns d;
     thresholds := thresholds d; scoreWeights := scoreWeights d;
     detectionScores := detectionScores d; botData := botData d |}.

Definition set_botData (b : BotData) (d : Detector) : Detector :=
  {| mouseData := mouseData d; suspiciousPatterns := suspiciousPatterns d;
     thresholds := thresholds d; scoreWeights := scoreWeights d;
     detectionScores := detectionScores d; botData := b |}.

(** *** The constructor *)

Definition new_mouseData : MouseData := {|
  movements := 0;
  positions := []; timestamps := []; velocities := []; angles := [];
  minX := Infinity; maxX := num_neg Infinity;
  minY := Infinity; maxY := num_neg Infinity;
  sumX := (js 0); sumY := (js 0);
  minVelocity := Infinity; maxVelocity := num_neg Infinity; sumVelocity := (js 0);
  minAngle := Infinity; maxAngle := num_neg Infinity; sumAngle := (js 0);
  lastMovementTime := (js 0);
  timeBetweenMovements := [];
  minTimeBetween := Infinity; maxTimeBetween := num_neg Infinity;
  sumTimeBetween := (js 0)
|}.

Definition new_suspiciousPatterns : SuspiciousPatterns := {|
  perfectStraightLines := 0;
  consistentVelocity := false;
  consistentAngles := false;
  consistentTimeBetween := false;
  unnaturalMovement := false;
  apiAnomalies := false;
  eventTimingAnomalies := 0
|}.

Definition new_thresholds : Thresholds := {|
  minimumSamples := 20;
  velocityVariance := num_dec 5 100;
  angleVariance := (js 8);
  timeVariance := num_dec 5 100;
  straightLineThreshold := (js 20);
  perfectPatternThreshold := num_dec 97 100;
  humanScoreThreshold := num_dec 3 10;
  suspiciousScoreThreshold := num_dec 5 10;
  botScoreThreshold := num_dec 7 10;
  minMovementsForAnalysis := 30;
  consistentAngleThreshold := num_dec 5 100;
  consistentVelocityThreshold := num_dec 1 10
|}.

Definition new_scoreWeights : list (string * N) :=
  [ ("mousePatterns", num_dec 25 100);
    ("headlessBrowser", num_dec 15 100);
    ("fakeUserAgent", num_dec 15 100);
    ("unusualResolution", num_dec 10 100);
    ("rdpDetection", num_dec 10 100);
    ("fingerprinting", num_dec 15 100);
    ("apiFingerprint", num_dec 10 100);
    ("eventTimingPatterns", num_dec 15 100) ].

Definition new_detectionScores : gmap string N :=
  list_to_map
    [ ("mousePatterns", (js 0)); ("headlessBrowser", (js 0)); ("fakeUserAgent", (js 0));
      ("unusualResolution", (js 0)); ("rdpDetection", (js 0)); ("fingerprinting", (js 0));
      ("apiFingerprint", (js 0)); ("eventTimingPatterns", (js 0)); ("overallScore", (js 0)) ].

Definition new_BotDetector : Detector := {|
  mouseData := new_mouseData;
  suspiciousPatterns := new_suspiciousPatterns;
  thresholds := new_thresholds;
  scoreWeights := new_scoreWeights;
  detectionScores := new_detectionScores;
  botData := {| isHeadlessBrowser := None; isFakeUserAgent := None;
                isUnusualResolution := None |}
|}.

(** *** [_setupMouseTracking]: the [mousemove] listener *)

Definition maxSamples : nat := 100.

Definition mousemove (e : MouseMove N) (m : MouseData) : MouseData :=
  let timestamp := Date_now e in
  let position := {| x := clientX e; y := clientY e |} in
  (* Calculate time between movements *)
  let timeDiff := timestamp - lastMovementTime m in
  let timed := (lastMovementTime m >? (js 0)) && (timeDiff >? (js 0)) in
  (* Calculate velocity and angle if we have previous positions *)
  let '(velocities1, minVelocity1, maxVelocity1, sumVelocity1,
        angles1, minAngle1, maxAngle1, sumAngle1) :=
    match last (positions m) with
    | None =>
        (velocities m, minVelocity m, maxVelocity m, sumVelocity m,
         angles m, minAngle m, maxAngle m, sumAngle m)
    | Some prevPosition =>
        let prevTimestamp := default NaN (last (timestamps m)) in
        let dx := x position - x prevPosition in
        let dy := y position - y prevPosition in
        let distance := Math_sqrt (dx * dx + dy * dy) in
        let timeDelta := timestamp - prevTimestamp in
        let velocity := distance / timeDelta in
        let angle := Math_atan2 dy dx * (js 180) / Math_PI in
        let absAngle := Math_abs angle in
        let moved := distance >? (js 0) in
        let timed_delta := timeDelta >? (js 0) in
        (if timed_delta then velocities m ++ [velocity] else velocities m,
         if timed_delta then Math_min (minVelocity m) velocity else minVelocity m,
         if timed_delta then Math_max (maxVelocity m) velocity else maxVelocity m,
         if timed_delta then sumVelocity m + velocity else sumVelocity m,
         if moved then angles m ++ [angle] else angles m,
         if moved then Math_min (minAngle m) absAngle else minAngle m,
         if moved then Math_max (maxAngle m) absAngle else maxAngle m,
         if moved then sumAngle m + absAngle else sumAngle m)
    end in
  let timeBetween1 :=
    if timed then timeBetweenMovements m ++ [timeDiff] else timeBetweenMovements m in
  (* Store position and timestamp *)
  let positions1 := positions m ++ [position] in
  let timestamps1 := timestamps m ++ [timestamp] in
  (* Cap the arrays to prevent memory issues *)
  let full := (maxSamples <? length positions1)%nat in
  {| movements := S (movements m);
     positions := if full then Array_shift positions1 else positions1;
     timestamps := if full then Array_shift timestamps1 else timestamps1;
     velocities := if full then Array_shift velocities1 else velocities1;
     angles := if full then Array_shift angles1 else angles1;
     minX := Math_min (minX m) (x position);
     maxX := Math_max (maxX m) (x position);
     minY := Math_min (minY m) (y position);
     maxY := Math_max (maxY m) (y position);
     sumX := sumX m + x position;
     sumY := sumY m + y position;
     minVelocity := minVelocity1; maxVelocity := maxVelocity1;
     sumVelocity := sumVelocity1;
     minAngle := minAngle1; maxAngle := maxAngle1; sumAngle := sumAngle1;
     lastMovementTime := timestamp;
     timeBetweenMovements := if full then Array_shift timeBetween1 else timeBetween1;
     minTimeBetween :=
       if timed then Math_min (minTimeBetween m) timeDiff else minTimeBetween m;
     maxTimeBetween :=
       if timed then Math_max (maxTimeBetween m) timeDiff else maxTimeBetween m;
     sumTimeBetween :=
       if timed then sumTimeBetween m + timeDiff else sumTimeBetween m |}.

Definition on_mousemove (e : MouseMove N) (d : Detector) : Detector :=
  set_mouseData (mousemove e (mouseData d)) d.

(** A session: the listener run on a stream of events, from the state
    the constructor leaves. *)
Definition replay (events : list (MouseMove N)) : Detector :=
  foldl (fun d e => on_mousemove e d) new_BotDetector events.

(** *** [_analyzeForBotPatterns] *)

(** Whether the movement into position [i] continues a straight line:
    a displacement above ten pixels whose direction differs from the
    previous one by less than [angleVariance] degrees, or by more than
    [180 - angleVariance]. *)
Definition straight_step (t : Thresholds) (distance diff : N) : bool :=
  (distance >? (js 10)) &&
  ((diff <? angleVariance t) || (diff >? ((js 180) - angleVariance t))).

Definition segment_length (position prevPosition : Position N) : N :=
  let dx := x position - x prevPosition in
  let dy := y position - y prevPosition in
  Math_sqrt (dx * dx + dy * dy).

(** The body of [for (let i = 1; i < angles.length; i++)], over the
    indices still to visit.  [positions[i]] may be [undefined] (the
    arrays are indexed by the same [i] but filled independently):
    reading [.x] of it throws a [TypeError], which nothing catches; that
    is [None]. *)
Fixpoint count_straight (t : Thresholds) (m : MouseData) (indices : list nat)
    (prevAngle : N) (prevPosition : option (Position N)) (straightLineCount : nat)
    : option nat :=
  match indices with
  | [] => Some straightLineCount
  | i :: rest =>
      angle ← angles m !! i;
      position ← positions m !! i;
      prev ← prevPosition;
      let diff := Math_abs (angle - prevAngle) in
      let distance := segment_length position prev in
      count_straight t m rest angle (Some position)
        (if straight_step t distance diff then S straightLineCount
         else straightLineCount)
  end.

Definition PERCENTAGE_THRESHOLD {A} `{JSArith A} : A := (js 45).

(** The flags one analysis leaves in [suspiciousPatterns]. *)
Definition pattern_flags (avgVelocity avgAngle avgTimeBetween : N)
    (m : MouseData) (t : Thresholds) (sp : SuspiciousPatterns)
    : option SuspiciousPatterns :=
  (* Check for consistent velocity *)
  let consistentVelocity1 :=
    if (minVelocity m >? js 0) && (avgVelocity >? js 0)
    then (minVelocity m / maxVelocity m) >? perfectPatternThreshold t
    else consistentVelocity sp in
  (* Check for consistent angles (straight lines) *)
  straight ←
    match angles m !! 0%nat with
    | None => Some (consistentAngles sp, perfectStraightLines sp)
    | Some prevAngle =>
        straightLineCount ←
          count_straight t m (seq 1 (length (angles m) - 1)%nat) prevAngle
            (positions m !! 0%nat) 0;
        let straightLinePercentage :=
          js (Z.of_nat straightLineCount) / js (Z.of_nat (length (angles m)))
          * js 100 in
        Some
          (if (straightLinePercentage >? PERCENTAGE_THRESHOLD)
              && (50 <=? length (angles m))%nat
           then (true, straightLineCount)
           else if consistentAngles sp then (false, 0%nat)
           else (consistentAngles sp, perfectStraightLines sp))
    end;
  (* Check for consistent timing *)
  let consistentTimeBetween1 :=
    match timeBetweenMovements m with
    | [] => consistentTimeBetween sp
    | _ :: _ => (minTimeBetween m / maxTimeBetween m) >? perfectPatternThreshold t
    end in
  (* Check for unnatural movement *)
  let unnaturalMovement1 :=
    if (avgVelocity >? js 0) && (minVelocity m >? js 0)
    then
      let minMaxDiff := Math_abs (maxVelocity m - minVelocity m) in
      (minMaxDiff / avgVelocity) <? velocityVariance t
    else unnaturalMovement sp in
  Some {| perfectStraightLines := straight.2;
          consistentVelocity := consistentVelocity1;
          consistentAngles := straight.1;
          consistentTimeBetween := consistentTimeBetween1;
          unnaturalMovement := unnaturalMovement1;
          apiAnomalies := apiAnomalies sp;
          eventTimingAnomalies := eventTimingAnomalies sp |}.

Definition _analyzeForBotPatterns (avgVelocity avgAngle avgTimeBetween : N)
    (d : Detector) : option Detector :=
  sp ← pattern_flags avgVelocity avgAngle avgTimeBetween
         (mouseData d) (thresholds d) (suspiciousPatterns d);
  Some (set_suspiciousPatterns sp d).

(** *** [_calculateBotLikelihood] *)

(** [1 - Math.min(variance, 1)] with
    [variance = (max - min) / (max + min) * 2]. *)
Definition spread_score (lo hi : N) : N :=
  let variance := (hi - lo) / (hi + lo) * (js 2) in
  (js 1) - Math_min variance (js 1).

Record RunState : Type := {
  consecutiveCount : nat;
  maxConsecutive : nat;
  isHighSpeedSequence : bool;
  totalDistance : N
}.

(** The second pass over the angles: the longest run of consecutive
    straight steps, whether one of them was fast, and the distance
    covered.  A missing timestamp is [undefined], which arithmetic turns
    into NaN; a missing position throws as above. *)
Fixpoint scan_runs (t : Thresholds) (m : MouseData) (indices : list nat)
    (prevAngle : N) (prevPosition : option (Position N)) (prevTimestamp : N)
    (r : RunState) : option RunState :=
  match indices with
  | [] => Some r
  | i :: rest =>
      angle ← angles m !! i;
      position ← positions m !! i;
      prev ← prevPosition;
      let timestamp := default NaN (timestamps m !! i) in
      let diff := Math_abs (angle - prevAngle) in
      let distance := segment_length position prev in
      let timeDelta := timestamp - prevTimestamp in
      let speed := if timeDelta >? (js 0) then distance / timeDelta else (js 0) in
      let r' :=
        if straight_step t distance diff
        then {| consecutiveCount := S (consecutiveCount r);
                maxConsecutive := Nat.max (maxConsecutive r) (S (consecutiveCount r));
                isHighSpeedSequence :=
                  if speed >? num_dec 5 10 then true else isHighSpeedSequence r;
                totalDistance := totalDistance r + distance |}
        else {| consecutiveCount := 0;
                maxConsecutive := maxConsecutive r;
                isHighSpeedSequence := isHighSpeedSequence r;
                totalDistance := totalDistance r + distance |} in
      scan_runs t m rest angle (Some position) timestamp r'
  end.

Definition consecutive_score (r : RunState) : N :=
  if (20 <=? maxConsecutive r)%nat && isHighSpeedSequence r
     && (totalDistance r >? (js 500))
  then num_dec 9 10
  else if (15 <=? maxConsecutive r)%nat && isHighSpeedSequence r
  then num_dec 7 10
  else if (25 <=? maxConsecutive r)%nat then num_dec 5 10
  else (js 0).

Definition angle_score (m : MouseData) (sp : SuspiciousPatterns) : N :=
  if consistentAngles sp then
    let straightLinePercentage :=
      (js (Z.of_nat (perfectStraightLines sp))) / (js (Z.of_nat (length (angles m))))
      * (js 100) in
    if (straightLinePercentage >? (js 60)) && (50 <=? length (angles m))%nat
    then num_dec 8 10
    else if (straightLinePercentage >? (js 45)) && (50 <=? length (angles m))%nat
    then num_dec 5 10
    else num_dec 3 10
  else (js 0).

(** The mouse-pattern score: [None] on an uncaught [TypeError]. *)
Definition mousePatternScore (d : Detector) : option N :=
  let m := mouseData d in
  let sp := suspiciousPatterns d in
  let t := thresholds d in
  let score := (js 0) in
  let factorsChecked := 0%nat in
  (* Check for consistent velocity *)
  let '(score, factorsChecked) :=
    match velocities m with
    | [] => (score, factorsChecked)
    | _ :: _ =>
        (score + (if consistentVelocity sp then (js 1)
                   else spread_score (minVelocity m) (maxVelocity m)),
         S factorsChecked)
    end in
  (* Check for straight lines *)
  let '(score, factorsChecked) :=
    match angles m with
    | [] => (score, factorsChecked)
    | _ :: _ => (score + angle_score m sp, S factorsChecked)
    end in
  (* Check for consistent timing *)
  let '(score, factorsChecked) :=
    match timeBetweenMovements m with
    | [] => (score, factorsChecked)
    | _ :: _ =>
        (score + (if consistentTimeBetween sp then (js 1)
                   else spread_score (minTimeBetween m) (maxTimeBetween m)),
         S factorsChecked)
    end in
  (* Consecutive straight lines *)
  runs ←
    (if (minimumSamples t <? length (angles m))%nat
     then
       r ← scan_runs t m (seq 1 (length (angles m) - 1)%nat)
              (default NaN (angles m !! 0%nat)) (positions m !! 0%nat)
              (default NaN (timestamps m !! 0%nat))
              {| consecutiveCount := 0; maxConsecutive := 0;
                 isHighSpeedSequence := false; totalDistance := (js 0) |};
       Some (score + consecutive_score r, S factorsChecked)
     else Some (score, factorsChecked));
  let '(score, factorsChecked) := runs in
  Some (if (0 <? factorsChecked)%nat
        then score / (js (Z.of_nat factorsChecked)) else (js 0)).

Definition _calculateBotLikelihood (d : Detector) : option (Detector * N) :=
  s ← mousePatternScore d;
  Some (set_detectionScores (<["mousePatterns" := s]> (detectionScores d)) d, s).

(** *** [_calculateOverallScore] *)

(** One turn of [for (const [key, weight] of Object.entries(scoreWeights))]. *)
Definition add_factor (scores : gmap string N) (totals : N * N)
    (kw : string * N) : N * N :=
  match scores !! kw.1 with
  | Some score => (totals.1 + score * kw.2, totals.2 + kw.2)
  | None => totals
  end.

(** [weightedScore] and [totalWeight] before normalisation.  The second
    step reads [scoreWeights.eventTimingPatterns] without a test: when the
    table has no such entry the weight is [undefined], both sums become
    NaN and [totalWeight > 0] is false; [None] stands for that pair. *)
Definition weighted_totals (weights : list (string * N)) (scores : gmap string N)
    : option (N * N) :=
  let totals := foldl (add_factor scores) ((js 0), (js 0)) weights in
  (* Add event timing score if available *)
  match scores !! "eventTimingPatterns" with
  | Some score =>
      match entry "eventTimingPatterns" weights with
      | Some weight => Some (totals.1 + score * weight, totals.2 + weight)
      | None => None
      end
  | None => Some totals
  end.

Definition normalizedScore (weights : list (string * N)) (scores : gmap string N) : N :=
  match weighted_totals weights scores with
  | Some (weightedScore, totalWeight) =>
      if totalWeight >? (js 0) then weightedScore / totalWeight else (js 0)
  | None => (js 0)
  end.

Definition _calculateOverallScore (d : Detector) : Detector * N :=
  let s := normalizedScore (scoreWeights d) (detectionScores d) in
  (set_detectionScores (<["overallScore" := s]> (detectionScores d)) d, s).

(** *** [_getBotStatusLabel] *)

Definition _getBotStatusLabel (d : Detector) (score : N) : string :=
  if (movements (mouseData d) <? minimumSamples (thresholds d))%nat
  then "Insufficient data"
  else if score >=? botScoreThreshold (thresholds d)
  then "Highly likely to be a bot"
  else if score >=? suspiciousScoreThreshold (thresholds d)
  then "Suspicious patterns detected"
  else if score >=? humanScoreThreshold (thresholds d)
  then "Some unusual patterns"
  else "Likely human".

(** *** [_analyzeAndUpdateResults] *)

Definition pattern_infos (sp : SuspiciousPatterns) : list (string * InfoValue N) :=
  (if consistentVelocity sp
   then [("Suspicious Pattern", Text "Consistent movement velocity")] else []) ++
  (if consistentAngles sp
   then [("Suspicious Pattern", Count (perfectStraightLines sp))] else []) ++
  (if consistentTimeBetween sp
   then [("Suspicious Pattern", Text "Consistent timing between movements")] else []) ++
  (if unnaturalMovement sp
   then [("Suspicious Pattern", Text "Unnatural movement consistency")] else []).

(** One evaluation cycle.  The result is the detector afterwards and
    the entries handed to the presentation layer in this cycle; [None]
    is an uncaught exception. *)
Definition _analyzeAndUpdateResults (d : Detector)
    : option (Detector * list (string * InfoValue N)) :=
  let m := mouseData d in
  if (movements m <? minimumSamples (thresholds d))%nat
  then Some (d, [("Status", Text "Collecting data...");
                 ("Mouse Events", Count (movements m))])
  else
    (* Calculate averages *)
    let avgX := sumX m / (js (Z.of_nat (movements m))) in
    let avgY := sumY m / (js (Z.of_nat (movements m))) in
    let avgVelocity :=
      if (0 <? length (velocities m))%nat
      then sumVelocity m / (js (Z.of_nat (length (velocities m)))) else (js 0) in
    let avgAngle :=
      if (0 <? length (angles m))%nat
      then sumAngle m / (js (Z.of_nat (length (angles m)))) else (js 0) in
    let avgTimeBetween :=
      if (0 <? length (timeBetweenMovements m))%nat
      then sumTimeBetween m / (js (Z.of_nat (length (timeBetweenMovements m))))
      else (js 0) in
    d1 ← _analyzeForBotPatterns avgVelocity avgAngle avgTimeBetween d;
    '(d2, _) ← _calculateBotLikelihood d1;
    let '(d3, _) := _calculateOverallScore d2 in
    let botStatus :=
      _getBotStatusLabel d3 (default NaN (detectionScores d3 !! "overallScore")) in
    Some (d3,
          [ ("Mouse Events", Count (movements m));
            ("Position Range X", Numbers [minX m; maxX m]);
            ("Position Range Y", Numbers [minY m; maxY m]);
            ("Average Position", Numbers [avgX; avgY]);
            ("Velocity (px/ms)", Numbers [minVelocity m; maxVelocity m; avgVelocity]);
            ("Time Between Movements (ms)",
             Numbers [minTimeBetween m; maxTimeBetween m; avgTimeBetween]);
            ("Bot Detection Status", Text botStatus) ]
          ++ pattern_infos (suspiciousPatterns d3)).

(** *** The environment evaluators *)

(** The outcome of [navigator.permissions.query({name: 'notifications'})]
    together with [Notification.permission], as the [then] callback sees
    them.  [Unsettled] is a promise that rejects, never settles, or whose
    callback throws: [.catch(() => {})] swallows all of these. *)
Inductive PermissionsProbe : Type :=
  | Resolved (state Notification_permission : string)
  | Unsettled.

(** The environment attributes the evaluators probe.  Truthiness tests
    ([navigator.webdriver], [window.chrome], ...) are recorded as their
    outcome.  [navigator.plugins], [window.screen] and the window sizes
    are read without a test and are taken to exist, as in every browser;
    [navigator.permissions] is tested first and may be missing. *)
Record Window : Type := {
  userAgent : string;
  webdriver : bool;
  chrome : bool;
  InstallTrigger : bool;
  safari : bool;
  permissions : option PermissionsProbe; (* [None]: no [navigator.permissions] *)
  plugins_length : nat;
  screen_width : N;
  screen_height : N;
  outerWidth : N;
  outerHeight : N
}.

Record TestRun : Type := {
  flagged : bool;       (* isHeadless, isFakeUA, isUnusualResolution *)
  testScore : N;        (* headlessScore, fakeUAScore, resolutionScore *)
  testsRun : nat
}.

Definition no_tests : TestRun :=
  {| flagged := false; testScore := (js 0); testsRun := 0 |}.

(** [testsRun++; if (triggered) { flag = true; score += weight; }] *)
Definition run_test (triggered : bool) (weight : N) (r : TestRun) : TestRun :=
  {| flagged := triggered || flagged r;
     testScore := if triggered then testScore r + weight else testScore r;
     testsRun := S (testsRun r) |}.

(** The same for a test that adds to the score without raising the flag. *)
Definition run_weak_test (triggered : bool) (weight : N) (r : TestRun) : TestRun :=
  {| flagged := flagged r;
     testScore := if triggered then testScore r + weight else testScore r;
     testsRun := S (testsRun r) |}.

(** [testsRun++] for the asynchronous probe: its weight arrives later. *)
Definition start_probe (r : TestRun) : TestRun :=
  {| flagged := flagged r; testScore := testScore r; testsRun := S (testsRun r) |}.

Definition headless_indicators : list string :=
  ["headless"; "Headless"; "puppet"; "Puppet"; "PhantomJS"; "Nightmare";
   "selenium"; "Selenium"; "webdriver"; "WebDriver"].

Definition permissions_inconsistent (p : PermissionsProbe) : bool :=
  match p with
  | Resolved state Notification_permission =>
      String.eqb state "denied" && String.eqb Notification_permission "default"
  | Unsettled => false
  end.

(** [_detectHeadlessBrowser], the synchronous tests in source order. *)
Definition headless_tests (w : Window) : TestRun :=
  let ua := userAgent w in
  let r := run_test (test_any_ci headless_indicators ua) (js 1) no_tests in
  let r := run_test (webdriver w) (js 1) r in
  let r := run_test (String_includes "Chrome" ua && negb (chrome w)) (num_dec 8 10) r in
  let r := match permissions w with Some _ => start_probe r | None => r end in
  run_weak_test (plugins_length w =? 0)%nat (num_dec 3 10) r.

Definition capped_score (r : TestRun) : N :=
  Math_min (js 1) (testScore r / (js (Z.of_nat (testsRun r)))).

Definition _detectHeadlessBrowser (w : Window) (d : Detector) : Detector :=
  let r := headless_tests w in
  set_botData
    {| isHeadlessBrowser := Some (flagged r);
       isFakeUserAgent := isFakeUserAgent (botData d);
       isUnusualResolution := isUnusualResolution (botData d) |}
    (set_detectionScores
       (<["headlessBrowser" := capped_score r]> (detectionScores d)) d).

(** The [then] callback of the permissions probe.  It runs after the
    synchronous part has finished, on the same [headlessScore] and
    [testsRun] variables. *)
Definition permissions_then (w : Window) (d : Detector) : Detector :=
  match permissions w with
  | Some p =>
      if permissions_inconsistent p then
        let r := headless_tests w in
        let r' := {| flagged := true;
                     testScore := testScore r + num_dec 7 10;
                     testsRun := testsRun r |} in
        (_calculateOverallScore
           (set_detectionScores
              (<["headlessBrowser" := capped_score r']> (detectionScores d)) d)).1
      else d
  | None => d
  end.

(** The evaluator once its probe has settled. *)
Definition headless_settled (w : Window) (d : Detector) : Detector :=
  permissions_then w (_detectHeadlessBrowser w d).

Definition is_digit (c : Ascii.ascii) : bool :=
  let n := Ascii.nat_of_ascii c in (48 <=? n)%nat && (n <=? 57)%nat.

(** [/needle(\d+)/.test(hay)]. *)
Fixpoint includes_with_digit (needle hay : string) : bool :=
  (String.prefix needle hay &&
   match String.get (String.length needle) hay with
   | Some c => is_digit c
   | None => false
   end) ||
  match hay with
  | EmptyString => false
  | String _ hay' => includes_with_digit needle hay'
  end.

(** [_detectFakeUserAgent]. *)
Definition fakeUA_tests (w : Window) : TestRun :=
  let ua := userAgent w in
  let r := run_test (String_includes "Firefox" ua && negb (InstallTrigger w)) (js 1) no_tests in
  let r := run_test (String_includes "Safari" ua && negb (safari w)
                     && negb (String_includes "Chrome" ua)) (js 1) r in
  let r := run_test (String_includes "Chrome" ua && negb (chrome w)) (js 1) r in
  let r := run_test (String_includes "Windows" ua && String_includes "Mac OS X" ua) (js 1) r in
  let r := run_test (String_includes "Android" ua && String_includes "Windows" ua) (js 1) r in
  run_test (includes_with_digit "Chrome/" ua && includes_with_digit "Firefox/" ua) (js 1) r.

Definition _detectFakeUserAgent (w : Window) (d : Detector) : Detector :=
  let r := fakeUA_tests w in
  set_botData
    {| isHeadlessBrowser := isHeadlessBrowser (botData d);
       isFakeUserAgent := Some (flagged r);
       isUnusualResolution := isUnusualResolution (botData d) |}
    (set_detectionScores
       (<["fakeUserAgent" :=
            if (0 <? testsRun r)%nat then capped_score r else (js 0)]>
          (detectionScores d)) d).

(** [_detectUnusualScreenResolution]. *)
Definition resolution_tests (w : Window) : TestRun :=
  let r := run_test ((screen_width w <=? (js 1)) || (screen_height w <=? (js 1))) (js 1) no_tests in
  let r := run_test ((screen_width w >? (js 8000)) || (screen_height w >? (js 8000)))
             (num_dec 8 10) r in
  let r := run_test ((outerWidth w >? screen_width w)
                     || (outerHeight w >? screen_height w)) (num_dec 9 10) r in
  let aspectRatio := screen_width w / screen_height w in
  run_test ((aspectRatio <? num_dec 5 10) || (aspectRatio >? (js 3))) (num_dec 7 10) r.

Definition _detectUnusualScreenResolution (w : Window) (d : Detector) : Detector :=
  let r := resolution_tests w in
  set_botData
    {| isHeadlessBrowser := isHeadlessBrowser (botData d);
       isFakeUserAgent := isFakeUserAgent (botData d);
       isUnusualResolution := Some (flagged r) |}
    (set_detectionScores
       (<["unusualResolution" :=
            if (0 <? testsRun r)%nat then capped_score r else (js 0)]>
          (detectionScores d)) d).

End Model.
End BotDetector.

(** ** The mouse interaction detector ([js/detectors/mouseInteraction.js]) *)

Module MouseInteractionDetector.
Section Model.
Context {N : Type} {arith : JSArith N} {math : JSMath N}.
Local Open Scope js_scope.

Record MouseData : Type := {
  movements : nat;
  clicks : nat;
  scrollEvents : nat;
  (* Position tracking *)
  positions : list (Position N);
  timestamps : list N;
  minX : N; maxX : N; minY : N; maxY : N;
  sumX : N; sumY : N;
  (* Movement speed tracking *)
  velocities : list N;
  minVelocity : N; maxVelocity : N; sumVelocity : N;
  (* Time between movements *)
  lastMovementTime : N;
  timeBetweenMovements : list N;
  minTimeBetween : N; maxTimeBetween : N; sumTimeBetween : N;
  (* Track mouse presence in viewport *)
  isMouseInViewport : bool;
  mouseEntryCount : nat;
  mouseExitCount : nat;
  timeInViewport : N;
  viewportEntryTime : N;
  (* Remote detection metrics *)
  straightLineSegments : nat;
  curvedLineSegments : nat;
  velocityConsistencyScores : list N;
  accelerationPatterns : list N;
  movementAngles : list N;
  (* Suspicion score (0-100) *)
  remoteAccessScore : N;
  remoteSuspicionReasons : list (string * list N)
}.

Definition new_mouseData : MouseData := {|
  movements := 0; clicks := 0; scrollEvents := 0;
  positions := []; timestamps := [];
  minX := Infinity; maxX := num_neg Infinity;
  minY := Infinity; maxY := num_neg Infinity;
  sumX := js 0; sumY := js 0;
  velocities := [];
  minVelocity := Infinity; maxVelocity := num_neg Infinity; sumVelocity := js 0;
  lastMovementTime := js 0;
  timeBetweenMovements := [];
  minTimeBetween := Infinity; maxTimeBetween := num_neg Infinity;
  sumTimeBetween := js 0;
  isMouseInViewport := false;
  mouseEntryCount := 0; mouseExitCount := 0;
  timeInViewport := js 0; viewportEntryTime := js 0;
  straightLineSegments := 0; curvedLineSegments := 0;
  velocityConsistencyScores := []; accelerationPatterns := [];
  movementAngles := [];
  remoteAccessScore := js 0;
  remoteSuspicionReasons := []
|}.

(** *** [_analyzeRemoteAccessPatterns] *)

Definition isCardinalAngle (angle : N) : bool :=
  let normalized := num_rem (num_rem angle (js 360) + js 360) (js 360) in
  existsb
    (fun cardinal =>
       (Math_abs (normalized - cardinal) <? js 5)
       || (Math_abs (normalized - cardinal - js 360) <? js 5))
    [js 0; js 90; js 180; js 270].

Definition count_if {A} (f : A -> bool) (xs : list A) : nat :=
  length (filter (fun v => f v = true) xs).

(** The straight-line ratio of the first analysis step. *)
Definition straightLineRatio (m : MouseData) : N :=
  js (Z.of_nat (straightLineSegments m))
  / js (Z.of_nat (straightLineSegments m + curvedLineSegments m)).

(** The score and reasons of one analysis, each reason with the numbers
    its message interpolates. *)
Definition remote_access_findings (m : MouseData) : N * list (string * list N) :=
  let score := js 0 in
  let reasons := [] in
  (* 1. Straight line ratio analysis *)
  let totalSegments := (straightLineSegments m + curvedLineSegments m)%nat in
  let '(score, reasons) :=
    if (10 <? totalSegments)%nat then
      let ratio := straightLineRatio m in
      if ratio >? num_dec 8 10
      then (score + js 25,
            reasons ++ [("Unusually high straight-line movement", [ratio * js 100])])
      else if ratio >? num_dec 65 100
      then (score + js 15,
            reasons ++ [("Elevated straight-line movement", [ratio * js 100])])
      else (score, reasons)
    else (score, reasons) in
  (* 2. Velocity consistency analysis *)
  let '(score, reasons) :=
    if (10 <? length (velocityConsistencyScores m))%nat then
      let avgConsistency :=
        sum_list (velocityConsistencyScores m)
        / js (Z.of_nat (length (velocityConsistencyScores m))) in
      if avgConsistency >? num_dec 9 10
      then (score + js 25,
            reasons ++ [("Unusually consistent movement velocity",
                         [avgConsistency * js 100])])
      else if avgConsistency >? num_dec 8 10
      then (score + js 15,
            reasons ++ [("Elevated movement velocity consistency",
                         [avgConsistency * js 100])])
      else (score, reasons)
    else (score, reasons) in
  (* 3. Movement timing analysis *)
  let '(score, reasons) :=
    if (10 <? length (timeBetweenMovements m))%nat then
      let count := js (Z.of_nat (length (timeBetweenMovements m))) in
      let avg := sumTimeBetween m / count in
      let variance :=
        foldl (fun sum time => sum + Math_pow2 (time - avg)) (js 0)
          (timeBetweenMovements m) / count in
      let stdDev := Math_sqrt variance in
      let consistencyRatio := stdDev / avg in
      let '(score, reasons) :=
        if consistencyRatio <? num_dec 2 10
        then (score + js 20,
              reasons ++ [("Unusually consistent timing between movements", [])])
        else if consistencyRatio <? num_dec 4 10
        then (score + js 10,
              reasons ++ [("Somewhat consistent timing between movements", [])])
        else (score, reasons) in
      if avg >? js 30
      then (score + js 10, reasons ++ [("Elevated movement latency", [avg])])
      else (score, reasons)
    else (score, reasons) in
  (* 4. Angle pattern analysis *)
  let '(score, reasons) :=
    if (10 <? length (movementAngles m))%nat then
      let cardinalCount := count_if isCardinalAngle (movementAngles m) in
      let cardinalRatio :=
        js (Z.of_nat cardinalCount) / js (Z.of_nat (length (movementAngles m))) in
      if cardinalRatio >? num_dec 4 10
      then (score + js 15,
            reasons ++ [("High percentage of cardinal direction movements",
                         [cardinalRatio * js 100])])
      else (score, reasons)
    else (score, reasons) in
  (* 5. Check for unnatural acceleration patterns *)
  let '(score, reasons) :=
    if (10 <? length (accelerationPatterns m))%nat then
      let abruptChanges :=
        count_if (fun acc => Math_abs acc >? num_dec 5 100) (accelerationPatterns m) in
      let abruptRatio :=
        js (Z.of_nat abruptChanges) / js (Z.of_nat (length (accelerationPatterns m))) in
      if abruptRatio >? num_dec 6 10
      then (score + js 15, reasons ++ [("Unnatural acceleration pattern detected", [])])
      else (score, reasons)
    else (score, reasons) in
  (* Cap score at 100 *)
  (Math_min (js 100) score, reasons).

Definition set_findings (f : N * list (string * list N)) (m : MouseData) : MouseData :=
  {| movements := movements m; clicks := clicks m; scrollEvents := scrollEvents m;
     positions := positions m; timestamps := timestamps m;
     minX := minX m; maxX := maxX m; minY := minY m; maxY := maxY m;
     sumX := sumX m; sumY := sumY m;
     velocities := velocities m;
     minVelocity := minVelocity m; maxVelocity := maxVelocity m;
     sumVelocity := sumVelocity m;
     lastMovementTime := lastMovementTime m;
     timeBetweenMovements := timeBetweenMovements m;
     minTimeBetween := minTimeBetween m; maxTimeBetween := maxTimeBetween m;
     sumTimeBetween := sumTimeBetween m;
     isMouseInViewport := isMouseInViewport m;
     mouseEntryCount := mouseEntryCount m; mouseExitCount := mouseExitCount m;
     timeInViewport := timeInViewport m; viewportEntryTime := viewportEntryTime m;
     straightLineSegments := straightLineSegments m;
     curvedLineSegments := curvedLineSegments m;
     velocityConsistencyScores := velocityConsistencyScores m;
     accelerationPatterns := accelerationPatterns m;
     movementAngles := movementAngles m;
     remoteAccessScore := f.1;
     remoteSuspicionReasons := f.2 |}.

Definition _analyzeRemoteAccessPatterns (m : MouseData) : MouseData :=
  (* Only analyze if we have enough data *)
  if (movements m <? 20)%nat then m
  else set_findings (remote_access_findings m) m.

(** *** [_setupMouseTracking]: the [mousemove] listener *)

Definition maxSamples : nat := 200.

Definition same_position (a b : Position N) : bool :=
  (x a =? x b) && (y a =? y b).

(** The area of the triangle on three points. *)
Definition triangle_area (p1 p2 p3 : Position N) : N :=
  Math_abs ((x p1 * (y p2 - y p3) + x p2 * (y p3 - y p1)
             + x p3 * (y p1 - y p2)) / js 2).

Definition distance_between (a b : Position N) : N :=
  Math_sqrt (Math_pow2 (x b - x a) + Math_pow2 (y b - y a)).

(** [area < distanceThreshold], the threshold a tenth of the longer of
    the two distances. *)
Definition nearly_collinear (p1 p2 p3 : Position N) : bool :=
  let area := triangle_area p1 p2 p3 in
  let distance12 := distance_between p1 p2 in
  let distance23 := distance_between p2 p3 in
  let distanceThreshold := Math_max distance12 distance23 * num_dec 1 10 in
  area <? distanceThreshold.

(** [Math.exp(-10 * variance)] over the last three velocities. *)
Definition consistencyScore (velocities : list N) : N :=
  let velocityHistory := slice_last 3 velocities in
  let count := js (Z.of_nat (length velocityHistory)) in
  let avgVelocity := sum_list velocityHistory / count in
  let velocityVariance :=
    foldl (fun sum v => sum + Math_pow2 (v - avgVelocity)) (js 0) velocityHistory
    / count in
  Math_exp (js (-10) * velocityVariance).

(** The listener after the unchanged-position test, up to the viewport
    mark. *)
Definition track_sample (e : MouseMove N) (m : MouseData) : MouseData :=
  let timestamp := Date_now e in
  let position := {| x := clientX e; y := clientY e |} in
  (* Calculate time between movements *)
  let timeDiff := timestamp - lastMovementTime m in
  let timed := (lastMovementTime m >? js 0) && (timeDiff >? js 0) in
  let timeBetween1 :=
    if timed then timeBetweenMovements m ++ [timeDiff] else timeBetweenMovements m in
  (* Calculate velocity and analyze movement patterns *)
  let len := length (positions m) in
  let '(angles1, velocities1, stats, accelerations1, consistency1, segments) :=
    match last (positions m) with
    | None =>
        (movementAngles m, velocities m,
         (minVelocity m, maxVelocity m, sumVelocity m),
         accelerationPatterns m, velocityConsistencyScores m,
         (straightLineSegments m, curvedLineSegments m))
    | Some prevPosition =>
        let prevTimestamp := default NaN (last (timestamps m)) in
        let dx := x position - x prevPosition in
        let dy := y position - y prevPosition in
        let distance := Math_sqrt (dx * dx + dy * dy) in
        let angle := Math_atan2 dy dx * js 180 / Math_PI in
        let timeDelta := timestamp - prevTimestamp in
        let velocity := distance / timeDelta in
        let velocities1 := velocities m ++ [velocity] in
        let prevVelocity :=
          default NaN (velocities1 !! (length velocities1 - 2)%nat) in
        let acceleration := (velocity - prevVelocity) / timeDelta in
        (movementAngles m ++ [angle],
         if timeDelta >? js 0 then velocities1 else velocities m,
         if timeDelta >? js 0
         then (Math_min (minVelocity m) velocity,
               Math_max (maxVelocity m) velocity,
               sumVelocity m + velocity)
         else (minVelocity m, maxVelocity m, sumVelocity m),
         if (timeDelta >? js 0) && (1 <? length velocities1)%nat
         then accelerationPatterns m ++ [acceleration]
         else accelerationPatterns m,
         if (timeDelta >? js 0) && (2 <? length velocities1)%nat
         then velocityConsistencyScores m ++ [consistencyScore velocities1]
         else velocityConsistencyScores m,
         (* Detect straight line segments *)
         if (2 <? len)%nat then
           match positions m !! (len - 3)%nat, positions m !! (len - 2)%nat with
           | Some p1, Some p2 =>
               if nearly_collinear p1 p2 position
               then (S (straightLineSegments m), curvedLineSegments m)
               else (straightLineSegments m, S (curvedLineSegments m))
           | _, _ => (straightLineSegments m, curvedLineSegments m)
           end
         else (straightLineSegments m, curvedLineSegments m))
    end in
  (* Store position and timestamp *)
  let positions1 := positions m ++ [position] in
  let timestamps1 := timestamps m ++ [timestamp] in
  (* Cap arrays to prevent memory issues *)
  let full := (maxSamples <? length positions1)%nat in
  let cap := fun xs : list N =>
    if full && (maxSamples <? length xs)%nat then Array_shift xs else xs in
  {| movements := S (movements m);
     clicks := clicks m; scrollEvents := scrollEvents m;
     positions := if full then Array_shift positions1 else positions1;
     timestamps := if full then Array_shift timestamps1 else timestamps1;
     minX := Math_min (minX m) (x position);
     maxX := Math_max (maxX m) (x position);
     minY := Math_min (minY m) (y position);
     maxY := Math_max (maxY m) (y position);
     sumX := sumX m + x position;
     sumY := sumY m + y position;
     velocities := cap velocities1;
     minVelocity := stats.1.1; maxVelocity := stats.1.2; sumVelocity := stats.2;
     lastMovementTime := timestamp;
     timeBetweenMovements := cap timeBetween1;
     minTimeBetween :=
       if timed then Math_min (minTimeBetween m) timeDiff else minTimeBetween m;
     maxTimeBetween :=
       if timed then Math_max (maxTimeBetween m) timeDiff else maxTimeBetween m;
     sumTimeBetween :=
       if timed then sumTimeBetween m + timeDiff else sumTimeBetween m;
     (* Mark mouse as in viewport *)
     isMouseInViewport := true;
     mouseEntryCount :=
       if isMouseInViewport m then mouseEntryCount m else S (mouseEntryCount m);
     mouseExitCount := mouseExitCount m;
     timeInViewport := timeInViewport m;
     viewportEntryTime :=
       if isMouseInViewport m then viewportEntryTime m else Date_now_later e;
     straightLineSegments := segments.1;
     curvedLineSegments := segments.2;
     velocityConsistencyScores := cap consistency1;
     accelerationPatterns := cap accelerations1;
     movementAngles := cap angles1;
     remoteAccessScore := remoteAccessScore m;
     remoteSuspicionReasons := remoteSuspicionReasons m |}.

(** The listener after the unchanged-position test. *)
Definition track (e : MouseMove N) (m : MouseData) : MouseData :=
  let m' := track_sample e m in
  (* Detect remote access patterns every 10 movements *)
  if (movements m' mod 10 =? 0)%nat && (20 <? movements m')%nat
  then _analyzeRemoteAccessPatterns m' else m'.

Definition mousemove (e : MouseMove N) (m : MouseData) : MouseData :=
  (* Skip if position hasn't changed (can happen with remote desktop) *)
  match last (positions m) with
  | Some lastPos =>
      if same_position lastPos {| x := clientX e; y := clientY e |} then m
      else track e m
  | None => track e m
  end.

(** A session: the listener run on a stream of events, from the state
    the constructor leaves. *)
Definition replay (events : list (MouseMove N)) : MouseData :=
  foldl (fun m e => mousemove e m) new_mouseData events.

(** The positions of the events the listener does not skip, in order;
    [previous] is the last position kept so far. *)
Fixpoint accepted (previous : option (Position N)) (events : list (MouseMove N))
    : list (Position N) :=
  match events with
  | [] => []
  | e :: rest =>
      let position := {| x := clientX e; y := clientY e |} in
      match previous with
      | Some lastPos =>
          if same_position lastPos position then accepted previous rest
          else position :: accepted (Some position) rest
      | None => position :: accepted (Some position) rest
      end
  end.

(** *** Vocabulary for the listener's properties *)

Implicit Types (m : MouseData) (e : MouseMove N).

Definition position_of e : Position N := {| x := clientX e; y := clientY e |}.

(** The stored positions are over capacity once [e]'s is added. *)
Definition overflows m e : bool :=
  (maxSamples <? length (positions m ++ [position_of e]))%nat.

(** The cap on a derived list: it loses its oldest entry only when the
    positions overflow and the list itself is over capacity. *)
Definition capped m e (xs : list N) : list N :=
  if overflows m e && (maxSamples <? length xs)%nat then Array_shift xs else xs.

(** The time since the previous stored sample, and since the last
    movement. *)
Definition timeDelta m e : N := (Date_now e - default NaN (last (timestamps m)))%js.
Definition timeDiff m e : N := (Date_now e - lastMovementTime m)%js.

(** The lists after [track], in terms of the lists before. *)
Definition lists_tracked m e (m' : MouseData) : Prop :=
  positions m' = (if overflows m e then Array_shift (positions m ++ [position_of e])
                  else positions m ++ [position_of e]) /\
  timestamps m' = (if overflows m e then Array_shift (timestamps m ++ [Date_now e])
                   else timestamps m ++ [Date_now e]) /\
  (exists vs, velocities m' = capped m e vs /\
     (vs = velocities m \/
      (exists v, vs = velocities m ++ [v]) /\
      is_Some (last (positions m)) /\ (timeDelta m e >? js 0)%js = true)) /\
  (exists ts, timeBetweenMovements m' = capped m e ts /\
     (ts = timeBetweenMovements m \/
      ts = timeBetweenMovements m ++ [timeDiff m e] /\
      (lastMovementTime m >? js 0)%js = true /\ (timeDiff m e >? js 0)%js = true)) /\
  (exists angles, movementAngles m' = capped m e angles /\
     match last (positions m) with
     | Some _ => exists a, angles = movementAngles m ++ [a]
     | None => angles = movementAngles m
     end) /\
  (exists accs, accelerationPatterns m' = capped m e accs /\
     (accs = accelerationPatterns m \/
      (exists a, accs = accelerationPatterns m ++ [a]) /\
      is_Some (last (positions m)) /\ (timeDelta m e >? js 0)%js = true)) /\
  (exists cs, velocityConsistencyScores m' = capped m e cs /\
     (cs = velocityConsistencyScores m \/
      (exists c, cs = velocityConsistencyScores m ++ [c]) /\
      is_Some (last (positions m)) /\ (timeDelta m e >? js 0)%js = true)).

Definition window_invariant m : Prop :=
  (length (positions m) <= maxSamples)%nat /\
  length (timestamps m) = length (positions m) /\
  (length (velocities m) <= length (positions m))%nat /\
  (length (timeBetweenMovements m) <= length (positions m))%nat /\
  (length (movementAngles m) <= length (positions m))%nat /\
  (length (accelerationPatterns m) <= length (positions m))%nat /\
  (length (velocityConsistencyScores m) <= length (positions m))%nat.

(** The last movement time is the timestamp of the last stored sample. *)
Definition stamped m : Prop :=
  match last (positions m) with
  | None => lastMovementTime m = js 0
  | Some _ => last (timestamps m) = Some (lastMovementTime m)
  end.




End Model.
End MouseInteractionDetector.

(** ** The remote desktop detector ([js/detectors/remoteDesktopDetector.js]) *)

Module RemoteDesktopDetector.
Section Model.
Context {N : Type} {arith : JSArith N} {math : JSMath N}.
Local Open Scope js_scope.

Record MousePoint : Type := { px : N; py : N; time : N }.

Record MousePatterns : Type := {
  straightLineRatio : N;
  consistentVelocity : bool
}.

(** The mouse-tracking fields of the detector and [results.mousePatterns]. *)
Record Detector : Type := {
  mousePoints : list MousePoint;
  straightLineCount : nat;
  naturalMovementCount : nat;
  lastAnalysisTime : N;
  mousePatterns : MousePatterns
}.

Definition new_RemoteDesktopDetector : Detector := {|
  mousePoints := [];
  straightLineCount := 0;
  naturalMovementCount := 0;
  lastAnalysisTime := js 0;
  mousePatterns := {| straightLineRatio := js 0; consistentVelocity := false |}
|}.

Definition areaTolerance {A} `{JSArith A} : A := js 2.
Definition velocityToleranceFactor {A} `{JSArith A} : A := num_dec 3 10.

Record Scan : Type := {
  scan_consistentVelocity : bool;
  previousVelocity : option N;     (* [null] before the first triple *)
  scan_straight : nat;
  scan_natural : nat
}.

(** One turn of [for (let i = 2; i < mousePoints.length; i++)]. *)
Definition scan_step (s : Scan) (p1 p2 p3 : MousePoint) : Scan :=
  let area :=
    Math_abs ((px p1 * (py p2 - py p3) + px p2 * (py p3 - py p1)
               + px p3 * (py p1 - py p2)) / js 2) in
  let isStraightLine := area <? areaTolerance in
  let velocity1 :=
    Math_sqrt (Math_pow2 (px p2 - px p1) + Math_pow2 (py p2 - py p1))
    / (time p2 - time p1) in
  let consistent :=
    match previousVelocity s with
    | Some previous =>
        let relativeVelocityDiff :=
          Math_abs (velocity1 - previous) / Math_max velocity1 previous in
        if relativeVelocityDiff >? velocityToleranceFactor then false
        else scan_consistentVelocity s
    | None => scan_consistentVelocity s
    end in
  {| scan_consistentVelocity := consistent;
     previousVelocity := Some velocity1;
     scan_straight := if isStraightLine then S (scan_straight s) else scan_straight s;
     scan_natural := if isStraightLine then scan_natural s else S (scan_natural s) |}.

Fixpoint scan_triples (points : list MousePoint) (s : Scan) : Scan :=
  match points with
  | p1 :: rest =>
      match rest with
      | p2 :: p3 :: _ => scan_triples rest (scan_step s p1 p2 p3)
      | _ => s
      end
  | [] => s
  end.

(** [_analyzeMouseMovement]. *)
Definition _analyzeMouseMovement (d : Detector) : Detector :=
  let s := scan_triples (mousePoints d)
             {| scan_consistentVelocity := true; previousVelocity := None;
                scan_straight := straightLineCount d;
                scan_natural := naturalMovementCount d |} in
  (* Calculate ratio and update results *)
  let totalMovements := (scan_straight s + scan_natural s)%nat in
  {| mousePoints := mousePoints d;
     straightLineCount := scan_straight s;
     naturalMovementCount := scan_natural s;
     lastAnalysisTime := lastAnalysisTime d;
     mousePatterns :=
       if (0 <? totalMovements)%nat then
         if (totalMovements <? 30)%nat
         then {| straightLineRatio := js 0; consistentVelocity := false |}
         else {| straightLineRatio :=
                   js (Z.of_nat (scan_straight s)) / js (Z.of_nat totalMovements);
                 consistentVelocity := scan_consistentVelocity s |}
       else mousePatterns d |}.

(** [_handleMouseMove]; the two readings of [performance.now()] are
    [Date_now] and [Date_now_later]. *)
Definition _handleMouseMove (e : MouseMove N) (d : Detector) : Detector :=
  let points := mousePoints d ++ [{| px := clientX e; py := clientY e; time := Date_now e |}] in
  (* Keep only the last 20 points *)
  let points := if (20 <? length points)%nat then Array_shift points else points in
  let d1 := {| mousePoints := points;
               straightLineCount := straightLineCount d;
               naturalMovementCount := naturalMovementCount d;
               lastAnalysisTime := lastAnalysisTime d;
               mousePatterns := mousePatterns d |} in
  (* Analyze movement every 500ms to avoid excessive calculations *)
  let now := Date_now_later e in
  if (now - lastAnalysisTime d >? js 500) && (3 <=? length points)%nat
  then
    let d2 := _analyzeMouseMovement d1 in
    {| mousePoints := mousePoints d2;
       straightLineCount := straightLineCount d2;
       naturalMovementCount := naturalMovementCount d2;
       lastAnalysisTime := now;
       mousePatterns := mousePatterns d2 |}
  else d1.

End Model.
End RemoteDesktopDetector.

(** ** The specification's formulas *)

Module Formulas.
Import BotDetector.
Local Open Scope Q_scope.

(** The specification's formula for the overall score: the sum of
    [score * weight] over the factors the input holds, over the sum of
    their weights. *)
Definition weighted_sum (weights : list (string * Q)) (scores : gmap string Q) : Q :=
  foldr (fun kw acc =>
           match scores !! kw.1 with Some s => s * kw.2 + acc | None => acc end)
        0 weights.

Definition present_weight (weights : list (string * Q)) (scores : gmap string Q) : Q :=
  foldr (fun kw acc =>
           match scores !! kw.1 with Some _ => kw.2 + acc | None => acc end)
        0 weights.

Definition spec_overallScore (weights : list (string * Q)) (scores : gmap string Q) : Q :=
  weighted_sum weights scores / present_weight weights scores.

Definition nonneg_weights (weights : list (string * Q)) : Prop :=
  Forall (fun kw => 0 <= kw.2) weights.

(** The constructor's state with the mouse-pattern factor at 1. *)
Definition mouse_factor_raised : gmap string Q :=
  <["mousePatterns" := 1]> new_detectionScores.

Section Evaluators.
Local Open Scope js_scope.








End Evaluators.

End Formulas.

(** ** Recorded sessions, in doubles *)

Module Sessions.

(** A pointer event at pixel [(px, py)], [ms] milliseconds into the
    session. *)
Definition at_ms (px py ms : Z) : MouseMove float :=
  {| clientX := F64.of_Z px; clientY := F64.of_Z py;
     Date_now := F64.of_Z (1700000000000 + ms);
     Date_now_later := F64.of_Z (1700000000000 + ms) |}.

(** The position at pixel [(px, py)]. *)
Definition pixel (px py : Z) : Position float :=
  {| x := F64.of_Z px; y := F64.of_Z py |}.

(** Twenty events at one position, 16 ms apart. *)
Definition stationary_events : list (MouseMove float) :=
  map (fun k => at_ms 100 100 (16 * Z.of_nat k)) (seq 0 20).

(** Twenty-five events along a bent path with uneven timing. *)
Definition wandering_events : list (MouseMove float) :=
  map (fun k => let z := Z.of_nat k in
                at_ms (7 * z + (z * z) mod 11) (3 * z + (5 * z) mod 13)
                      (16 * z + (z * z) mod 7))
      (seq 0 25).

(** Four events: right, up, then down to the right. *)
Definition corner_events : list (MouseMove float) :=
  [at_ms 0 0 0; at_ms 10 0 16; at_ms 10 10 32; at_ms 20 0 48].

(** Twenty points on a line, 16 ms apart, as the remote desktop
    detector stores them. *)
Definition line_points : list (RemoteDesktopDetector.MousePoint (N := float)) :=
  map (fun k => {| RemoteDesktopDetector.px := F64.of_Z (10 * Z.of_nat k);
                   RemoteDesktopDetector.py := 0%float;
                   RemoteDesktopDetector.time := F64.of_Z (16 * Z.of_nat k) |})
      (seq 1 20).

Definition line_window : RemoteDesktopDetector.Detector (N := float) :=
  {| RemoteDesktopDetector.mousePoints := line_points;
     RemoteDesktopDetector.straightLineCount := 0;
     RemoteDesktopDetector.naturalMovementCount := 0;
     RemoteDesktopDetector.lastAnalysisTime := 0%float;
     RemoteDesktopDetector.mousePatterns :=
       RemoteDesktopDetector.mousePatterns
         RemoteDesktopDetector.new_RemoteDesktopDetector |}.

(** A detector that has seen twenty movements, in exact arithmetic. *)
Definition twenty_movements : BotDetector.Detector (N := Q) :=
  {| BotDetector.mouseData :=
       {| BotDetector.movements := 20;
          BotDetector.positions := []; BotDetector.timestamps := [];
          BotDetector.velocities := []; BotDetector.angles := [];
          BotDetector.minX := 0; BotDetector.maxX := 0;
          BotDetector.minY := 0; BotDetector.maxY := 0;
          BotDetector.sumX := 0; BotDetector.sumY := 0;
          BotDetector.minVelocity := 0; BotDetector.maxVelocity := 0;
          BotDetector.sumVelocity := 0;
          BotDetector.minAngle := 0; BotDetector.maxAngle := 0;
          BotDetector.sumAngle := 0;
          BotDetector.lastMovementTime := 0;
          BotDetector.timeBetweenMovements := [];
          BotDetector.minTimeBetween := 0; BotDetector.maxTimeBetween := 0;
          BotDetector.sumTimeBetween := 0 |}%Q;
     BotDetector.suspiciousPatterns := BotDetector.new_suspiciousPatterns;
     BotDetector.thresholds := BotDetector.new_thresholds;
     BotDetector.scoreWeights := BotDetector.new_scoreWeights;
     BotDetector.detectionScores := BotDetector.new_detectionScores;
     BotDetector.botData :=
       {| BotDetector.isHeadlessBrowser := None;
          BotDetector.isFakeUserAgent := None;
          BotDetector.isUnusualResolution := None |} |}.

End Sessions.

(** ** Rounding *)

Class JSRound (N : Type) : Type := {
  Math_round : N -> N           (* the nearest integer, halves towards +Infinity *)
}.

Definition Q_round (q : Q) : Q := inject_Z (Qfloor (q + (1 # 2))).

#[export] Instance Q_rounding : JSRound Q := {| Math_round := Q_round |}.

Module F64Round.
(** [Math.round]: the integer [floor(x + 1/2)] of the exact sum, with
    the sign of [x] when that integer is zero; NaN, the infinities and
    the values with no fractional bits are returned as they are. *)
Definition round (x : float) : float :=
  match Prim2SF x with
  | S754_finite s m e =>
      if (0 <=? e)%Z then x
      else
        let numerator := (if s then - Zpos m else Zpos m)%Z in
        let r := ((2 * numerator + 2 ^ (- e)) / 2 ^ (1 - e))%Z in
        if (r =? 0)%Z then (if s then PrimFloat.opp 0 else 0)%float
        else F64.of_Z r
  | _ => x
  end.
End F64Round.

#[export] Instance float_rounding : JSRound float := {| Math_round := F64Round.round |}.

(** ** 32-bit integers and hexadecimal text *)

(** [ToInt32]: the integer modulo 2^32, read as a signed 32-bit value. *)
Definition ToInt32 (z : Z) : Z := ((z + 2 ^ 31) mod 2 ^ 32 - 2 ^ 31)%Z.

(** [a << k] and [a & b] on Numbers that hold integers. *)
Definition shl32 (a k : Z) : Z := ToInt32 (ToInt32 a * 2 ^ k).
Definition and32 (a b : Z) : Z := ToInt32 (Z.land (ToInt32 a) (ToInt32 b)).

(** The code units of a string whose characters are all below 256, as
    [charCodeAt] returns them. *)
Fixpoint charCodes (s : string) : list Z :=
  match s with
  | EmptyString => []
  | String c s' => Z.of_N (Ascii.N_of_ascii c) :: charCodes s'
  end.

(** The loop the repository hashes strings with:
    [hash = ((hash << 5) - hash) + char; hash = hash & hash]. *)
Definition hash_step (hash char : Z) : Z :=
  let hash := (shl32 hash 5 - hash + char)%Z in
  and32 hash hash.

Definition hash_loop (codes : list Z) : Z := foldl hash_step 0%Z codes.

(** The polynomial hash with multiplier 31, over the integers. *)
Definition polynomial_hash (codes : list Z) : Z :=
  foldl (fun h c => (31 * h + c)%Z) 0%Z codes.

Definition hex_digit (d : Z) : Ascii.ascii :=
  match String.get (Z.to_nat d) "0123456789abcdef" with
  | Some c => c
  | None => Ascii.zero
  end.

Fixpoint hex_digits (fuel : nat) (n : Z) (acc : string) : string :=
  let acc := String (hex_digit (n mod 16)) acc in
  match fuel with
  | O => acc
  | S fuel' => if (n / 16 =? 0)%Z then acc else hex_digits fuel' (n / 16) acc
  end.

(** [n.toString(16)] for an integer-valued Number. *)
Definition Number_toString16 (n : Z) : string :=
  if (n <? 0)%Z then "-" +:+ hex_digits (Z.to_nat (Z.log2 (- n))) (- n) ""
  else hex_digits (Z.to_nat (Z.log2 n)) n "".

Fixpoint String_repeat (c : Ascii.ascii) (n : nat) : string :=
  match n with
  | O => ""
  | S n' => String c (String_repeat c n')
  end.

(** [s.padStart(n, c)] for a one-character pad. *)
Definition padStart (n : nat) (c : Ascii.ascii) (s : string) : string :=
  String_repeat c (n - String.length s) +:+ s.


(** ** The page ([unnamed/part_002], the utilities) *)

Module Utils.

(** What [addInfo] is given as [value], and the text it shows for it. *)
Inductive Value : Type :=
  | Undefined
  | Boolean (b : bool)
  | Str (s : string).

Definition textContent_of (value : Value) : string :=
  match value with
  | Undefined => "Not available"
  | Boolean b => if b then "Yes" else "No"
  | Str s => s
  end.

(** A list item of a section: the text of its [.property-name] and
    [.property-value] spans, [None] where the item has no such span. *)
Record Item : Type := {
  property_name : option string;
  property_value : option string
}.

(** The sections of the page by id, each with its list items in
    document order. *)
Abbreviation Document := (gmap string (list Item)).

(** [createInfoSection(id, title)]: an existing section is kept. *)
Definition createInfoSection (id : string) (doc : Document) : Document :=
  match doc !! id with
  | Some _ => doc
  | None => <[id := []]> doc
  end.

(** [addInfo(sectionId, name, value)]: the section is created when it
    is missing, and one item is appended to it. *)
Definition addInfo (sectionId name : string) (value : Value) (doc : Document)
    : Document :=
  let doc := createInfoSection sectionId doc in
  <[sectionId :=
      default [] (doc !! sectionId)
      ++ [{| property_name := Some name;
             property_value := Some (textContent_of value) |}]]> doc.

(** [generateFingerprint(data)], from the code units of
    [JSON.stringify(data, Object.keys(data).sort())]; [None] is a
    [JSON.stringify] that throws. *)
Definition generateFingerprint (jsonString : option (list Z)) : string :=
  match jsonString with
  | Some codes =>
      padStart 8 (Ascii.ascii_of_nat 48) (Number_toString16 (Z.abs (hash_loop codes)))
  | None => "error"
  end.

End Utils.

(** ** The graphics detector's colour-depth test ([unnamed/part_002],
       class [GraphicsDetector]) *)

Module GraphicsDetector.
Import Utils.

(** [window.screen.colorDepth] and [pixelDepth]. *)
Record Screen : Type := { colorDepth : Z; pixelDepth : Z }.

(** The media queries [_detectColorDepth] evaluates: [(monochrome)] and
    [(min-color: bits)]. *)
Record Media : Type := { monochrome : bool; min_color : Z -> bool }.

(** [screen.colorDepth || screen.pixelDepth || 'Not available']. *)
Inductive Depth : Type :=
  | Bits (n : Z)
  | NotAvailable.

Definition jsColorDepth (screen : Screen) : Depth :=
  if (colorDepth screen =? 0)%Z
  then (if (pixelDepth screen =? 0)%Z then NotAvailable else Bits (pixelDepth screen))
  else Bits (colorDepth screen).

Definition Depth_toString (d : Depth) : string :=
  match d with
  | Bits n => pretty n
  | NotAvailable => "Not available"
  end.

Definition Depth_is (d : Depth) (n : Z) : bool :=
  match d with
  | Bits k => (k =? n)%Z
  | NotAvailable => false
  end.

Record GraphicsData : Type := {
  graphics_colorDepth : Depth;
  cssColorDepth : string;
  rdpDetected : bool;
  rdpConfidence : string
}.

Definition sectionId : string := "graphics-info".

(** [testColorDepth(query, bits)] on the running
    [(bitsPerColor, cssColorDepth)] and the page. *)
Definition testColorDepth (media : Media) (acc : Z * string * Document) (bits : Z)
    : Z * string * Document :=
  let '(bitsPerColor, css, doc) := acc in
  let matches := min_color media bits in
  let doc :=
    addInfo "color-depth-info"
      ("Your display has at least " +:+ pretty bits +:+ " bits per color")
      (Boolean matches) doc in
  if matches && (bitsPerColor <? bits)%Z
  then (bits, pretty bits +:+ " bits per color", doc)
  else (bitsPerColor, css, doc).

Definition _detectColorDepth (screen : Screen) (media : Media) (doc : Document)
    : Document * GraphicsData :=
  let depth := jsColorDepth screen in
  let doc := addInfo sectionId "JS-Detected Color Depth"
               (Str (Depth_toString depth +:+ " bits")) doc in
  (* Create a separate section for color depth detection *)
  let sectionId := "color-depth-info" in
  let doc := createInfoSection sectionId doc in
  let doc := addInfo sectionId "JS-Detected Color Depth"
               (Str (Depth_toString depth +:+ " bits")) doc in
  (* Test monochrome *)
  let isMonochrome := monochrome media in
  let doc := addInfo sectionId "Your display is monochrome!" (Boolean isMonochrome) doc in
  let doc := addInfo sectionId "Your display is not monochrome!"
               (Boolean (negb isMonochrome)) doc in
  (* Test various color depths *)
  let '(bitsPerColor, css, doc) :=
    foldl (testColorDepth media) (0%Z, "Unknown", doc) [2; 3; 4; 5; 6; 7; 8]%Z in
  let doc := addInfo sectionId "CSS-Detected Color Depth" (Str css) doc in
  (* RDP Detection *)
  let '(isRDP, confidence) :=
    if Depth_is depth 24 || Depth_is depth 32 then
      if (bitsPerColor <=? 6)%Z && (0 <? bitsPerColor)%Z then (true, "High")
      else (false, "Low")
    else if Depth_is depth 16 then
      if negb (bitsPerColor =? 5)%Z && negb (bitsPerColor =? 6)%Z then (true, "Medium")
      else (false, "Low")
    else if Depth_is depth 8 then (true, "Very High")
    else (false, "Low") in
  let doc := addInfo sectionId "RDP Connection Detected"
               (Str (if isRDP then "Yes" else "No")) doc in
  let doc := addInfo sectionId "RDP Detection Confidence"
               (Str (if isRDP then confidence else "N/A")) doc in
  let doc := addInfo sectionId "RDP Status"
               (Str (if isRDP then "You are likely using Remote Desktop Protocol."
                     else "You are not using RDP.")) doc in
  (doc,
   {| graphics_colorDepth := depth;
      cssColorDepth := css;
      rdpDetected := isRDP;
      rdpConfidence := if isRDP then confidence else "N/A" |}).

End GraphicsDetector.

(** ** The bot detector's remaining tests and its display *)

Module BotDetectorPage.
Import Utils BotDetector.
Section Model.
Context {N : Type} {arith : JSArith N} {math : JSMath N}.
Local Open Scope js_scope.

Definition sectionId : string := "bot-detection".

(** The fields the tests of this part add to [botData]. *)
Record BotFindings : Type := {
  isRDP : option bool;
  canvasFingerprint : option string;
  webGLVendor : option (option string);
  webGLRenderer : option (option string)
}.

Definition no_findings : BotFindings :=
  {| isRDP := None; canvasFingerprint := None;
     webGLVendor := None; webGLRenderer := None |}.

(** The detector with the page it writes to. *)
Record Page : Type := {
  detector : Detector (N := N);
  findings : BotFindings;
  document : Document
}.

(** *** [_detectRDP] *)

Section RDP.
(** The engine's [parseFloat]. *)
Variable parseFloat : string -> N.

Definition isNaN (v : N) : bool := negb (v =? v).

Record RdpScan : Type := {
  scan_isRDP : bool;
  scan_rdpConfidence : option string;
  scan_rdpScore : N
}.

(** One turn of [for (let i = 0; i < rdpItems.length; i++)]. *)
Definition rdp_item (s : RdpScan) (item : Item) : RdpScan :=
  let itemName := property_name item in
  let itemValue := property_value item in
  if bool_decide (itemName = Some "RDP Connection Detected") then
    let isRDP := bool_decide (itemValue = Some "Yes") in
    {| scan_isRDP := isRDP;
       scan_rdpConfidence := scan_rdpConfidence s;
       scan_rdpScore := if isRDP then num_dec 9 10 else js 0 |}
  else if bool_decide (itemName = Some "RDP Detection Confidence") then
    let rdpConfidence := itemValue in
    (* Parse confidence if it's a percentage *)
    let rdpScore :=
      match rdpConfidence with
      | Some text =>
          if String_includes "%" text then
            let confidenceValue := parseFloat text / js 100 in
            if negb (isNaN confidenceValue) then confidenceValue else scan_rdpScore s
          else scan_rdpScore s
      | None => scan_rdpScore s
      end in
    {| scan_isRDP := scan_isRDP s;
       scan_rdpConfidence := rdpConfidence;
       scan_rdpScore := rdpScore |}
  else s.

Definition set_score (key : string) (score : N) (p : Page) (doc : Document)
    (f : BotFindings) : Page :=
  {| detector := set_detectionScores (<[key := score]> (detectionScores (detector p)))
                   (detector p);
     findings := f;
     document := doc |}.

Definition _detectRDP (screen : GraphicsDetector.Screen) (userAgent : string)
    (p : Page) : Page :=
  let doc := document p in
  let with_isRDP (isRDP : bool) :=
    {| isRDP := Some isRDP; canvasFingerprint := canvasFingerprint (findings p);
       webGLVendor := webGLVendor (findings p);
       webGLRenderer := webGLRenderer (findings p) |} in
  match doc !! "color-depth-info" with
  | Some rdpItems =>
      (* Look for RDP detection result *)
      let s := foldl rdp_item
                 {| scan_isRDP := false; scan_rdpConfidence := Some "";
                    scan_rdpScore := js 0 |} rdpItems in
      (* Add RDP detection to bot detection section *)
      let doc := addInfo sectionId "Remote Desktop (RDP)"
                   (Str (if scan_isRDP s then "Detected" else "Not detected")) doc in
      let doc :=
        if scan_isRDP s
        then addInfo sectionId "RDP Confidence"
               (match scan_rdpConfidence s with Some c => Str c | None => Undefined end)
               doc
        else doc in
      set_score "rdpDetection" (scan_rdpScore s) p doc (with_isRDP (scan_isRDP s))
  | None =>
      (* Fallback RDP detection if color depth section isn't available *)
      let depth := GraphicsDetector.jsColorDepth screen in
      (* RDP often uses 8 or 16 bit color depth *)
      let '(isRDP, rdpScore) :=
        if GraphicsDetector.Depth_is depth 8 then (true, num_dec 9 10)
        else if GraphicsDetector.Depth_is depth 16 then (true, num_dec 7 10)
        else if GraphicsDetector.Depth_is depth 24 && String_includes "Windows" userAgent
        then (false, num_dec 3 10)
        else (false, js 0) in
      let doc := addInfo sectionId "Remote Desktop (RDP)"
                   (Str (if isRDP then "Detected (based on color depth)"
                         else "Not detected")) doc in
      let doc := addInfo sectionId "Color Depth"
                   (Str (GraphicsDetector.Depth_toString depth +:+ " bit")) doc in
      set_score "rdpDetection" rdpScore p doc (with_isRDP isRDP)
  end.

End RDP.

(** *** [_simpleHash] *)

(** What [_simpleHash] returns: the Number 0 for the empty string, the
    hexadecimal text of the hash otherwise. *)
Inductive HashValue : Type :=
  | HashNumber (hash : Z)
  | HashText (hex : string).

Definition _simpleHash (codes : list Z) : HashValue :=
  match codes with
  | [] => HashNumber 0
  | _ :: _ => HashText (Number_toString16 (hash_loop codes))
  end.

Definition HashValue_toString (h : HashValue) : string :=
  match h with
  | HashNumber hash => pretty hash
  | HashText hex => hex
  end.

(** *** [_detectFingerprintAnomalies] *)

(** What the canvas and WebGL probes find. *)
Record Canvas : Type := {
  context2d : bool;                  (* [canvas.getContext('2d')] is not null *)
  toDataURL : option string;         (* [None]: [canvas.toDataURL()] throws *)
  webgl : option (option string * option string);
                                     (* [None]: no WebGL context; else the
                                        VENDOR and RENDERER parameters *)
  canvas_modified : bool             (* [CanvasRenderingContext2D] is not native *)
}.

Definition vmKeywords : list string :=
  ["VMware"; "Virtual"; "llvmpipe"; "SwiftShader"; "VirtualBox"].

Definition includes_opt (kw : string) (s : option string) : bool :=
  match s with
  | Some text => negb (String.eqb text "") && String_includes kw text
  | None => false
  end.

Definition or_not_available (s : option string) : Value :=
  match s with
  | Some text => if String.eqb text "" then Str "Not available" else Str text
  | None => Str "Not available"
  end.

Record FingerprintScan : Type := {
  fingerprintScore : N;
  anomalies : list string;
  scan_findings : BotFindings;
  scan_document : Document
}.

Definition flag_anomaly (reason : string) (weight : N) (s : FingerprintScan)
    : FingerprintScan :=
  {| fingerprintScore := fingerprintScore s + weight;
     anomalies := anomalies s ++ [reason];
     scan_findings := scan_findings s;
     scan_document := scan_document s |}.

Definition fingerprint_scan (canvas : Canvas) (p : Page) : FingerprintScan :=
  let s := {| fingerprintScore := js 0; anomalies := [];
              scan_findings := findings p; scan_document := document p |} in
  (* Test 1: Check if canvas fingerprinting is blocked *)
  let s :=
    if negb (context2d canvas) then flag_anomaly "Canvas API is blocked" (num_dec 5 10) s
    else
      let s :=
        match toDataURL canvas with
        | Some _ => s
        | None =>
            flag_anomaly "Canvas fingerprinting blocked by privacy extension"
              (num_dec 7 10) s
        end in
      match toDataURL canvas with
      | Some fingerprint =>
          if String.eqb fingerprint "" then s
          else
            let s :=
              if (String.length fingerprint <? 100)%nat
              then flag_anomaly "Suspicious blank or simple canvas fingerprint"
                     (num_dec 8 10) s
              else s in
            let hash := HashValue_toString (_simpleHash (charCodes fingerprint)) in
            {| fingerprintScore := fingerprintScore s;
               anomalies := anomalies s;
               scan_findings :=
                 {| isRDP := isRDP (scan_findings s);
                    canvasFingerprint := Some hash;
                    webGLVendor := webGLVendor (scan_findings s);
                    webGLRenderer := webGLRenderer (scan_findings s) |};
               scan_document :=
                 addInfo sectionId "Canvas Fingerprint Hash" (Str hash)
                   (scan_document s) |}
      | None => s
      end in
  (* Test 2: Check WebGL fingerprinting *)
  let s :=
    match webgl canvas with
    | None => flag_anomaly "WebGL is disabled or not available" (num_dec 4 10) s
    | Some (vendor, renderer) =>
        let hasVMIndicator :=
          existsb (fun kw => includes_opt kw vendor || includes_opt kw renderer)
            vmKeywords in
        let s :=
          if hasVMIndicator
          then flag_anomaly "VM/Emulated graphics detected" (num_dec 6 10) s
          else s in
        {| fingerprintScore := fingerprintScore s;
           anomalies := anomalies s;
           scan_findings :=
             {| isRDP := isRDP (scan_findings s);
                canvasFingerprint := canvasFingerprint (scan_findings s);
                webGLVendor := Some vendor;
                webGLRenderer := Some renderer |};
           scan_document :=
             addInfo sectionId "WebGL Renderer" (or_not_available renderer)
               (addInfo sectionId "WebGL Vendor" (or_not_available vendor)
                  (scan_document s)) |}
    end in
  (* Test 3: Check for consistent/inconsistent fingerprints *)
  if canvas_modified canvas
  then flag_anomaly "Canvas API has been modified" (num_dec 8 10) s
  else s.

Definition _detectFingerprintAnomalies (canvas : Canvas) (p : Page) : Page :=
  let s := fingerprint_scan canvas p in
  (* Update the fingerprinting score (normalize to 0-1) *)
  let score := Math_min (fingerprintScore s) (js 1) in
  (* Report findings *)
  let doc :=
    match anomalies s with
    | [] => scan_document s
    | _ :: _ =>
        addInfo sectionId "Fingerprint Anomalies"
          (Str (String.concat ", " (anomalies s))) (scan_document s)
    end in
  set_score "fingerprinting" score p doc (scan_findings s).

(** *** Vocabulary for the fingerprint test *)

(** The weight [_detectFingerprintAnomalies] adds with each anomaly. *)
Definition anomaly_weight (anomaly : string) : N :=
  if String.eqb anomaly "Canvas API is blocked" then num_dec 5 10
  else if String.eqb anomaly "Canvas fingerprinting blocked by privacy extension"
  then num_dec 7 10
  else if String.eqb anomaly "Suspicious blank or simple canvas fingerprint"
  then num_dec 8 10
  else if String.eqb anomaly "WebGL is disabled or not available" then num_dec 4 10
  else if String.eqb anomaly "VM/Emulated graphics detected" then num_dec 6 10
  else if String.eqb anomaly "Canvas API has been modified" then num_dec 8 10
  else js 0.

Definition total_weight (found : list string) : N :=
  foldl (fun total anomaly => num_add total (anomaly_weight anomaly)) (js 0) found.

(** The running score is the weight of the anomalies found so far, and
    there are at most [n] of them. *)
Definition weighed (n : nat) (s : FingerprintScan) : Prop :=
  fingerprintScore s = total_weight (anomalies s) /\ (length (anomalies s) <= n)%nat.

(** *** [_detectAPIAnomalies] *)

(** [apiData.eventTiming]: the suspicious patterns found, and the
    lengths of the categorised event lists. *)
Record Categories : Type := {
  mouse : option nat;
  keyboard : option nat
}.

Record EventTiming : Type := {
  patterns : option (list string);
  categorizedEvents : option Categories
}.

Record ApiData : Type := { eventTiming : option EventTiming }.

Record ApiAnomalies : Type := {
  riskScore : N;
  result : string;
  api_document : Document
}.

Definition mentions (words : list string) (suspiciousPatterns : list string) : bool :=
  existsb (fun p => existsb (fun w => String_includes w (String_lower p)) words)
    suspiciousPatterns.

Definition api_findings (apiData : ApiData) : N * list string :=
  let riskScore := js 0 in
  let findings := [] in
  match eventTiming apiData with
  | Some timing =>
      match patterns timing with
      | Some suspiciousPatterns =>
          let '(riskScore, findings) :=
            if (3 <=? length suspiciousPatterns)%nat then
              (riskScore + js 35,
               findings ++ ["Multiple event timing anomalies detected - strong bot indicator"])
            else if (length suspiciousPatterns =? 2)%nat then
              (riskScore + js 20,
               findings ++ ["Two event timing anomalies detected - moderate bot risk"])
            else
              match suspiciousPatterns with
              | [pattern] =>
                  let patternDescription :=
                    if String_includes "Perfect timing" pattern
                    then "Perfect timing consistency detected"
                    else "Unusual event timing pattern" in
                  (riskScore + js 10,
                   findings ++ ["One event timing anomaly detected (" +:+ patternDescription
                                +:+ ") - possible bot indicator"])
              | _ => (riskScore, findings)
              end in
          match categorizedEvents timing with
          | Some categories =>
              let '(riskScore, findings) :=
                match mouse categories with
                | Some n =>
                    if (20 <? n)%nat && mentions ["mouse"; "pointer"] suspiciousPatterns
                    then (riskScore + js 15,
                          findings ++ ["Suspicious mouse movement patterns detected"])
                    else (riskScore, findings)
                | None => (riskScore, findings)
                end in
              match keyboard categories with
              | Some n =>
                  if (10 <? n)%nat && mentions ["keyboard"; "key"] suspiciousPatterns
                  then (riskScore + js 15,
                        findings ++ ["Suspicious keyboard input patterns detected"])
                  else (riskScore, findings)
              | None => (riskScore, findings)
              end
          | None => (riskScore, findings)
          end
      | None => (riskScore, findings)
      end
  | None => (riskScore, findings)
  end.

(** [apiData] is [None] when the detector has no [apiDetector] or the
    detector has no data. *)
Definition _detectAPIAnomalies (apiData : option ApiData) (doc : Document)
    : ApiAnomalies :=
  match apiData with
  | None =>
      {| riskScore := js 0; result := "No API anomalies detected"; api_document := doc |}
  | Some data =>
      let '(riskScore, findings) := api_findings data in
      {| riskScore := riskScore;
         result := match findings with
                   | [] => "No API anomalies detected"
                   | _ :: _ => String.concat "; " findings
                   end;
         api_document :=
           match doc !! "bot-detection-info" with
           | Some _ =>
               addInfo "bot-detection-info" "API/Event Anomalies"
                 (Str (match findings with
                       | [] => "None detected"
                       | _ :: _ => String.concat "<br>" findings
                       end)) doc
           | None => doc
           end |}
  end.

(** *** [_updateScoreIndicator], [_updateUI] and [_getSuspiciousFactors] *)

Context {rounding : JSRound N}.

Record Indicator : Type := {
  scorePercentage : N;
  color : string;
  status : string;
  descriptionText : string
}.

(** What [_updateScoreIndicator] shows, where the page has its
    indicator. *)
Definition _updateScoreIndicator (d : Detector (N := N)) : Indicator :=
  let score := default NaN (detectionScores d !! "overallScore") in
  let scorePercentage := Math_min (score * js 100) (js 100) in
  if score <? humanScoreThreshold (thresholds d) then
    {| scorePercentage := scorePercentage; color := "#4CAF50";
       status := "Likely human";
       descriptionText := "No suspicious patterns detected" |}
  else if score <? suspiciousScoreThreshold (thresholds d) then
    {| scorePercentage := scorePercentage; color := "#FFC107";
       status := "Some unusual patterns";
       descriptionText := "Minor anomalies detected, but likely human" |}
  else if score <? botScoreThreshold (thresholds d) then
    {| scorePercentage := scorePercentage; color := "#FF9800";
       status := "Suspicious patterns detected";
       descriptionText := "Several bot-like behaviors observed" |}
  else
    {| scorePercentage := scorePercentage; color := "#F44336";
       status := "Highly likely to be a bot";
       descriptionText := "Multiple bot signatures detected" |}.

(** [this.detectionScores[key] > 0.5], false for a missing score. *)
Definition exceeds_half (d : Detector (N := N)) (key : string) : bool :=
  match detectionScores d !! key with
  | Some score => score >? num_dec 5 10
  | None => false
  end.

Definition suspiciousFactors (d : Detector (N := N)) : list string :=
  (if exceeds_half d "mousePatterns" then ["unusual mouse patterns"] else []) ++
  (if exceeds_half d "headlessBrowser" then ["headless browser indicators"] else []) ++
  (if exceeds_half d "fakeUserAgent" then ["user agent inconsistencies"] else []) ++
  (if exceeds_half d "unusualResolution" then ["unusual screen resolution"] else []) ++
  (if exceeds_half d "rdpDetection" then ["remote desktop detected"] else []) ++
  (if exceeds_half d "fingerprinting" then ["fingerprint anomalies"] else []) ++
  (if exceeds_half d "apiFingerprint" then ["API behavioral anomalies"] else []) ++
  (if exceeds_half d "eventTimingPatterns" then ["unnatural timing patterns"] else []).

Definition _getSuspiciousFactors (d : Detector (N := N)) : string :=
  match suspiciousFactors d with
  | [] => "No suspicious patterns detected"
  | _ :: _ => "Detected: " +:+ String.concat ", " (suspiciousFactors d)
  end.

Record ScoreDisplay : Type := {
  botScorePercentage : N;
  scoreClass : string;
  statusText : string;
  scoreDescription : string
}.

(** The score indicator [_updateUI] builds. *)
Definition _updateUI (d : Detector (N := N)) : ScoreDisplay :=
  let botScorePercentage :=
    Math_round (default NaN (detectionScores d !! "overallScore") * js 100) in
  let '(scoreClass, statusText) :=
    if botScorePercentage >? js 70 then ("score-high", "Likely bot")
    else if botScorePercentage >? js 30 then ("score-medium", "Suspicious behavior")
    else ("score-low", "Likely human") in
  {| botScorePercentage := botScorePercentage;
     scoreClass := scoreClass;
     statusText := statusText;
     scoreDescription := _getSuspiciousFactors d |}.

End Model.

(** *** The calls that reach a detector *)

Section Calls.
Context {N : Type} {arith : JSArith N} {math : JSMath N}.
Variable parseFloat : string -> N.

(** The methods [detect] runs, the [mousemove] listener, the callback
    of the permissions probe and the periodic analysis, each with the
    environment it finds. *)
Inductive Call : Type :=
  | call_detectHeadlessBrowser (w : Window (N := N))
  | call_permissions_then (w : Window (N := N))
  | call_detectFakeUserAgent (w : Window (N := N))
  | call_detectUnusualScreenResolution (w : Window (N := N))
  | call_detectRDP (screen : GraphicsDetector.Screen) (userAgent : string)
      (doc : Document)
  | call_detectFingerprintAnomalies (canvas : Canvas) (doc : Document)
  | call_mousemove (e : MouseMove N)
  | call_analyzeAndUpdateResults.

Definition on_page (d : Detector (N := N)) (doc : Document) : Page :=
  {| detector := d; findings := no_findings; document := doc |}.

(** [None] is an uncaught exception. *)
Definition perform (c : Call) (d : Detector (N := N)) : option (Detector (N := N)) :=
  match c with
  | call_detectHeadlessBrowser w => Some (_detectHeadlessBrowser w d)
  | call_permissions_then w => Some (permissions_then w d)
  | call_detectFakeUserAgent w => Some (_detectFakeUserAgent w d)
  | call_detectUnusualScreenResolution w => Some (_detectUnusualScreenResolution w d)
  | call_detectRDP screen userAgent doc =>
      Some (detector (_detectRDP parseFloat screen userAgent (on_page d doc)))
  | call_detectFingerprintAnomalies canvas doc =>
      Some (detector (_detectFingerprintAnomalies canvas (on_page d doc)))
  | call_mousemove e => Some (on_mousemove e d)
  | call_analyzeAndUpdateResults => fst <$> _analyzeAndUpdateResults d
  end.

Fixpoint run (calls : list Call) (d : Detector (N := N)) : option (Detector (N := N)) :=
  match calls with
  | [] => Some d
  | c :: rest => d' ← perform c d; run rest d'
  end.

(** What every call leaves alone. *)
Definition untouched (d d' : Detector (N := N)) : Prop :=
  forall key,
    key <> "mousePatterns" -> key <> "overallScore" -> key <> "headlessBrowser" ->
    key <> "fakeUserAgent" -> key <> "unusualResolution" -> key <> "rdpDetection" ->
    key <> "fingerprinting" ->
    detectionScores d' !! key = detectionScores d !! key.

End Calls.
End BotDetectorPage.

(** ** The mouse interaction detector's other listeners and its results *)

Module MouseInteractionEvents.
Import MouseInteractionDetector.
Section Model.
Context {N : Type} {arith : JSArith N} {math : JSMath N}.
Local Open Scope js_scope.
Implicit Types (m : MouseData (N := N)).

Definition set_clicks (n : nat) m : MouseData :=
  {| movements := movements m; clicks := n; scrollEvents := scrollEvents m;
     positions := positions m; timestamps := timestamps m;
     minX := minX m; maxX := maxX m; minY := minY m; maxY := maxY m;
     sumX := sumX m; sumY := sumY m;
     velocities := velocities m;
     minVelocity := minVelocity m; maxVelocity := maxVelocity m;
     sumVelocity := sumVelocity m;
     lastMovementTime := lastMovementTime m;
     timeBetweenMovements := timeBetweenMovements m;
     minTimeBetween := minTimeBetween m; maxTimeBetween := maxTimeBetween m;
     sumTimeBetween := sumTimeBetween m;
     isMouseInViewport := isMouseInViewport m;
     mouseEntryCount := mouseEntryCount m; mouseExitCount := mouseExitCount m;
     timeInViewport := timeInViewport m; viewportEntryTime := viewportEntryTime m;
     straightLineSegments := straightLineSegments m;
     curvedLineSegments := curvedLineSegments m;
     velocityConsistencyScores := velocityConsistencyScores m;
     accelerationPatterns := accelerationPatterns m;
     movementAngles := movementAngles m;
     remoteAccessScore := remoteAccessScore m;
     remoteSuspicionReasons := remoteSuspicionReasons m |}.

Definition set_scrollEvents (n : nat) m : MouseData :=
  {| movements := movements m; clicks := clicks m; scrollEvents := n;
     positions := positions m; timestamps := timestamps m;
     minX := minX m; maxX := maxX m; minY := minY m; maxY := maxY m;
     sumX := sumX m; sumY := sumY m;
     velocities := velocities m;
     minVelocity := minVelocity m; maxVelocity := maxVelocity m;
     sumVelocity := sumVelocity m;
     lastMovementTime := lastMovementTime m;
     timeBetweenMovements := timeBetweenMovements m;
     minTimeBetween := minTimeBetween m; maxTimeBetween := maxTimeBetween m;
     sumTimeBetween := sumTimeBetween m;
     isMouseInViewport := isMouseInViewport m;
     mouseEntryCount := mouseEntryCount m; mouseExitCount := mouseExitCount m;
     timeInViewport := timeInViewport m; viewportEntryTime := viewportEntryTime m;
     straightLineSegments := straightLineSegments m;
     curvedLineSegments := curvedLineSegments m;
     velocityConsistencyScores := velocityConsistencyScores m;
     accelerationPatterns := accelerationPatterns m;
     movementAngles := movementAngles m;
     remoteAccessScore := remoteAccessScore m;
     remoteSuspicionReasons := remoteSuspicionReasons m |}.

(** The viewport fields after the pointer left. *)
Definition set_left_viewport (exits : nat) (time : N) m : MouseData :=
  {| movements := movements m; clicks := clicks m; scrollEvents := scrollEvents m;
     positions := positions m; timestamps := timestamps m;
     minX := minX m; maxX := maxX m; minY := minY m; maxY := maxY m;
     sumX := sumX m; sumY := sumY m;
     velocities := velocities m;
     minVelocity := minVelocity m; maxVelocity := maxVelocity m;
     sumVelocity := sumVelocity m;
     lastMovementTime := lastMovementTime m;
     timeBetweenMovements := timeBetweenMovements m;
     minTimeBetween := minTimeBetween m; maxTimeBetween := maxTimeBetween m;
     sumTimeBetween := sumTimeBetween m;
     isMouseInViewport := false;
     mouseEntryCount := mouseEntryCount m; mouseExitCount := exits;
     timeInViewport := time; viewportEntryTime := viewportEntryTime m;
     straightLineSegments := straightLineSegments m;
     curvedLineSegments := curvedLineSegments m;
     velocityConsistencyScores := velocityConsistencyScores m;
     accelerationPatterns := accelerationPatterns m;
     movementAngles := movementAngles m;
     remoteAccessScore := remoteAccessScore m;
     remoteSuspicionReasons := remoteSuspicionReasons m |}.

(** The [click] and [wheel] listeners. *)
Definition click m : MouseData := set_clicks (S (clicks m)) m.
Definition wheel m : MouseData := set_scrollEvents (S (scrollEvents m)) m.

(** The [mouseout] listener.  [leaves] is
    [!e.relatedTarget || e.relatedTarget.nodeName === 'HTML'], and [now]
    the reading of [Date.now()]. *)
Definition mouseout (leaves : bool) (now : N) m : MouseData :=
  if leaves && isMouseInViewport m then
    set_left_viewport (S (mouseExitCount m))
      (if viewportEntryTime m >? js 0
       then timeInViewport m + (now - viewportEntryTime m)
       else timeInViewport m) m
  else m.

(** The events the detector listens to. *)
Inductive Event : Type :=
  | on_mousemove (e : MouseMove N)
  | on_click
  | on_wheel
  | on_mouseout (leaves : bool) (now : N).

Definition dispatch (ev : Event) m : MouseData :=
  match ev with
  | on_mousemove e => mousemove e m
  | on_click => click m
  | on_wheel => wheel m
  | on_mouseout leaves now => mouseout leaves now m
  end.

Definition session (events : list Event) : MouseData :=
  foldl (fun m ev => dispatch ev m) new_mouseData events.

(** The points [_analyzeRemoteAccessPatterns] adds with each reason. *)
Definition reason_points (reason : string) : N :=
  if String.eqb reason "Unusually high straight-line movement" then js 25
  else if String.eqb reason "Elevated straight-line movement" then js 15
  else if String.eqb reason "Unusually consistent movement velocity" then js 25
  else if String.eqb reason "Elevated movement velocity consistency" then js 15
  else if String.eqb reason "Unusually consistent timing between movements" then js 20
  else if String.eqb reason "Somewhat consistent timing between movements" then js 10
  else if String.eqb reason "Elevated movement latency" then js 10
  else if String.eqb reason "High percentage of cardinal direction movements" then js 15
  else if String.eqb reason "Unnatural acceleration pattern detected" then js 15
  else js 0.

(** *** [getRemoteAccessResults] *)

Record Stats : Type := {
  stats_straightLineRatio : N;
  velocityConsistency : N;
  avgLatency : N
}.

Record RemoteAccessResults : Type := {
  score : N;
  isLikelyRemote : bool;
  possiblyRemote : bool;
  reasons : list (string * list N);
  stats : Stats
}.

Definition getRemoteAccessResults m : RemoteAccessResults :=
  {| score := remoteAccessScore m;
     isLikelyRemote := remoteAccessScore m >? js 60;
     possiblyRemote := remoteAccessScore m >? js 30;
     reasons := remoteSuspicionReasons m;
     stats :=
       {| stats_straightLineRatio :=
            js (Z.of_nat (straightLineSegments m))
            / js (Z.of_nat
                    (if (straightLineSegments m + curvedLineSegments m =? 0)%nat then 1
                     else straightLineSegments m + curvedLineSegments m));
          velocityConsistency :=
            if (length (velocityConsistencyScores m) =? 0)%nat then js 0
            else sum_list (velocityConsistencyScores m)
                 / js (Z.of_nat (length (velocityConsistencyScores m)));
          avgLatency :=
            if (length (timeBetweenMovements m) =? 0)%nat then js 0
            else sumTimeBetween m / js (Z.of_nat (length (timeBetweenMovements m))) |} |}.

(** *** [_updateRemoteDetectionIndicator] *)

Record RemoteIndicator : Type := {
  bar_width : N;                     (* per cent *)
  bar_color : string;
  reasons_shown : string + list (string * list N)
}.

(** What the indicator shows, where the page has its elements. *)
Definition _updateRemoteDetectionIndicator m : RemoteIndicator :=
  {| bar_width := remoteAccessScore m;
     bar_color :=
       if remoteAccessScore m <? js 30 then "#4CAF50"
       else if remoteAccessScore m <? js 60 then "#FFC107"
       else "#F44336";
     reasons_shown :=
       match remoteSuspicionReasons m with
       | _ :: _ => inr (remoteSuspicionReasons m)
       | [] =>
           if (20 <? movements m)%nat then inl "No suspicious patterns detected."
           else inl "Need more mouse movement data for analysis."
       end |}.

(** *** Vocabulary for the properties *)

Definition is_click (ev : Event) : bool :=
  match ev with on_click => true | _ => false end.

Definition is_wheel (ev : Event) : bool :=
  match ev with on_wheel => true | _ => false end.

Definition viewport_accounted m : Prop :=
  mouseEntryCount m
  = (mouseExitCount m + if isMouseInViewport m then 1 else 0)%nat.

Definition segments_counted m : Prop :=
  length (positions m) = Nat.min (movements m) maxSamples
  /\ (straightLineSegments m + curvedLineSegments m = movements m - 3)%nat.

(** The running score is the points of the reasons listed so far, and
    there are at most [n] of them. *)
Definition explained (n : nat) (f : N * list (string * list N)) : Prop :=
  f.1 = foldl (fun score reason => num_add score (reason_points reason.1)) (js 0) f.2
  /\ (length f.2 <= n)%nat.

End Model.
End MouseInteractionEvents.

(** ** The remote desktop detector's latency tracking and verdict *)

Module RemoteDesktopVerdict.
Import RemoteDesktopDetector.
Section Model.
Context {N : Type} {arith : JSArith N} {math : JSMath N} {rounding : JSRound N}.
Local Open Scope js_scope.

(** A session of [mousemove] events from the constructor's state. *)
Definition replay (events : list (MouseMove N)) : Detector (N := N) :=
  foldl (fun d e => _handleMouseMove e d) new_RemoteDesktopDetector events.

Definition point_of (e : MouseMove N) : MousePoint (N := N) :=
  {| px := clientX e; py := clientY e; time := Date_now e |}.

(** *** Input latency: [_handleMouseDown] and [_handleMouseUp] *)

(** [clickStartTimes] (a [Map] keyed by button number),
    [latencySamples] and [results.inputLatency]. *)
Record Latency : Type := {
  clickStartTimes : gmap Z N;
  latencySamples : list N;
  inputLatency_average : N;
  inputLatency_samples : list N
}.

Definition new_Latency : Latency :=
  {| clickStartTimes := ∅; latencySamples := [];
     inputLatency_average := js 0; inputLatency_samples := [] |}.

Definition _handleMouseDown (button : Z) (now : N) (l : Latency) : Latency :=
  {| clickStartTimes := <[button := now]> (clickStartTimes l);
     latencySamples := latencySamples l;
     inputLatency_average := inputLatency_average l;
     inputLatency_samples := inputLatency_samples l |}.

Definition _handleMouseUp (button : Z) (now : N) (l : Latency) : Latency :=
  match clickStartTimes l !! button with
  | Some startTime =>
      let latency := now - startTime in
      (* Store latency sample *)
      let samples := latencySamples l ++ [latency] in
      let samples := if (10 <? length samples)%nat then Array_shift samples else samples in
      (* Update average *)
      let avgLatency := sum_list samples / js (Z.of_nat (length samples)) in
      {| clickStartTimes := delete button (clickStartTimes l);
         latencySamples := samples;
         inputLatency_average := avgLatency;
         inputLatency_samples := samples |}
  | None => l
  end.

Inductive Press : Type :=
  | mousedown (button : Z) (now : N)
  | mouseup (button : Z) (now : N).

Definition press (p : Press) (l : Latency) : Latency :=
  match p with
  | mousedown button now => _handleMouseDown button now l
  | mouseup button now => _handleMouseUp button now l
  end.

Definition presses (ps : list Press) : Latency :=
  foldl (fun l p => press p l) new_Latency ps.

(** *** [_calculateConfidence] *)

Record SuspiciousFactors : Type := {
  isCommonRemoteResolution : bool;
  unusualColorDepth : bool;
  nonIntegerDPR : bool
}.

(** [results.screenProperties.suspiciousFactors] ([None] until
    [detectScreenProperties] has run), [results.hardware.isVirtual]
    ([None] is [null]), and the verdict. *)
Record Results : Type := {
  suspiciousFactors : option SuspiciousFactors;
  isVirtual : option bool;
  confidence : N;
  detected : bool
}.

Definition new_Results : Results :=
  {| suspiciousFactors := None; isVirtual := Some false;
     confidence := js 0; detected := false |}.

(** [score] and [factorsChecked] as the blocks of
    [_calculateConfidence] update them. *)
Record Tally : Type := {
  score : N;
  factorsChecked : nat
}.

(** [factorsChecked++], and [score += increment] where the block adds
    something. *)
Definition checked (increment : option N) (t : Tally) : Tally :=
  {| score := match increment with Some v => score t + v | None => score t end;
     factorsChecked := S (factorsChecked t) |}.

(** Screen properties (up to 30%) *)
Definition screen_block (factors : option SuspiciousFactors) (t : Tally) : Tally :=
  match factors with
  | Some factors =>
      let screenScore := js 0 in
      let screenScore :=
        if isCommonRemoteResolution factors then screenScore + num_dec 1 10
        else screenScore in
      let screenScore :=
        if unusualColorDepth factors then screenScore + num_dec 1 10 else screenScore in
      let screenScore :=
        if nonIntegerDPR factors then screenScore + num_dec 1 10 else screenScore in
      checked (Some screenScore) t
  | None => t
  end.

(** Virtual hardware (up to 30%) *)
Definition hardware_block (isVirtual : option bool) (t : Tally) : Tally :=
  match isVirtual with
  | Some virtual => checked (if virtual then Some (num_dec 3 10) else None) t
  | None => t
  end.

(** Mouse patterns (up to 25%) *)
Definition mouse_block (d : Detector (N := N)) (t : Tally) : Tally :=
  if (30 <? straightLineCount d + naturalMovementCount d)%nat then
    let ratio := straightLineRatio (mousePatterns d) in
    let mouseScore := js 0 in
    let mouseScore :=
      if ratio >? num_dec 85 100 then mouseScore + num_dec 15 100
      else if (ratio >? num_dec 75 100) && consistentVelocity (mousePatterns d)
      then mouseScore + num_dec 15 100
      else if ratio >? num_dec 75 100 then mouseScore + num_dec 1 10
      else mouseScore in
    checked (Some mouseScore) t
  else t.

(** Input latency (up to 15%) *)
Definition latency_block (l : Latency) (t : Tally) : Tally :=
  if (3 <=? length (latencySamples l))%nat
  then checked (if inputLatency_average l >? js 50 then Some (num_dec 15 100) else None) t
  else t.

(** Calculate final confidence (0-100%) *)
Definition final_confidence (t : Tally) : N :=
  let confidence :=
    if (0 <? factorsChecked t)%nat
    then score t / js (Z.of_nat (factorsChecked t)) * js 100 else js 0 in
  Math_min (Math_round confidence) (js 100).

Definition _calculateConfidence (d : Detector (N := N)) (l : Latency) (r : Results)
    : Results :=
  let t := {| score := js 0; factorsChecked := 0 |} in
  let t := screen_block (suspiciousFactors r) t in
  let t := hardware_block (isVirtual r) t in
  let t := mouse_block d t in
  let t := latency_block l t in
  let confidence := final_confidence t in
  {| suspiciousFactors := suspiciousFactors r;
     isVirtual := isVirtual r;
     confidence := confidence;
     detected := confidence >? js 60 |}.

End Model.

(** The tally holds at most [k] per factor checked. *)
Definition within (k : Q) (t : Tally (N := Q)) : Prop :=
  (0 <= score t <= k * inject_Z (Z.of_nat (factorsChecked t)))%Q.

End RemoteDesktopVerdict.

(** ** The remote desktop detector, second version
       ([js/detectors/remoteDesktopDetector.js], from line 484) *)

Module RemoteDesktopDetectorKvm.
Import RemoteDesktopDetector RemoteDesktopVerdict.
Section Model.
Context {N : Type} {arith : JSArith N} {rounding : JSRound N}.
Local Open Scope js_scope.

Record Hardware : Type := {
  hardware_isVirtual : option bool;     (* [None] is [null] *)
  isKvmGpu : option bool                (* [None]: the field is not there *)
}.

Record KvmIndicators : Type := {
  kvm_detected : bool;
  keyboardLag : bool;
  mouseJitter : bool
}.

Record RemoteSoftware : Type := {
  teamviewer : bool;
  citrix : bool;
  anydesk : bool;
  logmein : bool
}.

(** [results], without the mouse patterns and the latency samples,
    which the first version's records hold. *)
Record Results : Type := {
  detected : bool;
  confidence : N;
  type : string;
  suspiciousFactors : option SuspiciousFactors;
  hardware : Hardware;
  kvmIndicators : KvmIndicators;
  reducedMotion_detected : bool;
  remoteSoftware : RemoteSoftware
}.

Definition new_Results : Results :=
  {| detected := false; confidence := js 0; type := "none";
     suspiciousFactors := None;
     hardware := {| hardware_isVirtual := Some false; isKvmGpu := None |};
     kvmIndicators := {| kvm_detected := false; keyboardLag := false;
                         mouseJitter := false |};
     reducedMotion_detected := false;
     remoteSoftware := {| teamviewer := false; citrix := false;
                          anydesk := false; logmein := false |} |}.

(** KVM indicators (up to 25%): the block's score, [None] when it has
    no factor to check. *)
Definition kvm_score (r : Results) : option N :=
  let kvmGpu := bool_decide (isKvmGpu (hardware r) = Some true) in
  let hasKvmFactors :=
    keyboardLag (kvmIndicators r) || mouseJitter (kvmIndicators r) || kvmGpu in
  if hasKvmFactors then
    let kvmScore := js 0 in
    let kvmScore :=
      if keyboardLag (kvmIndicators r) then kvmScore + num_dec 1 10 else kvmScore in
    let kvmScore :=
      if mouseJitter (kvmIndicators r) then kvmScore + num_dec 1 10 else kvmScore in
    let kvmScore := if kvmGpu then kvmScore + num_dec 15 100 else kvmScore in
    Some kvmScore
  else None.

Definition kvm_block (r : Results) (t : Tally) : Tally :=
  match kvm_score r with
  | Some kvmScore => checked (Some kvmScore) t
  | None => t
  end.

(** If we have strong KVM indicators, set the type *)
Definition kvm_type (r : Results) : string :=
  match kvm_score r with
  | Some kvmScore =>
      if (kvmScore >=? num_dec 2 10) && String.eqb (type r) "none" then "kvm"
      else type r
  | None => type r
  end.

(** Reduced motion detection; [results.reducedMotion] is always an
    object. *)
Definition reduced_motion_block (r : Results) (t : Tally) : Tally :=
  checked (if reducedMotion_detected r then Some (num_dec 35 100) else None) t.

(** Remote software detection; [results.remoteSoftware] is always an
    object. *)
Definition remote_software_block (r : Results) (t : Tally) : Tally :=
  let software := remoteSoftware r in
  checked (if teamviewer software || citrix software || anydesk software
              || logmein software
           then Some (num_dec 5 10) else None) t.

Definition detectionMessage (detected : bool) (type : string) : string :=
  if detected then
    if String.eqb type "kvm" then "KVM System Detected"
    else if String.eqb type "rdp" then "RDP Connection Detected"
    else if String.eqb type "vnc" then "VNC Connection Detected"
    else if String.eqb type "teamviewer" then "TeamViewer Connection Detected"
    else if String.eqb type "citrix" then "Citrix Session Detected"
    else "Remote Access Detected"
  else "No Remote Access Detected".

(** [_calculateConfidence]: the results afterwards and the text of the
    'Detection Result' entry. *)
Definition _calculateConfidence (d : Detector (N := N)) (l : Latency (N := N))
    (r : Results) : Results * string :=
  let t := {| score := js 0; factorsChecked := 0 |} in
  let t := screen_block (suspiciousFactors r) t in
  let t := hardware_block (hardware_isVirtual (hardware r)) t in
  let t := kvm_block r t in
  let type := kvm_type r in
  let t := reduced_motion_block r t in
  let t := remote_software_block r t in
  let t := mouse_block d t in
  let t := latency_block l t in
  let confidence := final_confidence t in
  let detected := confidence >? js 60 in
  (* If detected but type is still 'none', default to 'other' *)
  let type := if detected && String.eqb type "none" then "other" else type in
  ({| detected := detected; confidence := confidence; type := type;
      suspiciousFactors := suspiciousFactors r;
      hardware := hardware r;
      kvmIndicators := kvmIndicators r;
      reducedMotion_detected := reducedMotion_detected r;
      remoteSoftware := remoteSoftware r |},
   detectionMessage detected type).

End Model.
End RemoteDesktopDetectorKvm.

(** ** The bot detector's window invariant *)

Module BotWindow.
Import BotDetector.
Section Model.
Context {N : Type} {arith : JSArith N} {math : JSMath N}.
Implicit Types (m : MouseData (N := N)) (e : MouseMove N).

Definition window_invariant m : Prop :=
  (length (positions m) <= maxSamples)%nat /\
  length (timestamps m) = length (positions m) /\
  (length (velocities m) <= length (positions m) - 1)%nat /\
  (length (angles m) <= length (positions m) - 1)%nat /\
  (length (timeBetweenMovements m) <= length (positions m))%nat.
End Model.
End BotWindow.


(** ** Further inputs, in exact arithmetic and in doubles *)

Module Inputs.

(** Every factor a method writes at its ceiling of 1, the two no
    method writes at 0. *)
Definition all_flagged : gmap string Q :=
  list_to_map
    [ ("mousePatterns", 1%Q); ("headlessBrowser", 1%Q); ("fakeUserAgent", 1%Q);
      ("unusualResolution", 1%Q); ("rdpDetection", 1%Q); ("fingerprinting", 1%Q);
      ("apiFingerprint", 0%Q); ("eventTimingPatterns", 0%Q); ("overallScore", 0%Q) ].

(** The bot detector after the stationary session and one evaluation
    cycle. *)
Definition after_stationary_session : BotDetector.Detector (N := float) :=
  match BotDetector._analyzeAndUpdateResults
          (BotDetector.replay Sessions.stationary_events) with
  | Some (d, _) => d
  | None => BotDetector.new_BotDetector
  end.

(** Mouse data of the interaction detector with a remote-access score
    of 75 and no movement recorded. *)
Definition scored_75 : MouseInteractionDetector.MouseData (N := Q) :=
  {| MouseInteractionDetector.movements := 0;
     MouseInteractionDetector.clicks := 0;
     MouseInteractionDetector.scrollEvents := 0;
     MouseInteractionDetector.positions := [];
     MouseInteractionDetector.timestamps := [];
     MouseInteractionDetector.minX := 0; MouseInteractionDetector.maxX := 0;
     MouseInteractionDetector.minY := 0; MouseInteractionDetector.maxY := 0;
     MouseInteractionDetector.sumX := 0; MouseInteractionDetector.sumY := 0;
     MouseInteractionDetector.velocities := [];
     MouseInteractionDetector.minVelocity := 0;
     MouseInteractionDetector.maxVelocity := 0;
     MouseInteractionDetector.sumVelocity := 0;
     MouseInteractionDetector.lastMovementTime := 0;
     MouseInteractionDetector.timeBetweenMovements := [];
     MouseInteractionDetector.minTimeBetween := 0;
     MouseInteractionDetector.maxTimeBetween := 0;
     MouseInteractionDetector.sumTimeBetween := 0;
     MouseInteractionDetector.isMouseInViewport := false;
     MouseInteractionDetector.mouseEntryCount := 0;
     MouseInteractionDetector.mouseExitCount := 0;
     MouseInteractionDetector.timeInViewport := 0;
     MouseInteractionDetector.viewportEntryTime := 0;
     MouseInteractionDetector.straightLineSegments := 0;
     MouseInteractionDetector.curvedLineSegments := 0;
     MouseInteractionDetector.velocityConsistencyScores := [];
     MouseInteractionDetector.accelerationPatterns := [];
     MouseInteractionDetector.movementAngles := [];
     MouseInteractionDetector.remoteAccessScore := 75;
     MouseInteractionDetector.remoteSuspicionReasons := [] |}%Q.



End Inputs.

(** * Properties *)

(** ** Scoring, in exact arithmetic *)

Module Scoring.
Import BotDetector Formulas.
Local Open Scope Q_scope.

Lemma Q_ltb_true (a b : Q) : Q_ltb a b = true <-> a < b.
Proof.
  unfold Q_ltb. rewrite negb_true_iff. split.
  - intros Hf. apply Qnot_le_lt. intros Hle. apply Qle_bool_iff in Hle. congruence.
  - intros Hlt. destruct (Qle_bool b a) eqn:E; [|reflexivity].
    apply Qle_bool_iff in E. lra.
Qed.

Lemma Q_ltb_false (a b : Q) : Q_ltb a b = false <-> b <= a.
Proof.
  unfold Q_ltb. rewrite negb_false_iff. apply Qle_bool_iff.
Qed.

Lemma Q_leb_false (a b : Q) : Qle_bool a b = false <-> b < a.
Proof.
  split.
  - intros Hf. apply Qnot_le_lt. intros Hle. apply Qle_bool_iff in Hle. congruence.
  - intros Hlt. destruct (Qle_bool a b) eqn:E; [|reflexivity].
    apply Qle_bool_iff in E. lra.
Qed.

(** The loop of [_calculateOverallScore] adds exactly these two sums to
    its accumulators. *)
Lemma foldl_add_factor (weights : list (string * Q)) (scores : gmap string Q) (acc : Q * Q) :
  (foldl (add_factor scores) acc weights).1 == acc.1 + weighted_sum weights scores /\
  (foldl (add_factor scores) acc weights).2 == acc.2 + present_weight weights scores.
Proof.
  revert acc. induction weights as [|[k w] weights IH]; intros [a b]; simpl.
  - split; ring.
  - destruct (IH (add_factor scores (a, b) (k, w))) as [IH1 IH2].
    rewrite IH1, IH2. unfold add_factor. simpl.
    destruct (scores !! k); simpl; split; ring.
Qed.

Lemma entry_In {A} (key : string) (entries : list (string * A)) (v : A) :
  entry key entries = Some v -> In (key, v) entries.
Proof.
  induction entries as [|[k w] entries IH]; simpl; [discriminate|].
  destruct (String.eqb k key) eqn:E.
  - apply String.eqb_eq in E. intros [= ->]. left. congruence.
  - intros Hv. right. auto.
Qed.


Lemma nonneg_entry (weights : list (string * Q)) (key : string) (w : Q) :
  nonneg_weights weights -> entry key weights = Some w -> 0 <= w.
Proof.
  intros Hnn He. apply entry_In in He.
  unfold nonneg_weights in Hnn. rewrite Forall_forall in Hnn.
  apply (Hnn (key, w)). apply list_elem_of_In. exact He.
Qed.

(** The totals the code normalises, in terms of the two sums. *)
Lemma weighted_totals_sums (weights : list (string * Q)) (scores : gmap string Q) :
  match weighted_totals weights scores with
  | Some (a, b) =>
      match scores !! "eventTimingPatterns" with
      | Some s => exists w, entry "eventTimingPatterns" weights = Some w /\
                   a == weighted_sum weights scores + s * w /\
                   b == present_weight weights scores + w
      | None => a == weighted_sum weights scores /\
                b == present_weight weights scores
      end
  | None => exists s, scores !! "eventTimingPatterns" = Some s /\
                      entry "eventTimingPatterns" weights = None
  end.
Proof.
  unfold weighted_totals.
  destruct (foldl_add_factor weights scores (js 0, js 0)) as [Ha Hb].
  simpl in Ha, Hb. change (inject_Z 0) with 0 in Ha, Hb.
  destruct (scores !! "eventTimingPatterns") as [s|] eqn:Es.
  - destruct (entry "eventTimingPatterns" weights) as [w|] eqn:Ew.
    + exists w. split; [reflexivity|]. simpl. rewrite Ha, Hb. split; ring.
    + exists s. split; reflexivity.
  - destruct (foldl _ _ _) as [a b]. simpl in *. rewrite Ha, Hb. split; ring.
Qed.

Lemma weighted_sum_bounds (weights : list (string * Q)) (scores : gmap string Q) :
  nonneg_weights weights ->
  (forall k s, scores !! k = Some s -> 0 <= s <= 1) ->
  0 <= weighted_sum weights scores <= present_weight weights scores.
Proof.
  intros Hnn Hs. induction Hnn as [|[k w] weights Hw Hnn IH]; simpl.
  - lra.
  - simpl in Hw. destruct (scores !! k) as [s|] eqn:Ek; [|exact IH].
    destruct (Hs k s Ek) as [H0 H1]. nra.
Qed.

Lemma present_weight_insert (weights : list (string * Q)) (scores : gmap string Q)
    (factor : string) (s s' : Q) :
  scores !! factor = Some s ->
  present_weight weights (<[factor := s']> scores) = present_weight weights scores.
Proof.
  intros Hf. induction weights as [|[k w] weights IH]; simpl; [reflexivity|].
  rewrite IH. destruct (decide (factor = k)) as [->|Hne].
  - rewrite lookup_insert_eq, Hf. reflexivity.
  - rewrite lookup_insert_ne by exact Hne. reflexivity.
Qed.

Lemma weighted_sum_insert (weights : list (string * Q)) (scores : gmap string Q)
    (factor : string) (s s' : Q) :
  nonneg_weights weights ->
  scores !! factor = Some s -> s <= s' ->
  weighted_sum weights scores <= weighted_sum weights (<[factor := s']> scores).
Proof.
  intros Hnn Hf Hle. induction Hnn as [|[k w] weights Hw Hnn IH]; simpl.
  - lra.
  - simpl in Hw. destruct (decide (factor = k)) as [->|Hne].
    + rewrite lookup_insert_eq, Hf. nra.
    + rewrite lookup_insert_ne by exact Hne. destruct (scores !! k); lra.
Qed.

Lemma normalizedScore_ratio (weights : list (string * Q)) (scores : gmap string Q) (a b : Q) :
  weighted_totals weights scores = Some (a, b) ->
  normalizedScore weights scores = if Q_ltb 0 b then a / b else 0.
Proof. unfold normalizedScore. intros ->. reflexivity. Qed.

Lemma Qdiv_le_mono (a a' b b' : Q) :
  0 < b -> a <= a' -> b == b' -> a / b <= a' / b'.
Proof.
  intros Hb Ha Hbb. rewrite <- Hbb. unfold Qdiv.
  apply Qmult_le_compat_r; [exact Ha|].
  apply Qlt_le_weak, Qinv_lt_0_compat, Hb.
Qed.

Lemma Q_ltb_proper (a b b' : Q) : b == b' -> Q_ltb a b = Q_ltb a b'.
Proof.
  intros Hbb. destruct (Q_ltb a b') eqn:E.
  - apply Q_ltb_true. apply Q_ltb_true in E. lra.
  - apply Q_ltb_false. apply Q_ltb_false in E. lra.
Qed.


(** Class operations at [Q], and the literal zero, in the form the
    arithmetic tactics know. *)
Ltac q_norm := simpl; change (inject_Z 0) with 0 in *.

(** C8: raising one factor's score, the other scores and the weights
    unchanged, never lowers the overall score. *)
Theorem overall_score_monotone (weights : list (string * Q)) (scores : gmap string Q)
    (factor : string) (s s' : Q) :
  nonneg_weights weights ->
  scores !! factor = Some s ->
  s <= s' ->
  normalizedScore weights scores <= normalizedScore weights (<[factor := s']> scores).
Proof.
  intros Hnn Hf Hle.
  pose proof (weighted_totals_sums weights scores) as H1.
  pose proof (weighted_totals_sums weights (<[factor := s']> scores)) as H2.
  pose proof (weighted_sum_insert weights scores factor s s' Hnn Hf Hle) as Hws.
  pose proof (present_weight_insert weights scores factor s s' Hf) as Hpw.
  rewrite Hpw in H2. unfold normalizedScore.
  destruct (decide (factor = "eventTimingPatterns")) as [->|Hne].
  - rewrite lookup_insert_eq in H2. rewrite Hf in H1.
    destruct (weighted_totals weights scores) as [[a b]|];
      destruct (weighted_totals weights (<[_ := s']> scores)) as [[a' b']|].
    + destruct H1 as (w & Hw & Ha & Hb). destruct H2 as (w' & Hw' & Ha' & Hb').
      rewrite Hw in Hw'. injection Hw' as <-.
      pose proof (nonneg_entry _ _ _ Hnn Hw) as Hw0.
      assert (Hbb : b == b') by (rewrite Hb, Hb'; reflexivity).
      q_norm. rewrite (Q_ltb_proper _ b b' Hbb).
      destruct (Q_ltb 0 b') eqn:E; [|lra].
      apply Q_ltb_true in E. apply Qdiv_le_mono; [lra| |exact Hbb].
      rewrite Ha, Ha'. nra.
    + destruct H1 as (w & Hw & _). destruct H2 as (? & _ & Hw'). congruence.
    + destruct H1 as (? & _ & Hw). destruct H2 as (w' & Hw' & _). congruence.
    + q_norm. lra.
  - rewrite lookup_insert_ne in H2 by exact Hne.
    destruct (weighted_totals weights scores) as [[a b]|];
      destruct (weighted_totals weights (<[_ := s']> scores)) as [[a' b']|].
    + assert (Hab : a <= a' /\ b == b').
      { destruct (scores !! "eventTimingPatterns") as [e|].
        - destruct H1 as (w & Hw & Ha & Hb). destruct H2 as (w' & Hw' & Ha' & Hb').
          rewrite Hw in Hw'. injection Hw' as <-.
          split; [rewrite Ha, Ha'; lra | rewrite Hb, Hb'; reflexivity].
        - destruct H1 as [Ha Hb]. destruct H2 as [Ha' Hb'].
          split; [rewrite Ha, Ha'; lra | rewrite Hb, Hb'; reflexivity]. }
      destruct Hab as [Haa Hbb].
      q_norm. rewrite (Q_ltb_proper _ b b' Hbb).
      destruct (Q_ltb 0 b') eqn:E; [|lra].
      apply Q_ltb_true in E. apply Qdiv_le_mono; [lra|exact Haa|exact Hbb].
    + destruct H2 as (e & He & Hw). rewrite He in H1.
      destruct H1 as (w & Hw' & _). congruence.
    + destruct H1 as (e & He & Hw). rewrite He in H2.
      destruct H2 as (w & Hw' & _). congruence.
    + q_norm. lra.
Qed.

(** With weights that are not negative and every score in [0, 1], the
    overall score is in [0, 1]. *)
Lemma overall_score_bounded (weights : list (string * Q)) (scores : gmap string Q) :
  nonneg_weights weights ->
  (forall k s, scores !! k = Some s -> 0 <= s <= 1) ->
  0 <= normalizedScore weights scores <= 1.
Proof.
  intros Hnn Hs.
  pose proof (weighted_totals_sums weights scores) as H1.
  pose proof (weighted_sum_bounds weights scores Hnn Hs) as [Hlo Hhi].
  unfold normalizedScore.
  destruct (weighted_totals weights scores) as [[a b]|]; [|q_norm; lra].
  assert (Hab : 0 <= a <= b).
  { destruct (scores !! "eventTimingPatterns") as [e|] eqn:Ee.
    - destruct H1 as (w & Hw & Ha & Hb).
      pose proof (nonneg_entry _ _ _ Hnn Hw) as Hw0.
      destruct (Hs _ _ Ee) as [He0 He1]. rewrite Ha, Hb. nra.
    - destruct H1 as [Ha Hb]. rewrite Ha, Hb. lra. }
  q_norm. destruct (Q_ltb 0 b) eqn:E; [|lra].
  apply Q_ltb_true in E. split.
  - apply Qle_shift_div_l; [exact E|]. lra.
  - apply Qle_shift_div_r; [exact E|]. lra.
Qed.

(** When the input holds no event-timing score, the aggregator computes
    the specification's formula. *)
Lemma overall_score_formula (weights : list (string * Q)) (scores : gmap string Q) :
  nonneg_weights weights ->
  scores !! "eventTimingPatterns" = None ->
  normalizedScore weights scores == spec_overallScore weights scores.
Proof.
  intros Hnn He.
  pose proof (weighted_totals_sums weights scores) as H1.
  unfold normalizedScore, spec_overallScore.
  destruct (weighted_totals weights scores) as [[a b]|].
  - rewrite He in H1. destruct H1 as [Ha Hb]. q_norm.
    destruct (Q_ltb 0 b) eqn:E.
    + rewrite Ha, Hb. reflexivity.
    + apply Q_ltb_false in E.
      assert (Hz : forall ws, nonneg_weights ws ->
                 0 <= present_weight ws scores /\
                 (present_weight ws scores == 0 -> weighted_sum ws scores == 0)).
      { clear. intros ws Hws. induction Hws as [|[k w] ws Hw Hws IH]; simpl.
        - split; [lra|reflexivity].
        - simpl in Hw. destruct IH as [IH0 IHz].
          destruct (scores !! k) as [s|]; [|split; assumption].
          split; [lra|]. intros Hsum.
          assert (Hw0 : w == 0) by lra. assert (Hp0 : present_weight ws scores == 0) by lra.
          rewrite (IHz Hp0), Hw0. ring. }
      destruct (Hz weights Hnn) as [Hp0 Hpz].
      assert (Hp : present_weight weights scores == 0) by lra.
      rewrite (Hpz Hp), Hp. reflexivity.
  - destruct H1 as (s & Hs & _). congruence.
Qed.


(** C1, at an input holding an event-timing score: the aggregator counts
    that factor's weight twice, 0.25 / 1.30, where the formula gives
    0.25 / 1.15. *)
Theorem event_timing_counted_twice :
  normalizedScore new_scoreWeights mouse_factor_raised == 5 # 26 /\
  spec_overallScore new_scoreWeights mouse_factor_raised == 5 # 23.
Proof. split; vm_compute; reflexivity. Qed.

(** Scenario C of the specification, in exact arithmetic and in doubles. *)
Lemma scenario_C_exact :
  normalizedScore [("mousePatterns", 25 # 100); ("headlessIndicator", 15 # 100)]
    (<["mousePatterns" := 9 # 10]> (<["headlessIndicator" := 1]> ∅)) == 9375 # 10000.
Proof. vm_compute. reflexivity. Qed.

Lemma scenario_C_double :
  normalizedScore
    [("mousePatterns", 0.25%float); ("headlessIndicator", 0.15%float)]
    (<["mousePatterns" := 0.9%float]> (<["headlessIndicator" := 1%float]> ∅))
  = 0.9375%float.
Proof. vm_compute. reflexivity. Qed.

(** C7: the classifier's buckets, and the state below the minimum
    sample count. *)
Theorem status_label_buckets :
  (forall (N : Type) (arith : JSArith N) (math : JSMath N) (d : Detector (N := N)),
      (movements (mouseData d) < minimumSamples (thresholds d))%nat ->
      _analyzeAndUpdateResults d
        = Some (d, [("Status", Text "Collecting data...");
                    ("Mouse Events", Count (movements (mouseData d)))])
      /\ forall s, _getBotStatusLabel d s = "Insufficient data")
  /\
  (forall (d : Detector (N := Q)) (s : Q),
      thresholds d = new_thresholds ->
      (20 <= movements (mouseData d))%nat ->
      (s < 3 # 10 -> _getBotStatusLabel d s = "Likely human")
      /\ (3 # 10 <= s < 5 # 10 -> _getBotStatusLabel d s = "Some unusual patterns")
      /\ (5 # 10 <= s < 7 # 10 ->
          _getBotStatusLabel d s = "Suspicious patterns detected")
      /\ (7 # 10 <= s -> _getBotStatusLabel d s = "Highly likely to be a bot")).
Proof.
  split.
  - intros N arith math d Hlt.
    apply Nat.ltb_lt in Hlt. split.
    + unfold _analyzeAndUpdateResults. rewrite Hlt. reflexivity.
    + intros s. unfold _getBotStatusLabel. rewrite Hlt. reflexivity.
  - intros d s Ht Hmin. unfold _getBotStatusLabel.
    assert (Hge : (movements (mouseData d) <? minimumSamples (thresholds d))%nat = false).
    { rewrite Ht. apply Nat.ltb_ge. exact Hmin. }
    rewrite Hge, Ht. simpl.
    destruct (Qle_bool (7 # 10) s) eqn:E7;
      destruct (Qle_bool (5 # 10) s) eqn:E5;
      destruct (Qle_bool (3 # 10) s) eqn:E3;
      try apply Qle_bool_iff in E7; try apply Qle_bool_iff in E5;
      try apply Qle_bool_iff in E3;
      try apply Q_leb_false in E7; try apply Q_leb_false in E5;
      try apply Q_leb_false in E3;
      repeat split; intros; first [reflexivity | lra].
Qed.


(** *** The evaluators, in doubles *)



End Scoring.

(** ** The movement window *)

Module Tracking.
Import MouseInteractionDetector.

Section Window.
Context {N : Type} {arith : JSArith N} {math : JSMath N}.
Implicit Types (m : MouseData (N := N)) (e : MouseMove N).

Lemma analyze_keeps_lists m :
  let m' := _analyzeRemoteAccessPatterns m in
  positions m' = positions m /\ timestamps m' = timestamps m /\
  velocities m' = velocities m /\
  timeBetweenMovements m' = timeBetweenMovements m /\
  movementAngles m' = movementAngles m /\
  accelerationPatterns m' = accelerationPatterns m /\
  velocityConsistencyScores m' = velocityConsistencyScores m /\
  straightLineSegments m' = straightLineSegments m /\
  curvedLineSegments m' = curvedLineSegments m /\
  movements m' = movements m.
Proof.
  unfold _analyzeRemoteAccessPatterns.
  destruct (movements m <? 20)%nat; repeat split; reflexivity.
Qed.

Lemma track_sample_lists m e : lists_tracked m e (track_sample e m).
Proof.
  unfold lists_tracked, track_sample, capped, overflows, timeDelta, timeDiff, position_of.
  destruct (last (positions m)) as [prev|] eqn:El; cbn.
  - repeat split.
    + eexists. split; [reflexivity|].
      destruct (_ <? _)%js eqn:Et; [right|left; reflexivity].
      split; [eexists; reflexivity|]. split; [eexists; reflexivity|first [reflexivity|exact Et]].
    + eexists. split; [reflexivity|].
      destruct (_ <? _)%js eqn:E0; [|left; reflexivity].
      destruct (_ <? _)%js eqn:E1 in |- *; [right|left; reflexivity].
      cbn. auto.
    + eexists. split; [reflexivity|]. eexists; reflexivity.
    + eexists. split; [reflexivity|].
      destruct (_ && _) eqn:Ec; [right|left; reflexivity].
      apply andb_prop in Ec as [Et _].
      split; [eexists; reflexivity|]. split; [eexists; reflexivity|exact Et].
    + eexists. split; [reflexivity|].
      destruct (_ && _) eqn:Ec; [right|left; reflexivity].
      apply andb_prop in Ec as [Et _].
      split; [eexists; reflexivity|]. split; [eexists; reflexivity|exact Et].
  - repeat split.
    + eexists. split; [reflexivity|]. left; reflexivity.
    + eexists. split; [reflexivity|].
      destruct (_ <? _)%js eqn:E0; [|left; reflexivity].
      destruct (_ <? _)%js eqn:E1 in |- *; [right|left; reflexivity].
      cbn. auto.
    + eexists. split; reflexivity.
    + eexists. split; [reflexivity|]. left; reflexivity.
    + eexists. split; [reflexivity|]. left; reflexivity.
Qed.


Lemma track_lists m e : lists_tracked m e (track e m).
Proof.
  pose proof (track_sample_lists m e) as H. unfold track. cbv zeta.
  destruct (_ && _); [|exact H].
  pose proof (analyze_keeps_lists (track_sample e m)) as K. cbv zeta in K.
  destruct K as (K1 & K2 & K3 & K4 & K5 & K6 & K7 & _).
  unfold lists_tracked in *. rewrite K1, K2, K3, K4, K5, K6, K7. exact H.
Qed.

(** *** Arrays *)

Lemma length_Array_shift {A} (xs : list A) :
  length (Array_shift xs) = (length xs - 1)%nat.
Proof. destruct xs; simpl; lia. Qed.

Lemma Array_shift_drop {A} (xs : list A) : Array_shift xs = drop 1 xs.
Proof. destruct xs; reflexivity. Qed.


(** Storing one more element and dropping the oldest when over capacity
    keeps exactly the last [n]. *)
Lemma slice_last_push {A} (n : nat) (xs : list A) (v : A) :
  (0 < n)%nat ->
  slice_last n (xs ++ [v])
  = (if (n <? length (slice_last n xs ++ [v]))%nat
     then Array_shift (slice_last n xs ++ [v]) else slice_last n xs ++ [v]).
Proof.
  intros Hn. unfold slice_last.
  rewrite !length_app, length_drop. simpl.
  destruct (decide (length xs < n)%nat) as [Hlt|Hge].
  - replace (length xs - n)%nat with 0%nat by lia.
    replace (length xs + 1 - n)%nat with 0%nat by lia. simpl.
    destruct (n <? _)%nat eqn:E; [apply Nat.ltb_lt in E; lia|reflexivity].
  - destruct (n <? _)%nat eqn:E; [|apply Nat.ltb_ge in E; lia].
    rewrite Array_shift_drop.
    rewrite !drop_app_le by (rewrite ?length_drop; lia).
    rewrite drop_drop. f_equal. f_equal. lia.
Qed.

(** *** The capacity invariant *)

Lemma length_capped m e (xs : list N) :
  length (capped m e xs)
  = (if overflows m e && (maxSamples <? length xs)%nat
     then length xs - 1 else length xs)%nat.
Proof.
  unfold capped. destruct (_ && _); [apply length_Array_shift|reflexivity].
Qed.

Lemma track_invariant m e : window_invariant m -> window_invariant (track e m).
Proof.
  intros (Hp & Ht & Hv & Hb & Ha & Hc & Hs).
  destruct (track_lists m e)
    as (P & T & (vs & V & HV) & (ts & B & HB) & (an & A & HA) & (ac & C & HC)
        & (cs & S & HS)).
  unfold window_invariant. rewrite P, T, V, B, A, C, S, !length_capped.
  assert (Lv : (length vs <= length (velocities m) + 1)%nat).
  { destruct HV as [->|[[v ->] _]]; rewrite ?length_app; simpl; lia. }
  assert (Lb : (length ts <= length (timeBetweenMovements m) + 1)%nat).
  { destruct HB as [->|[-> _]]; rewrite ?length_app; simpl; lia. }
  assert (La : (length an <= length (movementAngles m) + 1)%nat).
  { destruct (last (positions m)); [destruct HA as [a ->]|subst an];
      rewrite ?length_app; simpl; lia. }
  assert (Lc : (length ac <= length (accelerationPatterns m) + 1)%nat).
  { destruct HC as [->|[[v ->] _]]; rewrite ?length_app; simpl; lia. }
  assert (Ls : (length cs <= length (velocityConsistencyScores m) + 1)%nat).
  { destruct HS as [->|[[v ->] _]]; rewrite ?length_app; simpl; lia. }
  unfold overflows. rewrite length_app. simpl. unfold maxSamples in *.
  destruct (200 <? length (positions m) + 1)%nat eqn:E;
    [apply Nat.ltb_lt in E|apply Nat.ltb_ge in E];
    rewrite ?length_Array_shift, ?length_app; simpl;
    repeat match goal with
           | |- context [(200 <? ?n)%nat] =>
               let F := fresh in
               destruct (200 <? n)%nat eqn:F;
               [apply Nat.ltb_lt in F|apply Nat.ltb_ge in F]
           end; simpl; lia.
Qed.

Lemma mousemove_invariant m e : window_invariant m -> window_invariant (mousemove e m).
Proof.
  intros H. unfold mousemove.
  destruct (last (positions m)); [destruct (same_position _ _)|];
    auto using track_invariant.
Qed.

Lemma replay_invariant (events : list (MouseMove N)) : window_invariant (replay events).
Proof.
  unfold replay. induction events as [|e events IH] using rev_ind.
  - simpl. unfold window_invariant, maxSamples. simpl. lia.
  - rewrite foldl_app. simpl. apply mousemove_invariant, IH.
Qed.

(** *** First in, first out *)












(** C10: an event at the last stored position changes nothing. *)
Theorem unchanged_position_is_dropped m e (lastPos : Position N) :
  last (positions m) = Some lastPos ->
  same_position lastPos {| x := clientX e; y := clientY e |} = true ->
  mousemove e m = m.
Proof. intros Hlast Hsame. unfold mousemove. rewrite Hlast, Hsame. reflexivity. Qed.

(** *** When a derived metric is recorded *)

Lemma last_after_push {A} (overflow : bool) (xs : list A) (v : A) :
  (overflow = true -> (1 <= length xs)%nat) ->
  last (if overflow then Array_shift (xs ++ [v]) else xs ++ [v]) = Some v.
Proof.
  intros H. destruct overflow; [|apply last_snoc].
  destruct xs as [|a xs]; [specialize (H eq_refl); simpl in H; lia|].
  simpl. apply last_snoc.
Qed.

Lemma track_lastMovementTime m e : lastMovementTime (track e m) = Date_now e.
Proof.
  unfold track. cbv zeta.
  assert (H : lastMovementTime (track_sample e m) = Date_now e).
  { unfold track_sample. destruct (last (positions m)); reflexivity. }
  destruct (_ && _); [|exact H].
  unfold _analyzeRemoteAccessPatterns. destruct (_ <? _)%nat; exact H.
Qed.

Lemma track_stamped m e : window_invariant m -> stamped (track e m).
Proof.
  intros (Hp & Ht & _). destruct (track_lists m e) as (P & T & _).
  assert (Hov : overflows m e = true -> (1 <= length (positions m))%nat).
  { unfold overflows, maxSamples. rewrite length_app. simpl.
    intros H. apply Nat.ltb_lt in H. lia. }
  unfold stamped. rewrite P, T, track_lastMovementTime.
  rewrite last_after_push by exact Hov.
  apply last_after_push. rewrite Ht. exact Hov.
Qed.

Lemma replay_stamped (events : list (MouseMove N)) : stamped (replay events).
Proof.
  induction events as [|e events IH] using rev_ind.
  - reflexivity.
  - unfold replay in *. rewrite foldl_app. simpl.
    fold (replay events) in *. unfold mousemove.
    destruct (last (positions (replay events))) eqn:El;
      [destruct (same_position _ _)|];
      rewrite ?El; auto using track_stamped, replay_invariant.
Qed.

Lemma capped_within m e (xs : list N) :
  (length xs <= maxSamples)%nat -> capped m e xs = xs.
Proof.
  intros H. unfold capped.
  destruct (maxSamples <? length xs)%nat eqn:E; [apply Nat.ltb_lt in E; lia|].
  rewrite andb_false_r. reflexivity.
Qed.

Section Recorded.
(** Zero is not above zero: the one fact about numbers the listener's
    first-sample test rests on. *)
Hypothesis zero_not_positive : (js 0 >? js 0)%js = false.

(** C4 as the listener has it.  In any session and for any next event:
    - the velocity list is unchanged, or one velocity was stored (and the
      list capped), and then a previous sample exists and the time since
      it is strictly positive; the same for the inter-arrival times;
    - the angle list gets an entry for every event that is not skipped
      and has a previous sample, whatever the time delta;
    - the first event of a session stores no derived metric. *)
Theorem derived_metrics_recorded (events : list (MouseMove N)) e :
  let m := replay events in
  let m' := mousemove e m in
  (velocities m' = velocities m \/
   (exists v, velocities m' = capped m e (velocities m ++ [v])) /\
   positions m <> [] /\ (timeDelta m e >? js 0)%js = true) /\
  (timeBetweenMovements m' = timeBetweenMovements m \/
   timeBetweenMovements m' = capped m e (timeBetweenMovements m ++ [timeDelta m e]) /\
   positions m <> [] /\ (timeDelta m e >? js 0)%js = true) /\
  (movementAngles m' = movementAngles m \/
   (exists a, movementAngles m' = capped m e (movementAngles m ++ [a])) /\
   positions m <> []) /\
  (forall lastPos,
      last (positions m) = Some lastPos ->
      same_position lastPos (position_of e) = false ->
      exists a, movementAngles m' = capped m e (movementAngles m ++ [a])) /\
  (velocities (mousemove e new_mouseData) = [] /\
   timeBetweenMovements (mousemove e new_mouseData) = [] /\
   movementAngles (mousemove e new_mouseData) = [] /\
   accelerationPatterns (mousemove e new_mouseData) = [] /\
   velocityConsistencyScores (mousemove e new_mouseData) = []).
Proof.
  intros m m'.
  pose proof (replay_invariant events) as Inv. fold m in Inv.
  pose proof (replay_stamped events) as St. fold m in St.
  destruct Inv as (Hp & Ht & Hv & Hb & Ha & Hc & Hs).
  assert (Hm' : m' = m \/ m' = track e m /\
                (forall lastPos, last (positions m) = Some lastPos ->
                                 same_position lastPos (position_of e) = false)).
  { subst m'. unfold mousemove. fold (position_of e).
    destruct (last (positions m)) as [q|] eqn:El.
    - destruct (same_position q (position_of e)) eqn:Es; [left; reflexivity|].
      right. split; [reflexivity|]. intros ? [= <-]. exact Es.
    - right. split; [reflexivity|]. intros ? [=]. }
  destruct (track_lists m e)
    as (_ & _ & (vs & V & HV) & (ts & B & HB) & (an & A & HA) & _).
  repeat split.
  - destruct Hm' as [->|[-> _]]; [left; reflexivity|]. rewrite V.
    destruct HV as [->|[[v ->] [Hsome Hdelta]]].
    + left. apply capped_within. lia.
    + right. split; [exists v; reflexivity|]. split; [|exact Hdelta].
      destruct Hsome as [q Hq]. intros Hnil. rewrite Hnil in Hq. discriminate.
  - destruct Hm' as [->|[-> _]]; [left; reflexivity|]. rewrite B.
    destruct HB as [->|[-> [Hlast Hdiff]]].
    + left. apply capped_within. lia.
    + right. unfold stamped in St. unfold timeDelta, timeDiff in *.
      destruct (last (positions m)) as [q|] eqn:El.
      * rewrite St. simpl. split; [reflexivity|]. split; [|exact Hdiff].
        intros Hnil. rewrite Hnil in El. discriminate.
      * rewrite St, zero_not_positive in Hlast. discriminate.
  - destruct Hm' as [->|[-> _]]; [left; reflexivity|]. rewrite A.
    destruct (last (positions m)) as [q|] eqn:El.
    + destruct HA as [a ->]. right. split; [exists a; reflexivity|].
      intros Hnil. rewrite Hnil in El. discriminate.
    + subst an. left. apply capped_within. lia.
  - intros lastPos Hlast Hsame. subst m'. unfold mousemove.
    fold (position_of e). rewrite Hlast, Hsame, A.
    rewrite Hlast in HA. destruct HA as [a ->]. exists a. reflexivity.
  - unfold mousemove, track, track_sample. simpl.
    rewrite zero_not_positive. reflexivity.
Qed.

End Recorded.
End Window.
End Tracking.

(** ** The evaluation cycle *)

Module Pipeline.
Import BotDetector.

Section Cycle.
Context {N : Type} {arith : JSArith N} {math : JSMath N}.
Implicit Types (d : Detector (N := N)).

(** The aggregator reads the score table only at the keys of the weight
    table and at the event-timing key. *)
Lemma foldl_add_factor_ext (weights : list (string * N)) (m1 m2 : gmap string N)
    (totals : N * N) :
  (forall k, k ∈ weights.*1 -> m1 !! k = m2 !! k) ->
  foldl (add_factor m1) totals weights = foldl (add_factor m2) totals weights.
Proof.
  revert totals. induction weights as [|[k w] weights IH]; intros totals Hk; simpl.
  - reflexivity.
  - unfold add_factor at 2 4. simpl. rewrite (Hk k) by (simpl; left).
    apply IH. intros k' Hk'. apply Hk. simpl. right. exact Hk'.
Qed.

Lemma normalizedScore_ext (weights : list (string * N)) (m1 m2 : gmap string N) :
  (forall k, k ∈ weights.*1 -> m1 !! k = m2 !! k) ->
  m1 !! "eventTimingPatterns" = m2 !! "eventTimingPatterns" ->
  normalizedScore weights m1 = normalizedScore weights m2.
Proof.
  intros Hk He. unfold normalizedScore, weighted_totals.
  rewrite (foldl_add_factor_ext weights m1 m2 _ Hk), He. reflexivity.
Qed.

Lemma mousePatternScore_ext d d' :
  mouseData d' = mouseData d ->
  suspiciousPatterns d' = suspiciousPatterns d ->
  thresholds d' = thresholds d ->
  mousePatternScore d' = mousePatternScore d.
Proof. intros Hm Hs Ht. unfold mousePatternScore. rewrite Hm, Hs, Ht. reflexivity. Qed.

(** A second pattern analysis of the same mouse data finds the flags of
    the first. *)
Lemma pattern_flags_settle (avgVelocity avgAngle avgTimeBetween : N)
    (m : MouseData) (t : Thresholds) (sp sp1 : SuspiciousPatterns) :
  pattern_flags avgVelocity avgAngle avgTimeBetween m t sp = Some sp1 ->
  pattern_flags avgVelocity avgAngle avgTimeBetween m t sp1 = Some sp1.
Proof.
  unfold pattern_flags.
  generalize ((minVelocity m >? js 0) && (avgVelocity >? js 0))%js as g1.
  generalize ((avgVelocity >? js 0) && (minVelocity m >? js 0))%js as g4.
  generalize (minVelocity m / maxVelocity m >? perfectPatternThreshold t)%js as v1.
  generalize (minTimeBetween m / maxTimeBetween m >? perfectPatternThreshold t)%js as v3.
  cbv zeta.
  generalize (Math_abs (maxVelocity m - minVelocity m) / avgVelocity
              <? velocityVariance t)%js as v4.
  intros v4 v3 v1 g4 g1 H.
  destruct sp as [psl cv ca ct um api eta].
  destruct (angles m !! 0%nat) as [prevAngle|].
  - destruct (count_straight _ _ _ _ _ _) as [c|];
      unfold mbind, option_bind in *; [|discriminate H].
    revert H.
    match goal with
    | |- context [if ?c then (true, _) else _] => generalize c; intros cond
    end.
    intros [= <-].
    cbn [perfectStraightLines consistentVelocity consistentAngles
         consistentTimeBetween unnaturalMovement apiAnomalies
         eventTimingAnomalies fst snd].
    destruct (timeBetweenMovements m), g1, g4, cond, ca; reflexivity.
  - unfold mbind, option_bind in *. injection H as <-.
    cbn [perfectStraightLines consistentVelocity consistentAngles
         consistentTimeBetween unnaturalMovement apiAnomalies
         eventTimingAnomalies fst snd].
    destruct (timeBetweenMovements m), g1, g4; reflexivity.
Qed.

Lemma analysis_settles (avgVelocity avgAngle avgTimeBetween : N) d d1 d' :
  _analyzeForBotPatterns avgVelocity avgAngle avgTimeBetween d = Some d1 ->
  mouseData d' = mouseData d ->
  thresholds d' = thresholds d ->
  suspiciousPatterns d' = suspiciousPatterns d1 ->
  _analyzeForBotPatterns avgVelocity avgAngle avgTimeBetween d' = Some d'.
Proof.
  unfold _analyzeForBotPatterns. intros H1 Hm Ht Hs.
  destruct (pattern_flags _ _ _ (mouseData d) _ _) as [sp1|] eqn:Ef; [|discriminate].
  simpl in H1. injection H1 as <-. simpl in Hs.
  rewrite Hm, Ht, Hs, (pattern_flags_settle _ _ _ _ _ _ _ Ef). simpl.
  rewrite <- Hs. destruct d'. reflexivity.
Qed.

(** C9 for the bot detector: a second evaluation cycle over unchanged
    mouse data leaves the detector as the first left it and reports the
    same entries. *)
Theorem evaluation_cycle_idempotent d d' (report : list (string * InfoValue N)) :
  "overallScore" ∉ (scoreWeights d).*1 ->
  _analyzeAndUpdateResults d = Some (d', report) ->
  _analyzeAndUpdateResults d' = Some (d', report).
Proof.
  intros Hkey. unfold _analyzeAndUpdateResults.
  destruct (movements (mouseData d) <? minimumSamples (thresholds d))%nat eqn:Emin.
  - intros [= <- <-]. rewrite Emin. reflexivity.
  - set (avgV := if (0 <? length (velocities (mouseData d)))%nat then _ else _).
    set (avgA := if (0 <? length (angles (mouseData d)))%nat then _ else _).
    set (avgT := if (0 <? length (timeBetweenMovements (mouseData d)))%nat then _ else _).
    destruct (_analyzeForBotPatterns avgV avgA avgT d) as [d1|] eqn:E1; [|discriminate].
    simpl. unfold _calculateBotLikelihood.
    destruct (mousePatternScore d1) as [s|] eqn:E2; [|discriminate].
    simpl. intros [= <- <-].
    assert (F1 : mouseData d1 = mouseData d /\ thresholds d1 = thresholds d /\
                 scoreWeights d1 = scoreWeights d /\
                 detectionScores d1 = detectionScores d /\ botData d1 = botData d).
    { unfold _analyzeForBotPatterns in E1.
      destruct (pattern_flags _ _ _ _ _ _); [|discriminate].
      simpl in E1. injection E1 as <-. repeat split. }
    destruct F1 as (Fm & Ft & Fw & Fs & Fb).
    set (scores1 := <["mousePatterns" := s]> (detectionScores d1)).
    set (o := normalizedScore (scoreWeights d1) scores1).
    set (d3 := set_detectionScores (<["overallScore" := o]> scores1)
                 (set_detectionScores scores1 d1)).
    assert (Gm : mouseData d3 = mouseData d) by exact Fm.
    assert (Gt : thresholds d3 = thresholds d) by exact Ft.
    assert (Gp : suspiciousPatterns d3 = suspiciousPatterns d1) by reflexivity.
    assert (Gw : scoreWeights d3 = scoreWeights d1) by reflexivity.
    assert (Gs : detectionScores d3 = <["overallScore" := o]> scores1) by reflexivity.
    assert (Gd : forall scores, scores = detectionScores d3 ->
                                set_detectionScores scores d3 = d3).
    { intros ? ->. reflexivity. }
    assert (G1 : mouseData d1 = mouseData d3) by reflexivity.
    assert (G2 : thresholds d1 = thresholds d3) by reflexivity.
    clearbody d3.
    rewrite Gm, Gt, Emin. fold avgV avgA avgT.
    rewrite (analysis_settles avgV avgA avgT d d1 d3 E1 Gm Gt Gp).
    unfold mbind, option_bind.
    rewrite (mousePatternScore_ext d1 d3 (eq_trans Gm (eq_sym Fm)) Gp (eq_trans Gt (eq_sym Ft))), E2.
    assert (Hs1 : <["mousePatterns" := s]> (detectionScores d3) = detectionScores d3).
    { apply insert_id. rewrite Gs. subst scores1.
      rewrite lookup_insert_ne by discriminate. apply lookup_insert_eq. }
    rewrite Hs1, (Gd _ eq_refl).
    assert (Ho : normalizedScore (scoreWeights d3) (detectionScores d3) = o).
    { rewrite Gw, Gs. subst o. apply normalizedScore_ext.
      - intros k Hk. apply lookup_insert_ne. intros <-. apply Hkey.
        rewrite <- Fw. exact Hk.
      - apply lookup_insert_ne. discriminate. }
    unfold _calculateOverallScore. rewrite Ho.
    assert (Hs3 : <["overallScore" := o]> (detectionScores d3) = detectionScores d3).
    { apply insert_id. rewrite Gs. apply lookup_insert_eq. }
    rewrite Hs3, (Gd _ eq_refl).
    unfold _getBotStatusLabel. rewrite ?Gs, ?Gp, ?Gm, ?Gt, ?Fm, ?Ft. reflexivity.
Qed.

End Cycle.
End Pipeline.

(** ** The detectors on recorded sessions *)

Module Evaluation.
Import Sessions.

(** C2, at twenty events on one spot.  Every velocity is zero, so
    [_calculateBotLikelihood] divides zero by zero: the mouse-pattern
    score and the overall score are NaN, which is neither at least 0
    nor at most 1. *)
Theorem stationary_pointer_scores_NaN :
  option_map
    (fun r : BotDetector.Detector * list (string * InfoValue float) =>
       (BotDetector.detectionScores r.1 !! "mousePatterns",
        BotDetector.detectionScores r.1 !! "overallScore"))
    (BotDetector._analyzeAndUpdateResults (BotDetector.replay stationary_events))
  = Some (Some NaN, Some NaN)
  /\ (js 0 <=? NaN)%js = false /\ (NaN <=? js 1)%js = false.
Proof. vm_compute. repeat split. Qed.

(** C3, at four events turning a corner.  On the fourth event the
    listener tests the first, the second and the new position, which
    lie on a line, and counts a straight segment; the last three
    positions in order are not nearly collinear. *)
Theorem straight_test_skips_last_stored_position :
  let m := MouseInteractionDetector.replay corner_events in
  MouseInteractionDetector.positions m
  = [pixel 0 0; pixel 10 0; pixel 10 10; pixel 20 0]
  /\ MouseInteractionDetector.straightLineSegments m = 1%nat
  /\ MouseInteractionDetector.curvedLineSegments m = 0%nat
  /\ MouseInteractionDetector.nearly_collinear
       (pixel 10 0) (pixel 10 10) (pixel 20 0)
     = false.
Proof. vm_compute. repeat split. Qed.

(** C4 as stated fails: a second event in the same millisecond as the
    first, at another position, has a time delta of zero and still adds
    an angle. *)
Lemma angle_recorded_without_time_delta :
  let first := at_ms 0 0 0 in
  let second := at_ms 3 4 0 in
  let m := MouseInteractionDetector.replay [first] in
  (MouseInteractionDetector.timeDelta m second >? js 0)%js = false
  /\ length (MouseInteractionDetector.movementAngles m) = 0%nat
  /\ length (MouseInteractionDetector.movementAngles
               (MouseInteractionDetector.mousemove second m)) = 1%nat.
Proof. vm_compute. repeat split. Qed.

(** C9 as stated fails for the remote desktop detector: analysing the
    same twenty points a second time doubles the running counts and
    turns "not enough data" into a straight-line ratio of 1. *)
Lemma remote_desktop_counts_accumulate :
  let once := RemoteDesktopDetector._analyzeMouseMovement line_window in
  let twice := RemoteDesktopDetector._analyzeMouseMovement once in
  RemoteDesktopDetector.mousePoints once = RemoteDesktopDetector.mousePoints line_window
  /\ RemoteDesktopDetector.mousePatterns once
     = {| RemoteDesktopDetector.straightLineRatio := 0%float;
          RemoteDesktopDetector.consistentVelocity := false |}
  /\ RemoteDesktopDetector.mousePatterns twice
     = {| RemoteDesktopDetector.straightLineRatio := 1%float;
          RemoteDesktopDetector.consistentVelocity := true |}
  /\ RemoteDesktopDetector.straightLineCount once = 18%nat
  /\ RemoteDesktopDetector.straightLineCount twice = 36%nat.
Proof. vm_compute. repeat split. Qed.

Lemma derived_metrics_recorded_witness :
  let first := at_ms 0 0 0 in
  let second := at_ms 3 4 16 in
  let m := MouseInteractionDetector.replay [first] in
  let m' := MouseInteractionDetector.mousemove second m in
  (js 0 >? js (N := float) 0)%js = false
  /\ (MouseInteractionDetector.velocities m' = MouseInteractionDetector.velocities m
      \/ (exists v, MouseInteractionDetector.velocities m'
                    = MouseInteractionDetector.capped m second
                        (MouseInteractionDetector.velocities m ++ [v]))
         /\ MouseInteractionDetector.positions m <> []
         /\ (MouseInteractionDetector.timeDelta m second >? js 0)%js = true).
Proof.
  split; [reflexivity|].
  exact (proj1 (Tracking.derived_metrics_recorded
                  (N := float) eq_refl [at_ms 0 0 0] (at_ms 3 4 16))).
Defined.

Lemma unchanged_position_is_dropped_witness :
  let m := MouseInteractionDetector.replay [at_ms 5 5 0] in
  MouseInteractionDetector.mousemove (at_ms 5 5 16) m = m.
Proof.
  exact (Tracking.unchanged_position_is_dropped
           (MouseInteractionDetector.replay [at_ms 5 5 0]) (at_ms 5 5 16)
           (pixel 5 5) eq_refl eq_refl).
Defined.

Lemma overall_score_monotone_witness :
  (BotDetector.normalizedScore BotDetector.new_scoreWeights
     BotDetector.new_detectionScores
   <= BotDetector.normalizedScore BotDetector.new_scoreWeights
        (<["headlessBrowser" := 1]> BotDetector.new_detectionScores))%Q.
Proof.
  apply (Scoring.overall_score_monotone _ _ "headlessBrowser" 0 1).
  - unfold Formulas.nonneg_weights. repeat constructor; discriminate.
  - reflexivity.
  - discriminate.
Defined.

Lemma status_label_buckets_witness :
  BotDetector._getBotStatusLabel (N := float) BotDetector.new_BotDetector 0.9%float
  = "Insufficient data"
  /\ BotDetector._getBotStatusLabel twenty_movements (6 # 10)%Q
     = "Suspicious patterns detected".
Proof.
  split.
  - exact (proj2 (proj1 Scoring.status_label_buckets float _ _
                    BotDetector.new_BotDetector (Nat.lt_0_succ 19)) 0.9%float).
  - refine (proj1 (proj2 (proj2
             (proj2 Scoring.status_label_buckets twenty_movements (6 # 10)%Q
                eq_refl _))) _).
    + apply Nat.le_refl.
    + split; [discriminate|reflexivity].
Defined.

Lemma evaluation_cycle_idempotent_witness :
  exists d' report,
    BotDetector._analyzeAndUpdateResults (BotDetector.replay wandering_events)
    = Some (d', report)
    /\ BotDetector._analyzeAndUpdateResults d' = Some (d', report).
Proof.
  destruct (BotDetector._analyzeAndUpdateResults (BotDetector.replay wandering_events))
    as [[d' report]|] eqn:E.
  - exists d', report. split; [reflexivity|].
    apply (Pipeline.evaluation_cycle_idempotent (BotDetector.replay wandering_events)).
    + vm_compute. intros H.
      repeat (apply elem_of_cons in H as [H|H]; [discriminate H|]).
      inversion H.
    + exact E.
  - vm_compute in E. discriminate E.
Defined.



End Evaluation.

(** ** The bot detector's window and its evaluation cycle *)

Module BotTracking.
Import BotDetector BotWindow.
Section Window.
Context {N : Type} {arith : JSArith N} {math : JSMath N}.
Implicit Types (m : MouseData (N := N)) (e : MouseMove N) (d : Detector (N := N)).

Lemma bot_mousemove_positions m e :
  positions (mousemove e m)
  = (if (maxSamples <? length (positions m ++ [{| x := clientX e; y := clientY e |}]))%nat
     then Array_shift (positions m ++ [{| x := clientX e; y := clientY e |}])
     else positions m ++ [{| x := clientX e; y := clientY e |}]).
Proof. unfold mousemove. destruct (last (positions m)); reflexivity. Qed.

Lemma bot_mousemove_timestamps m e :
  timestamps (mousemove e m)
  = (if (maxSamples <? length (positions m ++ [{| x := clientX e; y := clientY e |}]))%nat
     then Array_shift (timestamps m ++ [Date_now e])
     else timestamps m ++ [Date_now e]).
Proof. unfold mousemove. destruct (last (positions m)); reflexivity. Qed.

Lemma bot_mousemove_movements m e : movements (mousemove e m) = S (movements m).
Proof. unfold mousemove. destruct (last (positions m)); reflexivity. Qed.

Lemma bot_mousemove_invariant m e : window_invariant m -> window_invariant (mousemove e m).
Proof.
  intros (Hp & Ht & Hv & Ha & Hb). unfold window_invariant, mousemove.
  set (full := (maxSamples <? length (positions m ++ _))%nat).
  assert (Hfull : if full then length (positions m) = maxSamples
                  else (length (positions m) < maxSamples)%nat).
  { subst full. rewrite length_app. cbn [length].
    destruct (maxSamples <? _)%nat eqn:E;
      [apply Nat.ltb_lt in E|apply Nat.ltb_ge in E]; lia. }
  clearbody full. unfold maxSamples in *.
  destruct (last (positions m)) as [prev|] eqn:El; cbn.
  - assert (Hne : (1 <= length (positions m))%nat).
    { destruct (positions m); [discriminate El|simpl; lia]. }
    destruct full;
      repeat match goal with
             | |- context [if ?c then _ else _] => destruct c
             end;
      rewrite ?Tracking.length_Array_shift, ?length_app; cbn [length]; lia.
  - apply last_None in El. rewrite El in *. simpl in *.
    assert (Hv0 : velocities m = []) by (apply length_zero_iff_nil; lia).
    assert (Ha0 : angles m = []) by (apply length_zero_iff_nil; lia).
    assert (Hb0 : timeBetweenMovements m = []) by (apply length_zero_iff_nil; lia).
    assert (Ht0 : timestamps m = []) by (apply length_zero_iff_nil; lia).
    rewrite Hv0, Ha0, Hb0, Ht0.
    destruct full; [lia|].
    repeat match goal with
           | |- context [if ?c then _ else _] => destruct c
           end; simpl; lia.
Qed.

Lemma bot_replay_invariant (events : list (MouseMove N)) :
  window_invariant (mouseData (replay events)).
Proof.
  unfold replay. induction events as [|e events IH] using rev_ind.
  - simpl. unfold window_invariant, maxSamples. simpl. lia.
  - rewrite foldl_app. simpl. apply bot_mousemove_invariant, IH.
Qed.

Lemma bot_replay_snoc (events : list (MouseMove N)) e :
  mouseData (replay (events ++ [e])) = mousemove e (mouseData (replay events)).
Proof. unfold replay. rewrite foldl_app. reflexivity. Qed.

Lemma bot_replay_movements (events : list (MouseMove N)) :
  movements (mouseData (replay events)) = length events.
Proof.
  induction events as [|e events IH] using rev_ind; [reflexivity|].
  rewrite bot_replay_snoc, bot_mousemove_movements, IH, length_app. simpl. lia.
Qed.

Lemma bot_replay_positions (events : list (MouseMove N)) :
  positions (mouseData (replay events))
  = slice_last maxSamples (map (fun e => {| x := clientX e; y := clientY e |}) events).
Proof.
  induction events as [|e events IH] using rev_ind; [reflexivity|].
  rewrite bot_replay_snoc, bot_mousemove_positions, map_app, IH. cbn [map].
  symmetry. apply Tracking.slice_last_push. unfold maxSamples. lia.
Qed.

Lemma bot_replay_timestamps (events : list (MouseMove N)) :
  timestamps (mouseData (replay events)) = slice_last maxSamples (map Date_now events).
Proof.
  induction events as [|e events IH] using rev_ind; [reflexivity|].
  rewrite bot_replay_snoc, bot_mousemove_timestamps, map_app.
  destruct (bot_replay_invariant events) as (_ & Ht & _).
  rewrite length_app, <- Ht, IH. cbn [map].
  rewrite <- (length_app _ [Date_now e]).
  symmetry. apply Tracking.slice_last_push. unfold maxSamples. lia.
Qed.

(** X1: the bot detector's window: every event is counted, the stored
    positions and timestamps are those of the last [maxSamples] = 100
    events, oldest first, and no derived list is longer than the
    positions. *)
Theorem bot_window_bounded_fifo (events : list (MouseMove N)) :
  let m := mouseData (replay events) in
  maxSamples = 100%nat /\
  movements m = length events /\
  positions m
  = slice_last maxSamples (map (fun e => {| x := clientX e; y := clientY e |}) events) /\
  timestamps m = slice_last maxSamples (map Date_now events) /\
  (length (velocities m) <= length (positions m) - 1)%nat /\
  (length (angles m) <= length (positions m) - 1)%nat /\
  (length (timeBetweenMovements m) <= length (positions m))%nat /\
  (length (positions m) <= maxSamples)%nat.
Proof.
  intros m. subst m.
  destruct (bot_replay_invariant events) as (Hp & Ht & Hv & Ha & Hb).
  repeat split; auto using bot_replay_movements, bot_replay_positions, bot_replay_timestamps.
Qed.

(** *** The analysis on tracked data *)

Lemma count_straight_total (t : Thresholds) m (indices : list nat)
    (prevAngle : N) (prev : Position N) (c : nat) :
  Forall (fun i => (i < length (angles m))%nat /\ (i < length (positions m))%nat) indices ->
  is_Some (count_straight t m indices prevAngle (Some prev) c).
Proof.
  intros H. revert prevAngle prev c.
  induction H as [|i indices [Ha Hp] _ IH]; intros prevAngle prev c; simpl.
  - eexists; reflexivity.
  - apply lookup_lt_is_Some in Ha as [a ->]. apply lookup_lt_is_Some in Hp as [p ->].
    simpl. apply IH.
Qed.

Lemma scan_runs_total (t : Thresholds) m (indices : list nat)
    (prevAngle : N) (prev : Position N) (prevTimestamp : N) (r : RunState) :
  Forall (fun i => (i < length (angles m))%nat /\ (i < length (positions m))%nat) indices ->
  is_Some (scan_runs t m indices prevAngle (Some prev) prevTimestamp r).
Proof.
  intros H. revert prevAngle prev prevTimestamp r.
  induction H as [|i indices [Ha Hp] _ IH]; intros prevAngle prev prevTimestamp r; simpl.
  - eexists; reflexivity.
  - apply lookup_lt_is_Some in Ha as [a ->]. apply lookup_lt_is_Some in Hp as [p ->].
    simpl. apply IH.
Qed.

Lemma indices_in_window m :
  window_invariant m ->
  Forall (fun i => (i < length (angles m))%nat /\ (i < length (positions m))%nat)
    (seq 1 (length (angles m) - 1)).
Proof.
  intros (_ & _ & _ & Ha & _). apply Forall_forall. intros i Hi.
  apply elem_of_seq in Hi. lia.
Qed.

Lemma pattern_flags_total (avgVelocity avgAngle avgTimeBetween : N) m
    (t : Thresholds) (sp : SuspiciousPatterns) :
  window_invariant m ->
  is_Some (pattern_flags avgVelocity avgAngle avgTimeBetween m t sp).
Proof.
  intros Inv. pose proof (indices_in_window m Inv) as Hidx.
  destruct Inv as (_ & _ & _ & Ha & _).
  unfold pattern_flags.
  destruct (angles m !! 0%nat) as [prevAngle|] eqn:E0.
  - assert (Hp : is_Some (positions m !! 0%nat)).
    { apply lookup_lt_is_Some. apply lookup_lt_Some in E0. lia. }
    destruct Hp as [p ->].
    destruct (count_straight_total t m _ prevAngle p 0 Hidx) as [c ->].
    simpl. eexists; reflexivity.
  - simpl. eexists; reflexivity.
Qed.

Lemma mousePatternScore_total d :
  window_invariant (mouseData d) -> is_Some (mousePatternScore d).
Proof.
  intros Inv. pose proof (indices_in_window _ Inv) as Hidx.
  destruct Inv as (_ & _ & _ & Ha & _).
  unfold mousePatternScore.
  destruct (velocities (mouseData d)); destruct (angles (mouseData d)) as [|a0 angles] eqn:Ea;
    destruct (timeBetweenMovements (mouseData d));
    destruct (minimumSamples (thresholds d) <? _)%nat; cbv zeta;
    try (simpl; eexists; reflexivity).
  all: assert (Hp : is_Some (positions (mouseData d) !! 0%nat))
         by (apply lookup_lt_is_Some; simpl in Ha; lia);
       destruct Hp as [p Hp]; rewrite Hp;
       match goal with
       | |- context [scan_runs ?t ?m ?ix ?pa (Some p) ?pt ?r] =>
           destruct (scan_runs_total t m ix pa p pt r) as [r' Hr];
           [rewrite Ea; exact Hidx|rewrite Hr]
       end; simpl; eexists; reflexivity.
Qed.

Lemma cycle_completes d :
  window_invariant (mouseData d) -> is_Some (_analyzeAndUpdateResults d).
Proof.
  intros Inv. unfold _analyzeAndUpdateResults.
  destruct (_ <? _)%nat; [eexists; reflexivity|]. cbv zeta.
  unfold _analyzeForBotPatterns.
  match goal with
  | |- context [pattern_flags ?a ?b ?c ?m ?t ?sp] =>
      destruct (pattern_flags_total a b c m t sp Inv) as [sp1 ->]
  end.
  cbn [mbind option_bind]. unfold _calculateBotLikelihood.
  destruct (mousePatternScore_total (set_suspiciousPatterns sp1 d) Inv) as [s ->].
  cbn [mbind option_bind]. eexists; reflexivity.
Qed.

(** What a cycle leaves alone: the mouse data, and every score but the
    two it computes. *)
Lemma cycle_frame d d' (report : list (string * InfoValue N)) :
  _analyzeAndUpdateResults d = Some (d', report) ->
  mouseData d' = mouseData d /\
  forall key, key <> "mousePatterns" -> key <> "overallScore" ->
              detectionScores d' !! key = detectionScores d !! key.
Proof.
  unfold _analyzeAndUpdateResults.
  destruct (_ <? _)%nat; [intros [= <- <-]; split; reflexivity|]. cbv zeta.
  unfold _analyzeForBotPatterns.
  destruct (pattern_flags _ _ _ _ _ _) as [sp1|]; [|discriminate].
  cbn [mbind option_bind]. unfold _calculateBotLikelihood.
  destruct (mousePatternScore _) as [s|]; [|discriminate].
  cbn [mbind option_bind]. intros [= <- <-]. split; [reflexivity|].
  intros key H1 H2. unfold _calculateOverallScore, set_detectionScores.
  cbn [fst detectionScores].
  rewrite lookup_insert_ne by congruence. rewrite lookup_insert_ne by congruence.
  reflexivity.
Qed.

(** X2: whatever the events were, an evaluation cycle completes: the
    arrays the two analyses index in step are filled independently, but
    an angle is never stored without an earlier position, so
    [positions[i]] exists for every index of [angles]. *)
Theorem evaluation_cycle_completes (events : list (MouseMove N)) d :
  is_Some (_analyzeAndUpdateResults (set_mouseData (mouseData (replay events)) d)).
Proof. apply cycle_completes. apply bot_replay_invariant. Qed.

End Window.
End BotTracking.

(** ** The scores no call writes *)

Module Reach.
Import Utils BotDetector BotDetectorPage BotWindow.

Section Calls.
Context {N : Type} {arith : JSArith N} {math : JSMath N}.
Variable parseFloat : string -> N.
Implicit Types (d : Detector (N := N)).

Lemma perform_sound (c : Call) d :
  window_invariant (mouseData d) ->
  exists d', perform parseFloat c d = Some d'
             /\ window_invariant (mouseData d') /\ untouched d d'.
Proof.
  intros Inv. destruct c as [w|w|w|w|screen ua doc|canvas doc|e|]; cbn [perform].
  - eexists. split; [reflexivity|]. split; [exact Inv|].
    intros key; intros. unfold _detectHeadlessBrowser, set_botData, set_detectionScores.
    cbn [detectionScores]. apply lookup_insert_ne. congruence.
  - eexists. split; [reflexivity|]. unfold permissions_then.
    destruct (permissions w) as [p|]; [destruct (permissions_inconsistent p)|];
      (split; [exact Inv|]); intros key; intros; try reflexivity.
    unfold _calculateOverallScore, set_detectionScores. cbn [fst detectionScores].
    rewrite !lookup_insert_ne by congruence. reflexivity.
  - eexists. split; [reflexivity|]. split; [exact Inv|].
    intros key; intros. unfold _detectFakeUserAgent, set_botData, set_detectionScores.
    cbn [detectionScores]. apply lookup_insert_ne. congruence.
  - eexists. split; [reflexivity|]. split; [exact Inv|].
    intros key; intros.
    unfold _detectUnusualScreenResolution, set_botData, set_detectionScores.
    cbn [detectionScores]. apply lookup_insert_ne. congruence.
  - eexists. split; [reflexivity|]. unfold _detectRDP, on_page. cbn [document].
    destruct (doc !! "color-depth-info");
      [|destruct (if GraphicsDetector.Depth_is _ 8 then _ else _)];
      (split; [exact Inv|]); intros key; intros;
      unfold set_score, set_detectionScores; cbn [detector detectionScores];
      apply lookup_insert_ne; congruence.
  - eexists. split; [reflexivity|]. split; [exact Inv|].
    intros key; intros. unfold _detectFingerprintAnomalies, set_score, set_detectionScores.
    cbn [detector detectionScores on_page]. apply lookup_insert_ne. congruence.
  - eexists. split; [reflexivity|]. split.
    + apply BotTracking.bot_mousemove_invariant, Inv.
    + intros key; intros. reflexivity.
  - destruct (BotTracking.cycle_completes d Inv) as [[d' report] Hc].
    rewrite Hc. exists d'. split; [reflexivity|].
    destruct (BotTracking.cycle_frame d d' report Hc) as [Hm Hs].
    split; [rewrite Hm; exact Inv|]. intros key; intros. apply Hs; assumption.
Qed.

Lemma run_sound (calls : list Call) d :
  window_invariant (mouseData d) ->
  exists d', run parseFloat calls d = Some d' /\ untouched d d'.
Proof.
  revert d. induction calls as [|c calls IH]; intros d Inv; cbn [run].
  - exists d. split; [reflexivity|]. intros key; intros; reflexivity.
  - destruct (perform_sound c d Inv) as (d1 & -> & Inv1 & U1).
    cbn [mbind option_bind]. destruct (IH d1 Inv1) as (d' & -> & U).
    exists d'. split; [reflexivity|]. intros key; intros.
    rewrite U, U1 by assumption. reflexivity.
Qed.

(** X3: no order of calls makes an evaluation cycle throw, and none of
    them writes the API-fingerprint or the event-timing score: both
    stay at the 0 the constructor gives them. *)
Theorem api_and_timing_scores_stay_zero (calls : list Call) :
  exists d,
    run parseFloat calls new_BotDetector = Some d
    /\ detectionScores d !! "apiFingerprint" = Some (js 0)
    /\ detectionScores d !! "eventTimingPatterns" = Some (js 0).
Proof.
  destruct (run_sound calls new_BotDetector) as (d & Hr & U).
  { apply (BotTracking.bot_replay_invariant []). }
  exists d. split; [exact Hr|].
  split; rewrite U by discriminate; reflexivity.
Qed.

End Calls.
End Reach.

(** ** What the bot detector shows *)

Module Display.
Import Utils BotDetector BotDetectorPage Formulas.
Local Open Scope Q_scope.

(** X4: with the two scores no method writes at 0 and every other score
    in [0, 1], the overall score is at most 0.9 / 1.3 = 9/13: below the
    0.7 that the verdict 'Highly likely to be a bot' asks for. *)
Theorem bot_verdict_is_out_of_reach (scores : gmap string Q) (d : Detector (N := Q)) :
  (forall key s, scores !! key = Some s -> 0 <= s <= 1) ->
  scores !! "apiFingerprint" = Some 0 ->
  scores !! "eventTimingPatterns" = Some 0 ->
  thresholds d = new_thresholds ->
  normalizedScore new_scoreWeights scores <= 9 # 13
  /\ _getBotStatusLabel d (normalizedScore new_scoreWeights scores)
     <> "Highly likely to be a bot".
Proof.
  intros Hs Ha He Ht.
  assert (Hb : normalizedScore new_scoreWeights scores <= 9 # 13).
  { pose proof (Scoring.weighted_totals_sums new_scoreWeights scores) as H.
    unfold normalizedScore.
    destruct (weighted_totals new_scoreWeights scores) as [[a b]|]; [|discriminate].
    rewrite He in H. destruct H as (w & Hw & Hwa & Hwb).
    injection Hw as <-. cbn [weighted_sum present_weight foldr fst snd new_scoreWeights]
      in Hwa, Hwb.
    rewrite Ha, He in Hwa, Hwb.
    cbn [num_dec Q_arith] in Hwa, Hwb.
    pose proof (Hs "mousePatterns") as H1. pose proof (Hs "headlessBrowser") as H2.
    pose proof (Hs "fakeUserAgent") as H3. pose proof (Hs "unusualResolution") as H4.
    pose proof (Hs "rdpDetection") as H5. pose proof (Hs "fingerprinting") as H6.
    destruct (scores !! "mousePatterns") as [s1|];
      destruct (scores !! "headlessBrowser") as [s2|];
      destruct (scores !! "fakeUserAgent") as [s3|];
      destruct (scores !! "unusualResolution") as [s4|];
      destruct (scores !! "rdpDetection") as [s5|];
      destruct (scores !! "fingerprinting") as [s6|];
      try specialize (H1 _ eq_refl); try specialize (H2 _ eq_refl);
      try specialize (H3 _ eq_refl); try specialize (H4 _ eq_refl);
      try specialize (H5 _ eq_refl); try specialize (H6 _ eq_refl);
      cbn [num_ltb num_div num_Z Q_arith]; change (inject_Z 0) with 0;
      (destruct (Q_ltb 0 b) eqn:E; [|discriminate]);
      apply Scoring.Q_ltb_true in E;
      (apply Qle_shift_div_r; [exact E|]); rewrite Hwa, Hwb; lra. }
  split; [exact Hb|].
  unfold _getBotStatusLabel. rewrite Ht.
  destruct (_ <? _)%nat; [discriminate|].
  cbn [botScoreThreshold new_thresholds num_leb num_dec Q_arith].
  destruct (Qle_bool (7 # 10) _) eqn:E.
  - apply Qle_bool_iff in E. exfalso.
    assert (9 # 13 < 7 # 10) by reflexivity. lra.
  - repeat match goal with
           | |- context [if ?c then _ else _] => destruct c
           end; discriminate.
Qed.

(** X5: in exact arithmetic, with thresholds in ascending order, the
    indicator and the status label name the same bucket once enough
    movements are in.  In doubles they part on NaN, which fails every
    comparison: the label reads 'Likely human' and the indicator
    'Highly likely to be a bot'. *)
Theorem indicator_and_label_agree_except_on_NaN :
  (forall (math : JSMath Q) (d : Detector (N := Q)) (s : Q),
      detectionScores d !! "overallScore" = Some s ->
      (minimumSamples (thresholds d) <= movements (mouseData d))%nat ->
      humanScoreThreshold (thresholds d) <= suspiciousScoreThreshold (thresholds d) ->
      suspiciousScoreThreshold (thresholds d) <= botScoreThreshold (thresholds d) ->
      status (_updateScoreIndicator d) = _getBotStatusLabel d s)
  /\
  (forall (d : Detector (N := float)),
      detectionScores d !! "overallScore" = Some NaN ->
      (minimumSamples (thresholds d) <= movements (mouseData d))%nat ->
      status (_updateScoreIndicator d) = "Highly likely to be a bot"
      /\ _getBotStatusLabel d NaN = "Likely human").
Proof.
  split.
  - intros math d s Hs Hm. unfold _updateScoreIndicator, _getBotStatusLabel.
    rewrite Hs. cbn [default from_option id].
    apply Nat.ltb_ge in Hm. rewrite Hm.
    cbn [num_ltb num_leb Q_arith].
    generalize (humanScoreThreshold (thresholds d)) as h.
    generalize (suspiciousScoreThreshold (thresholds d)) as u.
    generalize (botScoreThreshold (thresholds d)) as b. intros b u h Hhu Hub.
    unfold Q_ltb.
    destruct (Qle_bool b s) eqn:Eb, (Qle_bool u s) eqn:Eu, (Qle_bool h s) eqn:Eh;
      try reflexivity; exfalso;
      try apply Qle_bool_iff in Eb; try apply Qle_bool_iff in Eu;
      try apply Qle_bool_iff in Eh;
      try apply Scoring.Q_leb_false in Eb; try apply Scoring.Q_leb_false in Eu;
      try apply Scoring.Q_leb_false in Eh; lra.
  - intros d Hs Hm. unfold _updateScoreIndicator, _getBotStatusLabel.
    rewrite Hs. cbn [default from_option id].
    apply Nat.ltb_ge in Hm. rewrite Hm.
    cbn [num_ltb num_leb float_arith NaN float_math].
    assert (Hlt : forall t, PrimFloat.ltb nan t = false).
    { intros t. rewrite ltb_spec. reflexivity. }
    assert (Hle : forall t, PrimFloat.leb t nan = false).
    { intros t. rewrite leb_spec. unfold SFleb, SFcompare.
      change (Prim2SF nan) with S754_nan. destruct (Prim2SF t); reflexivity. }
    rewrite !Hlt, !Hle. split; reflexivity.
Qed.

Lemma Qfloor_ge (z : Z) (x : Q) : (z <= Qfloor x)%Z <-> inject_Z z <= x.
Proof.
  split.
  - intros H. rewrite Zle_Qle in H. pose proof (Qfloor_le x). lra.
  - intros H. destruct (Z_le_gt_dec z (Qfloor x)) as [Hle|Hgt]; [exact Hle|].
    assert (Hz : (Qfloor x + 1 <= z)%Z) by lia.
    rewrite Zle_Qle in Hz. pose proof (Qlt_floor x). lra.
Qed.

Lemma Q_round_above (z : Z) (s : Q) :
  Q_ltb (inject_Z z) (Q_round (s * 100)) = true <-> inject_Z (2 * z + 1) / 200 <= s.
Proof.
  rewrite Scoring.Q_ltb_true. unfold Q_round. rewrite <- Zlt_Qlt.
  assert (H : (z < Qfloor (s * 100 + (1 # 2)))%Z <-> (z + 1 <= Qfloor (s * 100 + (1 # 2)))%Z)
    by lia.
  rewrite H, Qfloor_ge, !inject_Z_plus, inject_Z_mult.
  change (inject_Z 2) with 2. change (inject_Z 1) with 1.
  split; intros K.
  - apply Qle_shift_div_r; [reflexivity|]. lra.
  - assert (K' : (2 * inject_Z z + 1) / 200 * 200 <= s * 200).
    { apply Qmult_le_compat_r; [exact K|discriminate]. }
    assert (E : (2 * inject_Z z + 1) / 200 * 200 == 2 * inject_Z z + 1) by field.
    rewrite E in K'. lra.
Qed.

(** X6: the banner [_updateUI] builds rounds the score to a whole per
    cent before it compares: with the overall score at [s], its cut
    points are 0.305 and 0.705, not the thresholds 0.3, 0.5 and 0.7 of
    the status label. *)
Theorem banner_cut_points (math : JSMath Q) (d : Detector (N := Q)) (s : Q) :
  let d' := set_detectionScores (<["overallScore" := s]> (detectionScores d)) d in
  (statusText (_updateUI d') = "Likely bot" <-> 705 # 1000 <= s)
  /\ (statusText (_updateUI d') = "Suspicious behavior" <-> 305 # 1000 <= s < 705 # 1000)
  /\ (statusText (_updateUI d') = "Likely human" <-> s < 305 # 1000).
Proof.
  cbv zeta. unfold _updateUI, set_detectionScores. cbn [detectionScores].
  rewrite lookup_insert_eq. cbn [default from_option id]. cbv zeta.
  cbn [num_mul num_ltb num_Z Math_round Q_arith Q_rounding].
  change (inject_Z 100) with 100.
  pose proof (Q_round_above 70 s) as H70. pose proof (Q_round_above 30 s) as H30.
  change (inject_Z (2 * 70 + 1) / 200) with (141 # 200) in H70.
  change (inject_Z (2 * 30 + 1) / 200) with (61 # 200) in H30.
  destruct (Q_ltb (inject_Z 70) (Q_round (s * 100))) eqn:E70;
    [|destruct (Q_ltb (inject_Z 30) (Q_round (s * 100))) eqn:E30];
    cbn [statusText].
  - assert (K : 141 # 200 <= s) by (apply H70; reflexivity).
    repeat split; intros; try discriminate; try reflexivity; lra.
  - assert (K30 : 61 # 200 <= s) by (apply H30; reflexivity).
    assert (K : ~ 141 # 200 <= s) by (intros K; apply H70 in K; discriminate).
    repeat split; intros; try discriminate; try reflexivity; lra.
  - assert (K : ~ 61 # 200 <= s) by (intros K; apply H30 in K; discriminate).
    repeat split; intros; try discriminate; try reflexivity; lra.
Qed.

(** *** The evaluators' scores *)

Lemma in_range_dec (lo hi s : Q) :
  Qle_bool lo s && Qle_bool s hi = true -> lo <= s <= hi.
Proof.
  intros H. apply andb_prop in H as [H1 H2].
  apply Qle_bool_iff in H1. apply Qle_bool_iff in H2. split; assumption.
Qed.

(** X7: no evaluator reaches the cap of 1 that its score is cut at: the
    headless score is at most 0.775, the user-agent score at most 5/6
    (the Safari test and the Chrome test exclude each other) and the
    resolution score at most 0.85; none is negative. *)
Theorem evaluator_scores_stay_below_the_cap (w : Window (N := Q)) (d : Detector (N := Q)) :
  (exists s, detectionScores (_detectHeadlessBrowser w d) !! "headlessBrowser" = Some s
             /\ 0 <= s <= 775 # 1000)
  /\ (exists s, detectionScores (headless_settled w d) !! "headlessBrowser" = Some s
                /\ 0 <= s <= 775 # 1000)
  /\ (exists s, detectionScores (_detectFakeUserAgent w d) !! "fakeUserAgent" = Some s
                /\ 0 <= s <= 5 # 6)
  /\ (exists s, detectionScores (_detectUnusualScreenResolution w d) !! "unusualResolution"
                = Some s
                /\ 0 <= s <= 85 # 100).
Proof.
  assert (Hsync : detectionScores (_detectHeadlessBrowser w d) !! "headlessBrowser"
                  = Some (capped_score (headless_tests w))).
  { unfold _detectHeadlessBrowser, set_botData, set_detectionScores.
    cbn [detectionScores]. apply lookup_insert_eq. }
  split; [|split; [|split]].
  - eexists. split; [exact Hsync|]. apply in_range_dec.
    unfold headless_tests.
    destruct (permissions w), (test_any_ci headless_indicators (userAgent w)),
      (webdriver w), (String_includes "Chrome" (userAgent w)), (chrome w),
      (plugins_length w =? 0)%nat; vm_compute; reflexivity.
  - unfold headless_settled, permissions_then.
    destruct (permissions w) as [p|] eqn:Ep;
      [destruct (permissions_inconsistent p) eqn:Ei|]; eexists;
      (split;
       [first [exact Hsync
              | unfold _calculateOverallScore, set_detectionScores;
                cbn [fst detectionScores];
                rewrite lookup_insert_ne by discriminate;
                apply lookup_insert_eq]|]);
      apply in_range_dec; unfold headless_tests; rewrite Ep;
      destruct (test_any_ci headless_indicators (userAgent w)),
        (webdriver w), (String_includes "Chrome" (userAgent w)), (chrome w),
        (plugins_length w =? 0)%nat; vm_compute; reflexivity.
  - eexists. split.
    { unfold _detectFakeUserAgent, set_botData, set_detectionScores.
      cbn [detectionScores]. apply lookup_insert_eq. }
    apply in_range_dec. unfold fakeUA_tests.
    destruct (String_includes "Firefox" (userAgent w)), (InstallTrigger w),
      (String_includes "Safari" (userAgent w)), (safari w),
      (String_includes "Chrome" (userAgent w)), (chrome w),
      (String_includes "Windows" (userAgent w)),
      (String_includes "Mac OS X" (userAgent w)),
      (String_includes "Android" (userAgent w)),
      (includes_with_digit "Chrome/" (userAgent w)),
      (includes_with_digit "Firefox/" (userAgent w)); vm_compute; reflexivity.
  - eexists. split.
    { unfold _detectUnusualScreenResolution, set_botData, set_detectionScores.
      cbn [detectionScores]. apply lookup_insert_eq. }
    apply in_range_dec. unfold resolution_tests.
    repeat match goal with
           | |- context [run_test ?c _ _] =>
               lazymatch c with
               | true => fail
               | false => fail
               | _ => destruct c
               end
           end; vm_compute; reflexivity.
Qed.

(** *** The fingerprint test *)

Section Anomalies.
Context {N : Type} {arith : JSArith N}.

Lemma flag_weighed (n : nat) (reason : string) (weight : N) (s : FingerprintScan) :
  weighed n s -> anomaly_weight reason = weight ->
  weighed (S n) (flag_anomaly reason weight s).
Proof.
  intros [H1 H2] Hw. unfold weighed, flag_anomaly, total_weight in *.
  cbn [fingerprintScore anomalies]. rewrite foldl_app, length_app. cbn [foldl length].
  rewrite Hw, H1. split; [reflexivity|lia].
Qed.

Lemma weighed_more (n n' : nat) (s : FingerprintScan) :
  weighed n s -> (n <= n')%nat -> weighed n' s.
Proof. intros [H1 H2] Hn. split; [exact H1|lia]. Qed.

Lemma scan_weighed (canvas : Canvas) (p : Page (N := N)) :
  weighed 3 (fingerprint_scan canvas p).
Proof.
  unfold fingerprint_scan. cbv zeta.
  match goal with
  | |- context [flag_anomaly "WebGL is disabled or not available" _ ?s] =>
      set (s1 := s)
  end.
  assert (H1 : weighed 1 s1).
  { assert (H0 : weighed 0 {| fingerprintScore := js 0; anomalies := [];
                              scan_findings := findings p;
                              scan_document := document p |})
      by (split; [reflexivity|cbn; lia]).
    subst s1. destruct (context2d canvas); cbn [negb];
      [|apply flag_weighed; [exact H0|reflexivity]].
    destruct (toDataURL canvas) as [fingerprint|];
      [|apply flag_weighed; [exact H0|reflexivity]].
    destruct (String.eqb fingerprint ""); [apply (weighed_more 0); [exact H0|lia]|].
    destruct (_ <? _)%nat.
    - exact (flag_weighed 0 _ _ _ H0 eq_refl).
    - apply (weighed_more 0); [exact H0|lia]. }
  clearbody s1.
  match goal with
  | |- weighed 3 (if _ then flag_anomaly _ _ ?s else _) => set (s2 := s)
  end.
  assert (H2 : weighed 2 s2).
  { subst s2. destruct (webgl canvas) as [[vendor renderer]|];
      [|apply flag_weighed; [exact H1|reflexivity]].
    destruct (existsb _ _).
    - exact (flag_weighed 1 _ _ _ H1 eq_refl).
    - apply (weighed_more 1); [exact H1|lia]. }
  clearbody s2.
  destruct (canvas_modified canvas).
  - apply flag_weighed; [exact H2|reflexivity].
  - apply (weighed_more 2); [exact H2|lia].
Qed.

(** X8: the fingerprint score is the weight of the anomalies found, cut
    at 1; at most three anomalies are found at once; and the other
    scores are left as they were. *)
Theorem fingerprint_score_is_explained (canvas : Canvas) (p : Page (N := N)) :
  let found := anomalies (fingerprint_scan canvas p) in
  let p' := _detectFingerprintAnomalies canvas p in
  detectionScores (detector p') !! "fingerprinting"
  = Some (Math_min (total_weight found) (js 1))
  /\ (length found <= 3)%nat
  /\ (forall key, key <> "fingerprinting" ->
        detectionScores (detector p') !! key = detectionScores (detector p) !! key).
Proof.
  cbv zeta. destruct (scan_weighed canvas p) as [H1 H2]. split; [|split].
  - unfold _detectFingerprintAnomalies, set_score, set_detectionScores.
    cbn [detector detectionScores]. rewrite lookup_insert_eq, H1. reflexivity.
  - exact H2.
  - intros key Hk. unfold _detectFingerprintAnomalies, set_score, set_detectionScores.
    cbn [detector detectionScores]. apply lookup_insert_ne. congruence.
Qed.

End Anomalies.

Lemma anomaly_weight_range (anomaly : string) :
  anomaly_weight (N := Q) anomaly == 0
  \/ 4 # 10 <= anomaly_weight (N := Q) anomaly <= 8 # 10.
Proof.
  unfold anomaly_weight.
  repeat match goal with
         | |- context [if ?c then _ else _] => destruct c
         end; first [left; reflexivity | right; split; discriminate].
Qed.

Lemma total_weight_grows (found : list string) (start : Q) :
  start <= foldl (fun total anomaly => num_add total (anomaly_weight anomaly)) start found.
Proof.
  revert start. induction found as [|a found IH]; intros start; cbn [foldl].
  - apply Qle_refl.
  - eapply Qle_trans; [|apply IH]. cbn [num_add Q_arith].
    destruct (anomaly_weight_range a) as [H|H]; lra.
Qed.

(** X9: in exact arithmetic the fingerprint score is between 0 and 1. *)
Theorem fingerprint_score_in_unit_interval (canvas : Canvas) (p : Page (N := Q)) :
  exists s,
    detectionScores (detector (_detectFingerprintAnomalies canvas p)) !! "fingerprinting"
    = Some s
    /\ 0 <= s <= 1.
Proof.
  eexists. split.
  { unfold _detectFingerprintAnomalies, set_score, set_detectionScores.
    cbn [detector detectionScores]. apply lookup_insert_eq. }
  destruct (scan_weighed canvas p) as [-> _]. cbn [Math_min Q_arith].
  pose proof (total_weight_grows (anomalies (fingerprint_scan canvas p)) 0) as H.
  change (js 1) with 1. split; [apply Q.min_glb; [exact H|discriminate]|apply Q.le_min_r].
Qed.

End Display.

(** ** The RDP test on the page *)

Module Probes.
Import Utils BotDetector BotDetectorPage.

Lemma addInfo_lookup (sectionId name : string) (value : Value) (doc : Document) :
  addInfo sectionId name value doc !! sectionId
  = Some (default [] (doc !! sectionId)
          ++ [{| property_name := Some name;
                 property_value := Some (textContent_of value) |}]).
Proof.
  unfold addInfo. cbv zeta. rewrite lookup_insert_eq. unfold createInfoSection.
  destruct (doc !! sectionId) eqn:E; [rewrite E|rewrite lookup_insert_eq]; reflexivity.
Qed.

Section RDP.
Context {N : Type} {arith : JSArith N} {math : JSMath N}.
Variable parseFloat : string -> N.

Lemma foldl_rdp_item_tail (items : list Item) (s : RdpScan (N := N)) (flagged : bool)
    (confidence status : string) :
  String_includes "%" confidence = false ->
  foldl (rdp_item parseFloat) s
    (items ++ [ {| property_name := Some "RDP Connection Detected";
                   property_value := Some (if flagged then "Yes" else "No") |};
                {| property_name := Some "RDP Detection Confidence";
                   property_value := Some confidence |};
                {| property_name := Some "RDP Status";
                   property_value := Some status |} ])
  = {| scan_isRDP := flagged;
       scan_rdpConfidence := Some confidence;
       scan_rdpScore := if flagged then num_dec 9 10 else js 0 |}.
Proof.
  intros Hc. rewrite foldl_app. generalize (foldl (rdp_item parseFloat) s items) as s'.
  intros s'. cbn [foldl]. unfold rdp_item at 3.
  cbn [property_name property_value].
  rewrite bool_decide_true by reflexivity.
  unfold rdp_item at 2. cbn [property_name property_value scan_isRDP scan_rdpScore].
  rewrite bool_decide_false by discriminate.
  rewrite bool_decide_true by reflexivity. rewrite Hc.
  unfold rdp_item. cbn [property_name property_value].
  rewrite !bool_decide_false by discriminate.
  destruct flagged; reflexivity.
Qed.

(** X10: after the graphics detector's colour-depth test, the bot
    detector's RDP test takes its verdict from the page: the score is 0.9
    when the graphics detector reported RDP and 0 otherwise, whatever the
    section held before and whatever the screen is; the confidence the
    graphics detector writes is never a percentage, so it is never
    parsed. *)
Theorem rdp_verdict_is_the_graphics_detectors
    (screen screen' : GraphicsDetector.Screen) (media : GraphicsDetector.Media)
    (userAgent : string) (p : Page (N := N)) :
  let shown := GraphicsDetector._detectColorDepth screen media (document p) in
  let p' := _detectRDP parseFloat screen' userAgent
              {| detector := detector p; findings := findings p;
                 document := shown.1 |} in
  detectionScores (detector p') !! "rdpDetection"
  = Some (if GraphicsDetector.rdpDetected shown.2 then num_dec 9 10 else js 0)
  /\ isRDP (findings p') = Some (GraphicsDetector.rdpDetected shown.2).
Proof.
  cbv zeta. unfold GraphicsDetector._detectColorDepth.
  destruct (foldl _ _ _) as [[bitsPerColor css] doc5].
  set (depth := GraphicsDetector.jsColorDepth screen).
  match goal with
  | |- context [let '(isRDP, confidence) := ?v in _] => destruct v as [flagged confidence] eqn:Ev
  end.
  assert (Hc : String_includes "%" (if flagged then confidence else "N/A") = false).
  { destruct (_ || _) in Ev; [destruct (_ && _) in Ev|];
      [| |destruct (GraphicsDetector.Depth_is depth 16) in Ev;
           [destruct (_ && _) in Ev|
            destruct (GraphicsDetector.Depth_is depth 8) in Ev]];
      injection Ev as <- <-; reflexivity. }
  cbn [fst snd GraphicsDetector.rdpDetected].
  unfold _detectRDP. cbn [document detector findings].
  rewrite addInfo_lookup, addInfo_lookup, addInfo_lookup.
  cbn [textContent_of default from_option id]. rewrite <- !app_assoc. cbn [app].
  rewrite (foldl_rdp_item_tail _ _ flagged _ _ Hc).
  cbn [scan_isRDP scan_rdpScore scan_rdpConfidence].
  unfold set_score. cbn [detector findings isRDP].
  unfold set_detectionScores. cbn [detectionScores].
  rewrite lookup_insert_eq. split; reflexivity.
Qed.

End RDP.
End Probes.

(** ** The string hash *)

Module Hashing.

Lemma ToInt32_range (z : Z) : (- 2 ^ 31 <= ToInt32 z < 2 ^ 31)%Z.
Proof. unfold ToInt32. pose proof (Z.mod_pos_bound (z + 2 ^ 31) (2 ^ 32)). lia. Qed.

Lemma ToInt32_small (z : Z) : (- 2 ^ 31 <= z < 2 ^ 31)%Z -> ToInt32 z = z.
Proof. intros H. unfold ToInt32. rewrite Z.mod_small by lia. lia. Qed.

Lemma ToInt32_congruent (a b : Z) :
  (a mod 2 ^ 32 = b mod 2 ^ 32)%Z -> ToInt32 a = ToInt32 b.
Proof.
  intros H. unfold ToInt32. f_equal.
  rewrite <- (Zplus_mod_idemp_l a), <- (Zplus_mod_idemp_l b), H. reflexivity.
Qed.

Lemma ToInt32_mod (z : Z) : (ToInt32 z mod 2 ^ 32 = z mod 2 ^ 32)%Z.
Proof.
  unfold ToInt32. rewrite Zminus_mod_idemp_l.
  f_equal. lia.
Qed.

Lemma and32_same (h : Z) : and32 h h = ToInt32 h.
Proof.
  unfold and32. rewrite Z.land_diag. apply ToInt32_small, ToInt32_range.
Qed.

Lemma ToInt32_offset (z : Z) : exists k : Z, ToInt32 z = (z + k * 2 ^ 32)%Z.
Proof.
  exists (- ((z + 2 ^ 31) / 2 ^ 32))%Z. unfold ToInt32.
  pose proof (Z.div_mod (z + 2 ^ 31) (2 ^ 32)). lia.
Qed.

Lemma hash_step_polynomial (a c : Z) :
  hash_step (ToInt32 a) c = ToInt32 (31 * a + c).
Proof.
  unfold hash_step. rewrite and32_same. apply ToInt32_congruent.
  unfold shl32. rewrite (ToInt32_small (ToInt32 a)) by apply ToInt32_range.
  destruct (ToInt32_offset a) as [k1 ->].
  destruct (ToInt32_offset ((a + k1 * 2 ^ 32) * 2 ^ 5)) as [k2 ->].
  replace ((a + k1 * 2 ^ 32) * 2 ^ 5 + k2 * 2 ^ 32 - (a + k1 * 2 ^ 32) + c)%Z
    with (31 * a + c + (31 * k1 + k2) * 2 ^ 32)%Z by lia.
  apply Z_mod_plus_full.
Qed.

Lemma foldl_hash_step (codes : list Z) (a : Z) :
  foldl hash_step (ToInt32 a) codes
  = ToInt32 (foldl (fun h c => (31 * h + c)%Z) a codes).
Proof.
  revert a. induction codes as [|c codes IH]; intros a; simpl; [reflexivity|].
  rewrite hash_step_polynomial. apply IH.
Qed.

(** X11: the hash loop computes the polynomial hash with multiplier 31,
    reduced to a signed 32-bit integer. *)
Theorem hash_is_polynomial_mod_2_32 (codes : list Z) :
  hash_loop codes = ToInt32 (polynomial_hash codes)
  /\ (- 2 ^ 31 <= hash_loop codes < 2 ^ 31)%Z.
Proof.
  assert (H : hash_loop codes = ToInt32 (polynomial_hash codes)).
  { unfold hash_loop, polynomial_hash.
    change 0%Z with (ToInt32 0) at 1. apply foldl_hash_step. }
  split; [exact H|]. rewrite H. apply ToInt32_range.
Qed.

End Hashing.

(** ** Fingerprints and the API risk score *)

Module Fingerprint.
Import Utils BotDetector BotDetectorPage.

Lemma length_append (a b : string) :
  String.length (a +:+ b) = (String.length a + String.length b)%nat.
Proof.
  induction a as [|c a IH]; [reflexivity|].
  change (String c a +:+ b) with (String c (a +:+ b)).
  cbn [String.length]. rewrite IH. reflexivity.
Qed.

Lemma length_String_repeat (c : Ascii.ascii) (n : nat) :
  String.length (String_repeat c n) = n.
Proof. induction n as [|n IH]; cbn; [reflexivity|rewrite IH; reflexivity]. Qed.

Lemma hex_digits_length (fuel : nat) :
  forall (k : nat) (n : Z) (acc : string),
    (1 <= k)%nat -> (0 <= n < 16 ^ Z.of_nat k)%Z ->
    (String.length (hex_digits fuel n acc) <= k + String.length acc)%nat.
Proof.
  induction fuel as [|fuel IH]; intros k n acc Hk Hn; cbn [hex_digits].
  - cbn [String.length]. lia.
  - destruct (n / 16 =? 0)%Z eqn:E.
    + cbn [String.length]. lia.
    + apply Z.eqb_neq in E.
      assert (Hq : (0 <= n / 16)%Z) by (apply Z.div_pos; lia).
      destruct k as [|[|k]]; [lia| |].
      * exfalso. apply E. apply Z.div_small. change (16 ^ Z.of_nat 1)%Z with 16%Z in Hn. lia.
      * specialize (IH (S k) (n / 16)%Z
                      (String (hex_digit (n mod 16)) acc)).
        cbn [String.length] in IH.
        assert (Hd : (n / 16 < 16 ^ Z.of_nat (S k))%Z).
        { apply Z.div_lt_upper_bound; [lia|].
          replace (Z.of_nat (S (S k))) with (Z.succ (Z.of_nat (S k))) in Hn by lia.
          rewrite Z.pow_succ_r in Hn by lia. lia. }
        specialize (IH ltac:(lia) ltac:(lia)). lia.
Qed.

(** X12: a fingerprint is 'error' when [JSON.stringify] throws and eight
    characters long otherwise, whatever the data. *)
Theorem fingerprint_has_eight_characters (jsonString : option (list Z)) :
  match jsonString with
  | Some _ => String.length (generateFingerprint jsonString) = 8%nat
  | None => generateFingerprint jsonString = "error"
  end.
Proof.
  destruct jsonString as [codes|]; [|reflexivity].
  unfold generateFingerprint, padStart. rewrite length_append, length_String_repeat.
  assert (H : (0 <= Z.abs (hash_loop codes) <= 2 ^ 31)%Z).
  { assert (Hr : (- 2 ^ 31 <= hash_loop codes < 2 ^ 31)%Z).
    { unfold hash_loop. destruct codes as [|c codes _] using rev_ind.
      - cbn. lia.
      - rewrite foldl_app. cbn [foldl]. unfold hash_step, and32.
        apply Hashing.ToInt32_range. }
    lia. }
  unfold Number_toString16.
  destruct (Z.abs (hash_loop codes) <? 0)%Z eqn:E; [apply Z.ltb_lt in E; lia|].
  pose proof (hex_digits_length (Z.to_nat (Z.log2 (Z.abs (hash_loop codes)))) 8
                (Z.abs (hash_loop codes)) "" ltac:(lia)) as Hl.
  cbn [String.length] in Hl.
  assert (Hp : (2 ^ 31 < 16 ^ Z.of_nat 8)%Z) by reflexivity.
  specialize (Hl ltac:(lia)). lia.
Qed.

Section Api.
Local Open Scope Q_scope.

(** X13: in exact arithmetic the API risk score is 0 exactly when nothing
    was found, and never above 65. *)
Theorem api_risk_score_bounded (apiData : option ApiData) (doc : Document) :
  let report := _detectAPIAnomalies (N := Q) apiData doc in
  0 <= riskScore report <= 65
  /\ (riskScore report == 0 <-> result report = "No API anomalies detected").
Proof.
  cbv zeta. destruct apiData as [data|];
    [|split; [split; discriminate|split; reflexivity]].
  unfold _detectAPIAnomalies, api_findings.
  destruct (eventTiming data) as [timing|];
    [|split; [split; discriminate|split; reflexivity]].
  destruct (patterns timing) as [suspiciousPatterns|];
    [|split; [split; discriminate|split; reflexivity]].
  set (m := mentions ["mouse"; "pointer"] suspiciousPatterns).
  set (k := mentions ["keyboard"; "key"] suspiciousPatterns).
  clearbody m k.
  destruct suspiciousPatterns as [|p1 [|p2 [|p3 rest]]];
    cbn [length Nat.leb Nat.eqb];
    try destruct (String_includes "Perfect timing" p1);
    (destruct (categorizedEvents timing) as [categories|];
     [destruct (mouse categories) as [n1|]; [destruct (20 <? n1)%nat|];
      (destruct (keyboard categories) as [n2|]; [destruct (10 <? n2)%nat|]);
      destruct m, k|]);
    cbn [andb riskScore result app];
    (split; [split; discriminate|split; intros H; first [reflexivity|discriminate H]]).
Qed.

End Api.
End Fingerprint.

(** ** The mouse interaction detector over a session *)

Module Interaction.
Import MouseInteractionDetector MouseInteractionEvents.

Section Generic.
Context {N : Type} {arith : JSArith N} {math : JSMath N}.
Implicit Types (m : MouseData (N := N)) (e : MouseMove N).

(** *** Counting *)

Lemma track_viewport m e :
  viewport_accounted m ->
  viewport_accounted (track e m) /\ clicks (track e m) = clicks m
  /\ scrollEvents (track e m) = scrollEvents m.
Proof.
  intros H. unfold viewport_accounted in *.
  assert (K : mouseEntryCount (track_sample e m)
              = (mouseExitCount (track_sample e m) + 1)%nat
              /\ isMouseInViewport (track_sample e m) = true
              /\ clicks (track_sample e m) = clicks m
              /\ scrollEvents (track_sample e m) = scrollEvents m).
  { unfold track_sample. destruct (last (positions m)); cbn;
      destruct (isMouseInViewport m); repeat split; lia. }
  destruct K as (K1 & K2 & K3 & K4).
  unfold track. cbv zeta. destruct (_ && _).
  - unfold _analyzeRemoteAccessPatterns. destruct (_ <? _)%nat; cbn;
      rewrite ?K2; repeat split; lia.
  - rewrite K2. repeat split; lia.
Qed.

Lemma dispatch_accounting (ev : Event) m :
  viewport_accounted m ->
  viewport_accounted (dispatch ev m)
  /\ clicks (dispatch ev m) = (clicks m + if is_click ev then 1 else 0)%nat
  /\ scrollEvents (dispatch ev m) = (scrollEvents m + if is_wheel ev then 1 else 0)%nat.
Proof.
  intros H. destruct ev as [e| | |leaves now]; cbn [dispatch is_click is_wheel].
  - assert (K : viewport_accounted (mousemove e m) /\ clicks (mousemove e m) = clicks m
                /\ scrollEvents (mousemove e m) = scrollEvents m).
    { unfold mousemove. destruct (last (positions m)); [destruct (same_position _ _)|];
        auto using track_viewport. }
    destruct K as (K1 & K2 & K3). repeat split; [exact K1|lia|lia].
  - unfold viewport_accounted in *. cbn. repeat split; lia.
  - unfold viewport_accounted in *. cbn. repeat split; lia.
  - unfold viewport_accounted, mouseout in *.
    destruct leaves; cbn [andb]; [destruct (isMouseInViewport m) eqn:E|];
      cbn; rewrite ?E; repeat split; lia.
Qed.

(** X14: over any stream of events: clicks and wheel events are counted one
    by one, and the pointer has entered the viewport once more than it
    has left it exactly while it is inside. *)
Theorem viewport_and_clicks_accounted (events : list Event) :
  let m := session events in
  clicks m = length (filter (fun ev => is_click ev = true) events)
  /\ scrollEvents m = length (filter (fun ev => is_wheel ev = true) events)
  /\ mouseEntryCount m
     = (mouseExitCount m + if isMouseInViewport m then 1 else 0)%nat.
Proof.
  cbv zeta. unfold session.
  induction events as [|ev events IH] using rev_ind; [repeat split|].
  rewrite foldl_app, !filter_app, !length_app. cbn [foldl].
  destruct IH as (IH1 & IH2 & IH3).
  destruct (dispatch_accounting ev _ IH3) as (K1 & K2 & K3).
  rewrite K2, K3, IH1, IH2. repeat split; [| |exact K1].
  - f_equal. rewrite filter_cons, filter_nil. destruct (is_click ev); reflexivity.
  - f_equal. rewrite filter_cons, filter_nil. destruct (is_wheel ev); reflexivity.
Qed.

(** *** Segments *)

Lemma track_sample_segments m e :
  segments_counted m -> segments_counted (track_sample e m).
Proof.
  intros [Hl Hs]. unfold segments_counted, track_sample.
  set (full := (maxSamples <? length (positions m ++ _))%nat).
  assert (Hfull : if full then length (positions m) = maxSamples
                  else (length (positions m) < maxSamples)%nat).
  { subst full. rewrite length_app. cbn [length].
    destruct (maxSamples <? _)%nat eqn:E;
      [apply Nat.ltb_lt in E|apply Nat.ltb_ge in E]; unfold maxSamples in *; lia. }
  clearbody full.
  destruct (last (positions m)) as [prev|] eqn:El.
  - assert (Hne : (1 <= length (positions m))%nat).
    { destruct (positions m); [discriminate El|simpl; lia]. }
    cbn [movements positions straightLineSegments curvedLineSegments fst snd].
    split.
    + destruct full; rewrite ?Tracking.length_Array_shift, length_app; cbn [length];
        unfold maxSamples in *; lia.
    + destruct (2 <? length (positions m))%nat eqn:E2;
        [apply Nat.ltb_lt in E2|apply Nat.ltb_ge in E2].
      * destruct (lookup_lt_is_Some_2 (positions m) (length (positions m) - 3))
          as [p1 ->]; [lia|].
        destruct (lookup_lt_is_Some_2 (positions m) (length (positions m) - 2))
          as [p2 ->]; [lia|].
        destruct (nearly_collinear _ _ _); cbn [fst snd]; unfold maxSamples in *; lia.
      * cbn [fst snd]. unfold maxSamples in *. lia.
  - apply last_None in El. rewrite El in *. cbn [length] in *.
    cbn [movements positions straightLineSegments curvedLineSegments fst snd].
    split.
    + destruct full; [unfold maxSamples in *; lia|]. cbn. unfold maxSamples in *. lia.
    + unfold maxSamples in *. lia.
Qed.

Lemma mousemove_segments m e : segments_counted m -> segments_counted (mousemove e m).
Proof.
  intros H. assert (K : segments_counted (track e m)).
  { pose proof (track_sample_segments m e H) as [K1 K2]. unfold track. cbv zeta.
    destruct (_ && _); [|split; assumption].
    pose proof (Tracking.analyze_keeps_lists (track_sample e m)) as A. cbv zeta in A.
    destruct A as (A1 & _ & _ & _ & _ & _ & _ & A8 & A9 & A10).
    unfold segments_counted. rewrite A1, A8, A9, A10. split; assumption. }
  unfold mousemove. destruct (last (positions m)); [destruct (same_position _ _)|];
    assumption.
Qed.

Lemma replay_counts_accepted (events : list (MouseMove N)) m (previous : option (Position N)) :
  last (positions m) = previous ->
  segments_counted m ->
  movements (foldl (fun m e => mousemove e m) m events)
  = (movements m + length (accepted previous events))%nat.
Proof.
  revert m previous. induction events as [|e events IH]; intros m previous Hp Hs;
    cbn [foldl accepted length]; [lia|].
  assert (Ht : movements (track e m) = S (movements m)
               /\ last (positions (track e m)) = Some (position_of e)).
  { destruct (Tracking.track_lists m e) as (P & _). rewrite P. split.
    - unfold track. cbv zeta.
      assert (K : movements (track_sample e m) = S (movements m)).
      { unfold track_sample. destruct (last (positions m)); reflexivity. }
      destruct (_ && _); [|exact K].
      pose proof (Tracking.analyze_keeps_lists (track_sample e m)) as A. cbv zeta in A.
      destruct A as (_ & _ & _ & _ & _ & _ & _ & _ & _ & A10). rewrite A10. exact K.
    - apply Tracking.last_after_push. unfold overflows. rewrite length_app.
      cbn [length]. intros H. apply Nat.ltb_lt in H. unfold maxSamples in H. lia. }
  destruct Ht as [Ht1 Ht2].
  unfold mousemove at 2. rewrite Hp. fold (position_of e).
  destruct previous as [lastPos|].
  - destruct (same_position lastPos (position_of e)).
    + apply IH; assumption.
    + rewrite (IH (track e m) (Some (position_of e)) Ht2).
      * rewrite Ht1. cbn [length]. lia.
      * generalize (mousemove_segments m e Hs). unfold mousemove.
        rewrite Hp. fold (position_of e).
        destruct (same_position lastPos (position_of e)) eqn:E; [|auto].
        intros _. clear IH.
        generalize (track_sample_segments m e Hs). intros K.
        unfold track. cbv zeta. destruct (_ && _); [|exact K].
        pose proof (Tracking.analyze_keeps_lists (track_sample e m)) as A.
        cbv zeta in A.
        destruct A as (A1 & _ & _ & _ & _ & _ & _ & A8 & A9 & A10).
        unfold segments_counted. rewrite A1, A8, A9, A10. exact K.
  - rewrite (IH (track e m) (Some (position_of e)) Ht2).
    + rewrite Ht1. cbn [length]. lia.
    + generalize (mousemove_segments m e Hs). unfold mousemove. rewrite Hp. auto.
Qed.

(** X15: the movement counter counts the events the listener keeps, and
    every kept event from the fourth on is classified once: straight and
    curved segments together are the movements less three. *)
Theorem every_movement_is_classified (events : list (MouseMove N)) :
  let m := replay events in
  movements m = length (accepted None events)
  /\ (straightLineSegments m + curvedLineSegments m = movements m - 3)%nat.
Proof.
  cbv zeta. assert (H0 : segments_counted (new_mouseData : MouseData (N := N))).
  { split; reflexivity. }
  split.
  - unfold replay. rewrite (replay_counts_accepted events new_mouseData None eq_refl H0).
    reflexivity.
  - unfold replay. clear H0.
    assert (H : segments_counted (foldl (fun m e => mousemove e m) new_mouseData events)).
    { induction events as [|e events IH] using rev_ind; [split; reflexivity|].
      rewrite foldl_app. cbn [foldl]. apply mousemove_segments, IH. }
    exact (proj2 H).
Qed.

(** *** The analysis *)

Lemma findings_read_metrics_only (f : N * list (string * list N)) m :
  remote_access_findings (set_findings f m) = remote_access_findings m.
Proof. reflexivity. Qed.

(** X16: the analysis of the mouse interaction detector is idempotent: it
    reads the metrics and writes only the score and the reasons, so a
    second run on the same data changes nothing. *)
Theorem remote_access_analysis_idempotent m :
  _analyzeRemoteAccessPatterns (_analyzeRemoteAccessPatterns m)
  = _analyzeRemoteAccessPatterns m.
Proof.
  unfold _analyzeRemoteAccessPatterns.
  destruct (movements m <? 20)%nat eqn:E; [rewrite E; reflexivity|].
  cbn [movements set_findings]. rewrite E, findings_read_metrics_only. reflexivity.
Qed.

Lemma explained_step (n : nat) (score score' : N)
    (reasons reasons' : list (string * list N))
    (reason : string) (numbers : list N) (points : N) :
  explained n (score, reasons) ->
  reasons' = reasons ++ [(reason, numbers)] ->
  score' = num_add score points ->
  reason_points reason = points ->
  explained (S n) (score', reasons').
Proof.
  intros [H1 H2] -> -> Hp. split; cbn [fst snd] in *.
  - rewrite foldl_app. cbn [foldl fst]. rewrite Hp, <- H1. reflexivity.
  - rewrite length_app. cbn [length]. lia.
Qed.

Lemma explained_more (n n' : nat) (f : N * list (string * list N)) :
  explained n f -> (n <= n')%nat -> explained n' f.
Proof. intros [H1 H2] Hn. split; [exact H1|lia]. Qed.

(** Name the outcome of the next block of the analysis. *)
Ltac next_block E :=
  match goal with
  | |- context [match ?b with (_, _) => _ end] =>
      lazymatch b with
      | context [remote_access_findings] => fail
      | _ => destruct b as [? ?] eqn:E
      end
  end.

Ltac settle_block E :=
  repeat match type of E with
         | context [if ?c then _ else _] => destruct c
         end;
  injection E as <- <-;
  first [ eapply explained_more; [eassumption|lia]
        | eapply explained_step; [eassumption|reflexivity..] ].

Lemma findings_explained m :
  explained 6 ((foldl (fun score reason => num_add score (reason_points reason.1)) (js 0)
                  (remote_access_findings m).2),
               (remote_access_findings m).2)
  /\ (remote_access_findings m).1
     = Math_min (js 100)
         (foldl (fun score reason => num_add score (reason_points reason.1)) (js 0)
            (remote_access_findings m).2).
Proof.
  unfold remote_access_findings. cbv zeta.
  assert (H0 : explained 0 (js 0, [])) by (split; [reflexivity|cbn; lia]).
  next_block E1. assert (H1 : explained 1 (n, l)) by settle_block E1. clear E1 H0.
  next_block E2. assert (H2 : explained 2 (n0, l0)) by settle_block E2. clear E2 H1.
  next_block E3.
  assert (H3 : explained 4 (n1, l1)).
  { destruct (10 <? length (timeBetweenMovements m))%nat.
    - match type of E3 with
      | context [match ?b with (_, _) => _ end] => destruct b as [s3 r3] eqn:E3'
      end.
      assert (H3' : explained 3 (s3, r3)) by settle_block E3'.
      settle_block E3.
    - settle_block E3. }
  clear E3 H2.
  next_block E4. assert (H4 : explained 5 (n2, l2)) by settle_block E4. clear E4 H3.
  next_block E5. assert (H5 : explained 6 (n3, l3)) by settle_block E5. clear E5 H4.
  destruct H5 as [H5 H6]. cbn [fst snd] in *. rewrite <- H5.
  split; [split; [exact H5|exact H6]|reflexivity].
Qed.

(** X17: the score is the points of the reasons given, capped at 100: no
    point is scored without a reason, and no reason is listed without
    its points. *)
Theorem remote_score_is_explained m :
  let f := remote_access_findings m in
  f.1 = Math_min (js 100)
          (foldl (fun score reason => num_add score (reason_points reason.1)) (js 0) f.2)
  /\ (length f.2 <= 6)%nat.
Proof.
  cbv zeta. destruct (findings_explained m) as [[_ H] H1]. split; [exact H1|exact H].
Qed.

(** The score the listeners leave is the one before or the one of an
    analysis. *)
Lemma dispatch_score (ev : Event) m :
  remoteAccessScore (dispatch ev m) = remoteAccessScore m
  \/ exists m', remoteAccessScore (dispatch ev m) = (remote_access_findings m').1.
Proof.
  destruct ev as [e| | |leaves now]; cbn [dispatch]; try (left; reflexivity).
  - assert (K : remoteAccessScore (track e m) = remoteAccessScore m
                \/ exists m', remoteAccessScore (track e m) = (remote_access_findings m').1).
    { unfold track. cbv zeta.
      assert (Ks : remoteAccessScore (track_sample e m) = remoteAccessScore m).
      { unfold track_sample. destruct (last (positions m)); reflexivity. }
      destruct (_ && _); [|left; exact Ks].
      unfold _analyzeRemoteAccessPatterns. destruct (_ <? _)%nat; [left; exact Ks|].
      right. eexists. reflexivity. }
    unfold mousemove. destruct (last (positions m)); [destruct (same_position _ _)|];
      auto.
  - unfold mouseout. destruct (_ && _); left; reflexivity.
Qed.

End Generic.

(** *** In exact arithmetic *)

Section Exact.
Context {math : JSMath Q}.
Local Open Scope Q_scope.
Implicit Types (m : MouseData (N := Q)).

Lemma reason_points_nonneg (reason : string) : 0 <= reason_points reason.
Proof.
  unfold reason_points.
  repeat match goal with
         | |- context [if ?c then _ else _] => destruct c
         end; discriminate.
Qed.

Lemma points_total_nonneg (reasons : list (string * list Q)) (start : Q) :
  0 <= start ->
  0 <= foldl (fun score reason => num_add score (reason_points reason.1)) start reasons.
Proof.
  revert start. induction reasons as [|r reasons IH]; intros start H; cbn [foldl].
  - exact H.
  - apply IH. pose proof (reason_points_nonneg r.1). simpl. lra.
Qed.

Lemma findings_in_range m : 0 <= (remote_access_findings m).1 <= 100.
Proof.
  destruct (findings_explained m) as [_ ->].
  pose proof (points_total_nonneg (remote_access_findings m).2 0 (Qle_refl 0)) as H.
  change (js 0) with 0 in H. cbn [Math_min Q_arith]. change (js 100) with 100.
  split; [apply Q.min_glb; [discriminate|exact H]|apply Q.le_min_l].
Qed.

(** X18: in every session the remote-access score is between 0 and 100. *)
Theorem remote_access_score_in_range (events : list Event) :
  0 <= remoteAccessScore (session events) <= 100.
Proof.
  unfold session. induction events as [|ev events IH] using rev_ind.
  - cbn. split; discriminate.
  - rewrite foldl_app. cbn [foldl].
    destruct (dispatch_score ev (foldl (fun m ev => dispatch ev m) new_mouseData events))
      as [->|[m' ->]]; [exact IH|apply findings_in_range].
Qed.

(** X19: the verdicts drawn from one score agree in order: a likely remote
    session is a possible one and is shown in red, and a green bar means
    not even possibly remote.  The straight-line ratio reported is
    between 0 and 1 and no statistic divides by zero. *)
Theorem remote_verdicts_are_ordered m :
  let results := getRemoteAccessResults m in
  let shown := _updateRemoteDetectionIndicator m in
  (isLikelyRemote results = true -> possiblyRemote results = true)
  /\ (isLikelyRemote results = true -> bar_color shown = "#F44336")
  /\ (bar_color shown = "#4CAF50" -> possiblyRemote results = false)
  /\ 0 <= stats_straightLineRatio (stats results) <= 1
  /\ (timeBetweenMovements m = [] -> avgLatency (stats results) == 0)
  /\ (velocityConsistencyScores m = [] -> velocityConsistency (stats results) == 0).
Proof.
  cbv zeta. unfold getRemoteAccessResults, _updateRemoteDetectionIndicator.
  cbn [isLikelyRemote possiblyRemote bar_color stats stats_straightLineRatio avgLatency
       velocityConsistency].
  cbn [num_ltb num_div num_Z Q_arith].
  change (inject_Z 60) with 60. change (inject_Z 30) with 30.
  generalize (remoteAccessScore m) as s. intros s.
  repeat split.
  - intros H. apply Scoring.Q_ltb_true in H. apply Scoring.Q_ltb_true. lra.
  - intros H. apply Scoring.Q_ltb_true in H.
    destruct (Q_ltb s 30) eqn:E30; [apply Scoring.Q_ltb_true in E30; lra|].
    destruct (Q_ltb s 60) eqn:E60; [apply Scoring.Q_ltb_true in E60; lra|].
    reflexivity.
  - destruct (Q_ltb s 30) eqn:E30.
    + intros _. apply Scoring.Q_ltb_true in E30. apply Scoring.Q_ltb_false. lra.
    + destruct (Q_ltb s 60); discriminate.
  - apply Qle_shift_div_l.
    + change 0 with (inject_Z 0). rewrite <- Zlt_Qlt.
      destruct (_ =? _)%nat eqn:E; [|apply Nat.eqb_neq in E]; lia.
    + rewrite Qmult_0_l. change 0 with (inject_Z 0). rewrite <- Zle_Qle. lia.
  - apply Qle_shift_div_r.
    + change 0 with (inject_Z 0). rewrite <- Zlt_Qlt.
      destruct (_ =? _)%nat eqn:E; [|apply Nat.eqb_neq in E]; lia.
    + rewrite Qmult_1_l. rewrite <- Zle_Qle.
      destruct (_ =? _)%nat eqn:E; [apply Nat.eqb_eq in E|]; lia.
  - intros ->. reflexivity.
  - intros ->. reflexivity.
Qed.

End Exact.
End Interaction.

(** ** The remote desktop detector's windows *)

Module RemoteDesktop.
Import RemoteDesktopDetector RemoteDesktopVerdict.

Section Window.
Context {N : Type} {arith : JSArith N} {math : JSMath N}.
Implicit Types (d : Detector (N := N)) (e : MouseMove N).

Lemma analyze_mousePoints d : mousePoints (_analyzeMouseMovement d) = mousePoints d.
Proof. reflexivity. Qed.

Lemma handleMouseMove_points d e :
  mousePoints (_handleMouseMove e d)
  = (if (20 <? length (mousePoints d ++ [point_of e]))%nat
     then Array_shift (mousePoints d ++ [point_of e])
     else mousePoints d ++ [point_of e]).
Proof.
  unfold _handleMouseMove. cbv zeta. fold (point_of e).
  destruct (_ && _); reflexivity.
Qed.

(** X20: the remote desktop detector keeps the last 20 points of the
    pointer, oldest first, whatever the analyses in between did. *)
Theorem mouse_points_are_the_last_twenty (events : list (MouseMove N)) :
  mousePoints (RemoteDesktopVerdict.replay events)
  = slice_last 20 (map point_of events)
  /\ (length (mousePoints (RemoteDesktopVerdict.replay events)) <= 20)%nat.
Proof.
  assert (H : mousePoints (RemoteDesktopVerdict.replay events)
              = slice_last 20 (map point_of events)).
  { unfold RemoteDesktopVerdict.replay.
    induction events as [|e events IH] using rev_ind; [reflexivity|].
    rewrite foldl_app, map_app. cbn [foldl map].
    rewrite handleMouseMove_points, IH.
    symmetry. apply Tracking.slice_last_push. lia. }
  split; [exact H|]. rewrite H. unfold slice_last. rewrite length_drop. lia.
Qed.

(** *** The running counts *)

Lemma scan_step_counts (s : Scan (N := N)) (p1 p2 p3 : MousePoint) :
  (scan_straight (scan_step s p1 p2 p3) + scan_natural (scan_step s p1 p2 p3)
   = S (scan_straight s + scan_natural s))%nat
  /\ (scan_straight s <= scan_straight (scan_step s p1 p2 p3))%nat
  /\ (scan_natural s <= scan_natural (scan_step s p1 p2 p3))%nat.
Proof.
  unfold scan_step. cbv zeta. cbn [scan_straight scan_natural].
  destruct (_ <? _)%js; lia.
Qed.

Lemma scan_triples_counts (points : list MousePoint) (s : Scan (N := N)) :
  (scan_straight (scan_triples points s) + scan_natural (scan_triples points s)
   = scan_straight s + scan_natural s + (length points - 2))%nat
  /\ (scan_straight s <= scan_straight (scan_triples points s))%nat
  /\ (scan_natural s <= scan_natural (scan_triples points s))%nat.
Proof.
  revert s. induction points as [|p1 points IH]; intros s; [simpl; lia|].
  destruct points as [|p2 [|p3 points]]; [simpl; lia..|].
  change (scan_triples (p1 :: p2 :: p3 :: points) s)
    with (scan_triples (p2 :: p3 :: points) (scan_step s p1 p2 p3)).
  destruct (IH (scan_step s p1 p2 p3)) as (H1 & H2 & H3).
  destruct (scan_step_counts s p1 p2 p3) as (K1 & K2 & K3).
  cbn [length] in *. lia.
Qed.

(** X21: every analysis counts each triple of the stored points once more:
    the two running counts never go down, and together they grow by the
    number of points less two, on a window it has seen before as on a
    new one.  The points themselves are left as they are. *)
Theorem analysis_counts_accumulate d :
  let d' := _analyzeMouseMovement d in
  (straightLineCount d' + naturalMovementCount d'
   = straightLineCount d + naturalMovementCount d + (length (mousePoints d) - 2))%nat
  /\ (straightLineCount d <= straightLineCount d')%nat
  /\ (naturalMovementCount d <= naturalMovementCount d')%nat
  /\ mousePoints d' = mousePoints d.
Proof.
  cbv zeta. unfold _analyzeMouseMovement. cbv zeta.
  cbn [straightLineCount naturalMovementCount mousePoints].
  match goal with
  | |- context [scan_triples ?ps ?s] =>
      destruct (scan_triples_counts ps s) as (H1 & H2 & H3)
  end.
  cbn [scan_straight scan_natural] in *. repeat split; assumption.
Qed.

End Window.

(** *** Input latency *)

Section Latency.
Context {N : Type} {arith : JSArith N}.
Implicit Types (l : Latency (N := N)).

Lemma press_bounded (p : Press) l :
  (length (latencySamples l) <= 10)%nat /\ inputLatency_samples l = latencySamples l ->
  (length (latencySamples (press p l)) <= 10)%nat
  /\ inputLatency_samples (press p l) = latencySamples (press p l).
Proof.
  intros [Hl Hs]. destruct p as [button now|button now]; cbn [press].
  - split; [exact Hl|exact Hs].
  - unfold _handleMouseUp. destruct (clickStartTimes l !! button); [|split; assumption].
    cbv zeta. cbn [latencySamples inputLatency_samples]. split; [|reflexivity].
    rewrite length_app. cbn [length].
    destruct (10 <? _)%nat eqn:E; [apply Nat.ltb_lt in E|apply Nat.ltb_ge in E];
      rewrite ?Tracking.length_Array_shift, ?length_app; cbn [length]; lia.
Qed.

(** X22: the latency window: at most ten samples are kept, and the samples
    published in the results are the ones kept. *)
Theorem latency_samples_bounded (ps : list Press) :
  (length (latencySamples (presses ps)) <= 10)%nat
  /\ inputLatency_samples (presses ps) = latencySamples (presses ps).
Proof.
  unfold presses. induction ps as [|p ps IH] using rev_ind.
  - simpl. split; [lia|reflexivity].
  - rewrite foldl_app. cbn [foldl]. apply press_bounded, IH.
Qed.

(** X23: a press is measured once.  Releasing a button that was pressed
    records the time between the two readings and forgets the press; a
    second release, or a release without a press, changes nothing; and of
    two presses without a release between them only the later counts. *)
Theorem press_release_round_trip (button : Z) (t1 t1' t2 t3 : N) l :
  let released := _handleMouseUp button t2 (_handleMouseDown button t1 l) in
  last (latencySamples released) = Some (num_sub t2 t1)
  /\ clickStartTimes released !! button = None
  /\ _handleMouseUp button t3 released = released
  /\ (clickStartTimes l !! button = None -> _handleMouseUp button t3 l = l)
  /\ _handleMouseDown button t1' (_handleMouseDown button t1 l)
     = _handleMouseDown button t1' l.
Proof.
  intros released.
  assert (E : exists average,
             released
             = {| clickStartTimes := delete button (<[button := t1]> (clickStartTimes l));
                  latencySamples :=
                    (if (10 <? length (latencySamples l ++ [num_sub t2 t1]))%nat
                     then Array_shift (latencySamples l ++ [num_sub t2 t1])
                     else latencySamples l ++ [num_sub t2 t1]);
                  inputLatency_average := average;
                  inputLatency_samples :=
                    (if (10 <? length (latencySamples l ++ [num_sub t2 t1]))%nat
                     then Array_shift (latencySamples l ++ [num_sub t2 t1])
                     else latencySamples l ++ [num_sub t2 t1]) |}).
  { subst released. unfold _handleMouseUp, _handleMouseDown.
    cbn [clickStartTimes latencySamples]. rewrite lookup_insert_eq.
    eexists. reflexivity. }
  destruct E as [average E]. rewrite E. clear E released.
  assert (Hd : delete button (<[button := t1]> (clickStartTimes l)) !! button = None)
    by apply lookup_delete_eq.
  cbn [clickStartTimes latencySamples]. repeat split.
  - apply Tracking.last_after_push. intros H. apply Nat.ltb_lt in H.
    rewrite length_app in H. cbn [length] in H. lia.
  - exact Hd.
  - unfold _handleMouseUp. cbn [clickStartTimes]. rewrite Hd. reflexivity.
  - intros H. unfold _handleMouseUp. rewrite H. reflexivity.
  - unfold _handleMouseDown. cbn [clickStartTimes latencySamples inputLatency_average
                                   inputLatency_samples].
    rewrite insert_insert_eq. reflexivity.
Qed.

End Latency.
End RemoteDesktop.

(** ** The remote desktop detector's verdict *)

Module Verdict.
Import RemoteDesktopDetector RemoteDesktopVerdict.
Local Open Scope Q_scope.

Lemma inject_S (n : nat) : inject_Z (Z.of_nat (S n)) == inject_Z (Z.of_nat n) + 1.
Proof. rewrite Nat2Z.inj_succ. unfold Z.succ. rewrite inject_Z_plus. reflexivity. Qed.

Lemma checked_within (k : Q) (increment : option Q) (t : Tally) :
  within k t ->
  match increment with Some v => 0 <= v <= k | None => 0 <= k end ->
  within k (checked increment t).
Proof.
  unfold within, checked. cbn [score factorsChecked]. rewrite inject_S.
  destruct increment as [v|]; simpl; intros; nra.
Qed.

Lemma within_weaken (k k' : Q) (t : Tally) : k <= k' -> within k t -> within k' t.
Proof.
  unfold within. intros Hk [H0 H1]. split; [exact H0|].
  assert (0 <= inject_Z (Z.of_nat (factorsChecked t))).
  { change 0 with (inject_Z 0). rewrite <- Zle_Qle. lia. }
  nra.
Qed.

Lemma screen_within (factors : option SuspiciousFactors) (t : Tally) :
  within (3 # 10) t -> within (3 # 10) (screen_block factors t).
Proof.
  intros H. unfold screen_block. destruct factors as [[[] [] []]|]; [..|exact H];
    (apply checked_within; [exact H|vm_compute; split; congruence]).
Qed.

Lemma hardware_within (isVirtual : option bool) (t : Tally) :
  within (3 # 10) t -> within (3 # 10) (hardware_block isVirtual t).
Proof.
  intros H. unfold hardware_block. destruct isVirtual as [[]|]; [..|exact H];
    (apply checked_within; [exact H|vm_compute; try split; congruence]).
Qed.

Lemma mouse_within (k : Q) (d : Detector) (t : Tally) :
  15 # 100 <= k -> within k t -> within k (mouse_block d t).
Proof.
  intros Hk H. unfold mouse_block. destruct (_ <? _)%nat; [|exact H].
  cbv zeta. apply checked_within; [exact H|].
  destruct (_ >? _)%js; [|destruct (_ && _); [|destruct (_ >? _)%js]];
    Scoring.q_norm; lra.
Qed.

Lemma latency_within (k : Q) (l : Latency) (t : Tally) :
  15 # 100 <= k -> within k t -> within k (latency_block l t).
Proof.
  intros Hk H. unfold latency_block. destruct (_ <=? _)%nat; [|exact H].
  apply checked_within; [exact H|]. destruct (_ >? _)%js; Scoring.q_norm; lra.
Qed.

Lemma Q_round_le (q : Q) (z : Z) : q < inject_Z z + (1 # 2) -> Q_round q <= inject_Z z.
Proof.
  intros H. unfold Q_round. rewrite <- Zle_Qle.
  destruct (Z_le_gt_dec (Qfloor (q + (1 # 2))) z) as [Hle|Hgt]; [exact Hle|].
  assert (Hz : (z + 1 <= Qfloor (q + (1 # 2)))%Z) by lia.
  rewrite Zle_Qle, inject_Z_plus in Hz.
  pose proof (Qfloor_le (q + (1 # 2))) as Hf.
  change (inject_Z 1) with 1 in Hz.
  lra.
Qed.

Lemma Q_round_nonneg (q : Q) : 0 <= q -> 0 <= Q_round q.
Proof.
  intros H. unfold Q_round. change 0 with (inject_Z 0). rewrite <- Zle_Qle.
  change 0%Z with (Qfloor 0). apply Qfloor_resp_le. lra.
Qed.

Lemma final_within (k : Q) (z : Z) (t : Tally) :
  0 <= k -> k * 100 < inject_Z z + (1 # 2) -> (0 <= z <= 100)%Z ->
  within k t ->
  0 <= final_confidence t <= inject_Z z.
Proof.
  intros Hk Hz Hz100 [H0 H1]. unfold final_confidence. cbv zeta.
  set (c := if (0 <? factorsChecked t)%nat then _ else _).
  assert (Hc : 0 <= c <= k * 100).
  { subst c. destruct (0 <? factorsChecked t)%nat eqn:E; [|Scoring.q_norm; nra].
    apply Nat.ltb_lt in E. cbn [num_mul num_div num_Z Q_arith].
    change (inject_Z 100) with 100.
    assert (Hn : 0 < inject_Z (Z.of_nat (factorsChecked t))).
    { change 0 with (inject_Z 0). rewrite <- Zlt_Qlt. lia. }
    set (n := inject_Z (Z.of_nat (factorsChecked t))) in *.
    assert (Hq : 0 <= score t / n <= k).
    { split; [apply Qle_shift_div_l; [exact Hn|lra]|
              apply Qle_shift_div_r; [exact Hn|lra]]. }
    nra. }
  simpl. pose proof (Q_round_nonneg c (proj1 Hc)) as Hr0.
  assert (Hr1 : Q_round c <= inject_Z z) by (apply Q_round_le; lra).
  assert (H100 : inject_Z z <= 100).
  { change 100 with (inject_Z 100). rewrite <- Zle_Qle. lia. }
  split.
  - apply Q.min_glb; [exact Hr0|discriminate].
  - eapply Qle_trans; [apply Q.le_min_l|exact Hr1].
Qed.

Lemma confidence_in_doubles (d : Detector (N := float)) (l : Latency (N := float))
    (r : Results (N := float)) :
  let c := confidence (_calculateConfidence d l r) in
  negb (PrimFloat.ltb 60 c) && PrimFloat.leb 0 c && PrimFloat.leb c 30 = true.
Proof.
  unfold _calculateConfidence. cbv zeta. cbn [confidence].
  destruct (suspiciousFactors r) as [[[] [] []]|], (isVirtual r) as [[]|].
  all: unfold latency_block, mouse_block.
  all: destruct (_ <? _)%nat.
  all: destruct (_ <=? _)%nat.
  all: repeat match goal with
              | |- context [if ?c then _ else _] => destruct c
              end.
  all: vm_compute; reflexivity.
Qed.

(** X24: the first version of the detector never reports a remote
    desktop: the confidence is the average of the factors checked, no
    factor is worth more than 0.3, so the confidence is at most 30 and
    never above the 60 that [detected] asks for.  In exact arithmetic
    and in doubles. *)
Theorem remote_desktop_is_never_detected :
  (forall (d : Detector (N := Q)) (l : Latency (N := Q)) (r : Results (N := Q)),
      detected (_calculateConfidence d l r) = false
      /\ 0 <= confidence (_calculateConfidence d l r) <= 30)
  /\
  (forall (d : Detector (N := float)) (l : Latency (N := float))
          (r : Results (N := float)),
      detected (_calculateConfidence d l r) = false
      /\ PrimFloat.leb 0 (confidence (_calculateConfidence d l r)) = true
      /\ PrimFloat.leb (confidence (_calculateConfidence d l r)) 30 = true).
Proof.
  split.
  - intros d l r. unfold _calculateConfidence. cbv zeta. cbn [detected confidence].
    match goal with
    | |- context [final_confidence ?t] =>
        assert (H : 0 <= final_confidence t <= inject_Z 30)
    end.
    { apply (final_within (3 # 10)); [discriminate|reflexivity|lia|].
      apply latency_within; [discriminate|]. apply mouse_within; [discriminate|].
      apply hardware_within, screen_within. split; simpl; discriminate. }
    split; [|exact H]. apply Scoring.Q_ltb_false.
    apply Qle_trans with (inject_Z 30); [exact (proj2 H)|discriminate].
  - intros d l r. pose proof (confidence_in_doubles d l r) as H. cbv zeta in H.
    apply andb_prop in H as [H H30]. apply andb_prop in H as [H60 H0].
    apply negb_true_iff in H60. repeat split; assumption.
Qed.

(** *** The second version *)

Section Kvm.
Import RemoteDesktopDetectorKvm.

Lemma kvm_within (r : RemoteDesktopDetectorKvm.Results (N := Q)) (t : Tally) :
  within (35 # 100) t -> within (35 # 100) (kvm_block r t).
Proof.
  intros H. unfold kvm_block, kvm_score. cbv zeta.
  destruct (keyboardLag _), (mouseJitter _), (bool_decide _); cbn [orb];
    try exact H; (apply checked_within; [exact H|vm_compute; split; congruence]).
Qed.

(** X25: the second version never reports remote access either.  Its
    reduced-motion and remote-software factors are always counted, so at
    least two factors share the score; the confidence is at most 43,
    [detected] is false, the type is never defaulted to 'other', and the
    result shown is 'No Remote Access Detected' whatever was found. *)
Theorem remote_access_is_never_detected
    (d : Detector (N := Q)) (l : Latency (N := Q))
    (r : RemoteDesktopDetectorKvm.Results (N := Q)) :
  let verdict := RemoteDesktopDetectorKvm._calculateConfidence d l r in
  RemoteDesktopDetectorKvm.detected verdict.1 = false
  /\ 0 <= RemoteDesktopDetectorKvm.confidence verdict.1 <= 43
  /\ type verdict.1 = kvm_type r
  /\ verdict.2 = "No Remote Access Detected".
Proof.
  unfold RemoteDesktopDetectorKvm._calculateConfidence. cbv zeta.
  cbn [fst snd RemoteDesktopDetectorKvm.detected RemoteDesktopDetectorKvm.confidence type].
  match goal with
  | |- context [final_confidence ?t] =>
      assert (H : 0 <= final_confidence t <= inject_Z 43); [|set (T := t) in *]
  end.
  { set (t3 := kvm_block r _).
    assert (H3 : within (35 # 100) t3).
    { apply kvm_within. apply (within_weaken (3 # 10)); [discriminate|].
      apply hardware_within, screen_within. split; simpl; discriminate. }
    set (t4 := reduced_motion_block r t3).
    assert (H4 : within (35 # 100) t4).
    { subst t4. unfold reduced_motion_block. apply checked_within; [exact H3|].
      destruct (reducedMotion_detected r); Scoring.q_norm; lra. }
    set (t5 := remote_software_block r t4).
    assert (H5 : within (425 # 1000) t5).
    { subst t5 t4. unfold remote_software_block, reduced_motion_block, within, checked in *.
      cbv zeta. cbn [score factorsChecked] in *.
      rewrite !inject_S.
      assert (Hn : 0 <= inject_Z (Z.of_nat (factorsChecked t3))).
      { change 0 with (inject_Z 0). rewrite <- Zle_Qle. lia. }
      destruct (reducedMotion_detected r), (_ || _); Scoring.q_norm; lra. }
    apply (final_within (425 # 1000)); [discriminate|reflexivity|lia|].
    apply latency_within; [discriminate|]. apply mouse_within; [discriminate|].
    exact H5. }
  assert (Hd : (final_confidence T >? js 60)%js = false).
  { apply Scoring.Q_ltb_false.
    apply Qle_trans with (inject_Z 43); [exact (proj2 H)|discriminate]. }
  rewrite Hd. cbn [andb]. repeat split; try reflexivity; apply H.
Qed.

End Kvm.

End Verdict.

(** ** The further properties at recorded inputs *)

Module Instances.
Import Sessions Inputs.

Lemma bot_verdict_is_out_of_reach_witness :
  (BotDetector.normalizedScore BotDetector.new_scoreWeights all_flagged <= 9 # 13)%Q
  /\ BotDetector._getBotStatusLabel twenty_movements
       (BotDetector.normalizedScore BotDetector.new_scoreWeights all_flagged)
     <> "Highly likely to be a bot".
Proof.
  apply (Display.bot_verdict_is_out_of_reach all_flagged twenty_movements).
  - intros key s H. unfold all_flagged in H. cbn [list_to_map foldr fst snd] in H.
    repeat (apply lookup_insert_Some in H; destruct H as [[_ <-]|[_ H]];
            [split; discriminate|]).
    rewrite lookup_empty in H. discriminate H.
  - reflexivity.
  - reflexivity.
  - reflexivity.
Defined.

Lemma indicator_and_label_agree_except_on_NaN_witness :
  BotDetectorPage.status (BotDetectorPage._updateScoreIndicator after_stationary_session)
  = "Highly likely to be a bot"
  /\ BotDetector._getBotStatusLabel after_stationary_session NaN = "Likely human".
Proof.
  apply (proj2 Display.indicator_and_label_agree_except_on_NaN after_stationary_session).
  - vm_compute. reflexivity.
  - apply Nat.leb_le. vm_compute. reflexivity.
Defined.

Lemma press_release_round_trip_witness :
  RemoteDesktopVerdict._handleMouseUp 0 (5 # 1)%Q RemoteDesktopVerdict.new_Latency
  = RemoteDesktopVerdict.new_Latency.
Proof.
  exact (proj1 (proj2 (proj2 (proj2
           (RemoteDesktop.press_release_round_trip
              0%Z 0%Q 0%Q 0%Q (5 # 1)%Q RemoteDesktopVerdict.new_Latency))))
           eq_refl).
Defined.

Lemma remote_verdicts_are_ordered_witness :
  MouseInteractionEvents.possiblyRemote
    (MouseInteractionEvents.getRemoteAccessResults scored_75) = true
  /\ MouseInteractionEvents.bar_color
       (MouseInteractionEvents._updateRemoteDetectionIndicator scored_75) = "#F44336".
Proof.
  split.
  - exact (proj1 (Interaction.remote_verdicts_are_ordered scored_75) eq_refl).
  - exact (proj1 (proj2 (Interaction.remote_verdicts_are_ordered scored_75)) eq_refl).
Defined.

End Instances.
